(** * LogiData: the CSV validation and typing engine

    A shallow embedding of [src/services/csvValidation.ts]: the class
    [CSVValidator] (column type detection, cell validation, row validation
    with duplicate detection, summary) and the driver [validateCSV].

    Conventions of the embedding.
    - A JavaScript string is a [string]; its characters are the code units
      U+0000 to U+00FF (Latin-1).  White space, lower-casing and the
      regular expression class [\s] are those of ECMAScript restricted to
      that range.
    - A JavaScript number is a binary64 value, [spec_float] of the
      Standard Library with [prec = 53] and [emax = 1024].
    - An object used as a dictionary is an insertion-ordered list of own
      data properties ([Obj.t]), read and written under their own names.
      This is how an object literal behaves for every key but one: an
      assignment under [__proto__] is taken by the accessor inherited from
      [Object.prototype] and creates no property.  The properties that
      depend on a column being stored under its name therefore assume
      that no column is named [__proto__]; and a read is that of the code
      wherever the key is an own property, or is not a property of
      [Object.prototype] either (it is then [undefined]).
    - The [Set] of seen row keys is a duplicate-free list.
    - [new Date(s)] is implementation-defined in ECMAScript beyond one
      interchange format, so the validator is parameterised by the
      engine's date parser (Section [Validator]). *)

From Stdlib Require Import List String Ascii ZArith Bool Arith Lia.
From Stdlib Require Import Floats.SpecFloat.
From Stdlib Require Import Numbers.DecimalString.
From Stdlib Require Import Sorting.Permutation.
Import ListNotations.

Open Scope string_scope.

(* ================================================================== *)
(** * JavaScript string primitives                                     *)
(* ================================================================== *)

Module JS.

(** WhiteSpace and LineTerminator code points below U+0100: TAB, LF, VT,
    FF, CR, SP and NBSP.  Used by [String.prototype.trim] and by [\s]. *)
Definition isWhiteSpace (c : ascii) : bool :=
  let n := nat_of_ascii c in
  ((9 <=? n) && (n <=? 13) || (n =? 32) || (n =? 160))%nat.

Fixpoint trimStart (s : string) : string :=
  match s with
  | EmptyString => EmptyString
  | String c s' => if isWhiteSpace c then trimStart s' else s
  end.

Fixpoint trimEnd (s : string) : string :=
  match s with
  | EmptyString => EmptyString
  | String c s' =>
      match trimEnd s' with
      | EmptyString => if isWhiteSpace c then EmptyString else String c EmptyString
      | t => String c t
      end
  end.

(** [s.trim()] *)
Definition trim (s : string) : string := trimEnd (trimStart s).

(** Lower-casing of one code unit: A-Z, and U+00C0-U+00DE except the
    multiplication sign U+00D7. *)
Definition lowerChar (c : ascii) : ascii :=
  let n := nat_of_ascii c in
  if ((65 <=? n) && (n <=? 90)
      || (192 <=? n) && (n <=? 222) && negb (n =? 215))%nat
  then ascii_of_nat (n + 32) else c.

(** [s.toLowerCase()] *)
Fixpoint toLowerCase (s : string) : string :=
  match s with
  | EmptyString => EmptyString
  | String c s' => String (lowerChar c) (toLowerCase s')
  end.

(** [s.startsWith(p)] *)
Fixpoint startsWith (s p : string) : bool :=
  match p, s with
  | EmptyString, _ => true
  | String _ _, EmptyString => false
  | String a p', String b s' => Ascii.eqb a b && startsWith s' p'
  end.

(** [s.includes(sub)] *)
Fixpoint includes (s sub : string) : bool :=
  startsWith s sub ||
  match s with
  | EmptyString => false
  | String _ s' => includes s' sub
  end.

(** [s.split(sep)] for a one-character separator: never the empty list. *)
Fixpoint split (sep : ascii) (s : string) : list string :=
  match s with
  | EmptyString => [EmptyString]
  | String c s' =>
      if Ascii.eqb c sep then EmptyString :: split sep s'
      else match split sep s' with
           | [] => [String c EmptyString]
           | f :: fs => String c f :: fs
           end
  end.

(** [s.replace(/c/g, '')] for a one-character pattern [c]. *)
Fixpoint removeAll (c : ascii) (s : string) : string :=
  match s with
  | EmptyString => EmptyString
  | String a s' => if Ascii.eqb a c then removeAll c s' else String a (removeAll c s')
  end.

(** [xs.join(sep)] *)
Fixpoint join (sep : string) (xs : list string) : string :=
  match xs with
  | [] => EmptyString
  | [x] => x
  | x :: rest => x ++ sep ++ join sep rest
  end.

(** [xs.includes(x)] on an array of strings *)
Definition arrayIncludes (xs : list string) (x : string) : bool :=
  existsb (String.eqb x) xs.

(** Template-literal rendering of a non-negative integer. *)
Definition numberToString (n : nat) : string :=
  NilEmpty.string_of_uint (Nat.to_uint n).

(** Truthiness of a string: the empty string is falsy. *)
Definition truthy (s : string) : bool :=
  match s with EmptyString => false | _ => true end.

(** [sub] occurs in [s]. *)
Definition occursIn (sub s : string) : Prop :=
  exists pre suf, s = pre ++ sub ++ suf.

(** [kw] occurs in [s] up to the case of the letters of [s]. *)
Definition occursIgnoringCase (kw s : string) : Prop :=
  exists pre mid suf, s = pre ++ mid ++ suf /\ toLowerCase mid = kw.

(** Every character of [s] is white space (in particular, [s] is empty). *)
Definition blank (s : string) : Prop :=
  Forall (fun c => isWhiteSpace c = true) (list_ascii_of_string s).

End JS.

(* ================================================================== *)
(** * Column type detection                                            *)
(* ================================================================== *)

(** The branch of [detectColumnTypes] taken for one column name. *)
Definition detectColumnType (col : string) : string :=
  let lowerCol := JS.toLowerCase col in
  if JS.includes lowerCol "email" then "email"
  else if JS.includes lowerCol "date" || JS.includes lowerCol "time" then "date"
  else if JS.includes lowerCol "price" || JS.includes lowerCol "amount"
          || JS.includes lowerCol "cost" then "number"
  else if JS.includes lowerCol "active" || JS.includes lowerCol "enabled" then "boolean"
  else "string".

(* ================================================================== *)
(** * Numbers: [parseFloat] and [isNaN]                                *)
(* ================================================================== *)

Module Number.

Definition prec : Z := 53.
Definition emax : Z := 1024.

Definition isDigit (c : ascii) : bool :=
  let n := nat_of_ascii c in ((48 <=? n) && (n <=? 57))%nat.

Definition digitValue (c : ascii) : Z := Z.of_nat (nat_of_ascii c - 48).

(** The longest run of decimal digits at the head of [s], and what follows. *)
Fixpoint spanDigits (s : string) : string * string :=
  match s with
  | EmptyString => (EmptyString, EmptyString)
  | String c s' =>
      if isDigit c then let (d, r) := spanDigits s' in (String c d, r)
      else (EmptyString, s)
  end.

Fixpoint digitsValue (acc : Z) (d : string) : Z :=
  match d with
  | EmptyString => acc
  | String c d' => digitsValue (10 * acc + digitValue c)%Z d'
  end.

(** An optional sign: [true] for a minus. *)
Definition takeSign (s : string) : bool * string :=
  match s with
  | String "-" s' => (true, s')
  | String "+" s' => (false, s')
  | _ => (false, s)
  end.

(** The value of an ExponentPart at the head of [s]; [0] when there is
    none (an [e] that no digit follows is not part of the literal). *)
Definition exponentPart (s : string) : Z :=
  match s with
  | String c s' =>
      if Ascii.eqb c "e" || Ascii.eqb c "E" then
        let (neg, s'') := takeSign s' in
        let (d, _) := spanDigits s'' in
        if neg then (- digitsValue 0 d)%Z else digitsValue 0 d
      else 0%Z
  | EmptyString => 0%Z
  end.

(** The binary64 value nearest to [m * 10^e10] (ties to even), [m >= 0]. *)
Definition ofDecimal (neg : bool) (m e10 : Z) : spec_float :=
  match m with
  | Z0 => S754_zero neg
  | Zpos p =>
      if (0 <=? e10)%Z then
        binary_round prec emax neg (p * Z.to_pos (10 ^ e10))%positive 0
      else
        let d := (10 ^ (- e10))%Z in
        let s := (64 + Z.log2_up d)%Z in
        let n := (m * 2 ^ s)%Z in
        let r := (n mod d)%Z in
        let loc := if (r =? 0)%Z then loc_Exact else loc_Inexact (2 * r ?= d)%Z in
        binary_round_aux prec emax neg (n / d)%Z (- s)%Z loc
  | Zneg _ => S754_nan
  end.

(** [parseFloat(str)]: the value of the longest prefix of [str], after
    leading white space, that is a StrDecimalLiteral; NaN when no prefix
    is one. *)
Definition parseFloat (str : string) : spec_float :=
  let (neg, s) := takeSign (JS.trimStart str) in
  if JS.startsWith s "Infinity" then S754_infinity neg
  else
    let (ip, r1) := spanDigits s in
    let (fp, r2) :=
      match r1 with
      | String "." r => spanDigits r
      | _ => (EmptyString, r1)
      end in
    match ip, fp with
    | EmptyString, EmptyString => S754_nan
    | _, _ =>
        ofDecimal neg (digitsValue 0 (ip ++ fp))
                  (exponentPart r2 - Z.of_nat (String.length fp))%Z
    end.

Definition isNaN (f : spec_float) : bool :=
  match f with S754_nan => true | _ => false end.

(** ** The grammar the literal is read against

    StrDecimalLiteral of ECMAScript, as a predicate on whole strings. *)

Definition allDigits (s : string) : Prop :=
  Forall (fun c => isDigit c = true) (list_ascii_of_string s).

Definition DecimalDigits (s : string) : Prop :=
  s <> EmptyString /\ allDigits s.

Definition SignedInteger (s : string) : Prop :=
  exists d, DecimalDigits d /\ (s = d \/ s = String "+" d \/ s = String "-" d).

(** An optional ExponentPart. *)
Definition OptExponentPart (e : string) : Prop :=
  e = EmptyString \/
  exists c n, (c = "e"%char \/ c = "E"%char) /\ SignedInteger n /\ e = String c n.

Inductive StrUnsignedDecimalLiteral : string -> Prop :=
| SU_Infinity : StrUnsignedDecimalLiteral "Infinity"
| SU_IntDot (i f e : string) :
    DecimalDigits i -> allDigits f -> OptExponentPart e ->
    StrUnsignedDecimalLiteral (i ++ String "." (f ++ e))
| SU_Dot (f e : string) :
    DecimalDigits f -> OptExponentPart e ->
    StrUnsignedDecimalLiteral (String "." (f ++ e))
| SU_Int (i e : string) :
    DecimalDigits i -> OptExponentPart e ->
    StrUnsignedDecimalLiteral (i ++ e).

Inductive StrDecimalLiteral : string -> Prop :=
| SD_Unsigned (u : string) : StrUnsignedDecimalLiteral u -> StrDecimalLiteral u
| SD_Plus (u : string) : StrUnsignedDecimalLiteral u -> StrDecimalLiteral (String "+" u)
| SD_Minus (u : string) : StrUnsignedDecimalLiteral u -> StrDecimalLiteral (String "-" u).

(** The heads at which an unsigned literal can start: [Infinity], a
    digit, or a point that a digit follows. *)
Definition unsignedIsNumber (s : string) : bool :=
  JS.startsWith s "Infinity"
  || match s with
     | String c r =>
         isDigit c
         || (Ascii.eqb c "." && match r with String c' _ => isDigit c' | _ => false end)
     | EmptyString => false
     end.

(** The characters a StrDecimalLiteral is written with. *)
Definition literalChar (c : ascii) : bool :=
  isDigit c || existsb (Ascii.eqb c) (list_ascii_of_string "+-.eEInfity").

Definition literalChars (s : string) : Prop :=
  Forall (fun c => literalChar c = true) (list_ascii_of_string s).

(** Some prefix of [s] is a StrDecimalLiteral. *)
Definition hasLiteralPrefix (s : string) : Prop :=
  exists p rest, s = p ++ rest /\ StrDecimalLiteral p.

End Number.

(* ================================================================== *)
(** * Regular expressions                                              *)
(* ================================================================== *)

Module RegExp.

Inductive t : Type :=
| Fail                         (* matches nothing *)
| Eps                          (* matches the empty string *)
| Class (p : ascii -> bool)    (* one character of a class *)
| Seq (a b : t)
| Alt (a b : t)
| Star (a : t).

(** [a+] *)
Definition Plus (a : t) : t := Seq a (Star a).

Fixpoint nullable (r : t) : bool :=
  match r with
  | Fail => false
  | Eps => true
  | Class _ => false
  | Seq a b => nullable a && nullable b
  | Alt a b => nullable a || nullable b
  | Star _ => true
  end.

Definition seq (a b : t) : t :=
  match a, b with
  | Fail, _ => Fail
  | _, Fail => Fail
  | Eps, _ => b
  | _, _ => Seq a b
  end.

Definition alt (a b : t) : t :=
  match a, b with
  | Fail, _ => b
  | _, Fail => a
  | _, _ => Alt a b
  end.

(** Derivative of [r] by the character [c]. *)
Fixpoint deriv (c : ascii) (r : t) : t :=
  match r with
  | Fail => Fail
  | Eps => Fail
  | Class p => if p c then Eps else Fail
  | Seq a b =>
      alt (seq (deriv c a) b) (if nullable a then deriv c b else Fail)
  | Alt a b => alt (deriv c a) (deriv c b)
  | Star a => seq (deriv c a) (Star a)
  end.

(** [/^r$/.test(s)] *)
Fixpoint test (r : t) (s : string) : bool :=
  match s with
  | EmptyString => nullable r
  | String c s' => test (deriv c r) s'
  end.

End RegExp.

(** [[^\s@]] *)
Definition notSpaceNorAt (c : ascii) : bool :=
  negb (JS.isWhiteSpace c || Ascii.eqb c "@").

(** [/^[^\s@]+@[^\s@]+\.[^\s@]+$/] *)
Definition emailRegex : RegExp.t :=
  RegExp.Seq (RegExp.Plus (RegExp.Class notSpaceNorAt))
    (RegExp.Seq (RegExp.Class (Ascii.eqb "@"))
      (RegExp.Seq (RegExp.Plus (RegExp.Class notSpaceNorAt))
        (RegExp.Seq (RegExp.Class (Ascii.eqb "."))
          (RegExp.Plus (RegExp.Class notSpaceNorAt))))).

(* ================================================================== *)
(** * Values, objects, JSON keys, sets                                 *)
(* ================================================================== *)

(** The values a cleaned cell can hold ([cleanedValue: any]). *)
Inductive JSValue : Type :=
| Null
| Str (s : string)
| Num (f : spec_float)
| Bool (b : bool).

Module Obj.

(** Own properties in creation order. *)
Definition t (A : Type) : Type := list (string * A).

Definition empty {A : Type} : t A := [].

(** [o[k]] on the own properties: [None] stands for [undefined], the
    value read under a key that is neither own nor inherited. *)
Fixpoint get {A : Type} (k : string) (o : t A) : option A :=
  match o with
  | [] => None
  | (k', v) :: o' => if String.eqb k k' then Some v else get k o'
  end.

(** [o[k] = v] for a key other than [__proto__]: an existing property
    keeps its place, a new one is created last. *)
Fixpoint set {A : Type} (k : string) (v : A) (o : t A) : t A :=
  match o with
  | [] => [(k, v)]
  | (k', v') :: o' =>
      if String.eqb k k' then (k, v) :: o' else (k', v') :: set k v o'
  end.

(** The same properties with every value sent through [g]. *)
Definition mapValues {A B : Type} (g : A -> B) (o : t A) : t B :=
  map (fun e => (fst e, g (snd e))) o.

(** A key is an array index when it is the canonical decimal form of an
    integer below 2^32 - 1. *)
Definition arrayIndex (k : string) : option Z :=
  match k with
  | EmptyString => None
  | String c rest =>
      if forallb Number.isDigit (list_ascii_of_string k)
         && (negb (Ascii.eqb c "0") || String.eqb rest EmptyString)
      then let n := Number.digitsValue 0 k in
           if (n <? 4294967295)%Z then Some n else None
      else None
  end.

Fixpoint insertIndexed {A : Type} (n : Z) (e : string * A)
         (l : list (Z * (string * A))) : list (Z * (string * A)) :=
  match l with
  | [] => [(n, e)]
  | (m, e') :: l' =>
      if (n <? m)%Z then (n, e) :: l else (m, e') :: insertIndexed n e l'
  end.

Fixpoint indexed {A : Type} (o : t A) : list (Z * (string * A)) :=
  match o with
  | [] => []
  | (k, v) :: o' =>
      match arrayIndex k with
      | Some n => insertIndexed n (k, v) (indexed o')
      | None => indexed o'
      end
  end.

Definition named {A : Type} (o : t A) : list (string * A) :=
  filter (fun e => match arrayIndex (fst e) with Some _ => false | None => true end) o.

(** Enumeration order of own properties: array indices in ascending
    order, then the other keys in creation order. *)
Definition entries {A : Type} (o : t A) : list (string * A) :=
  (map snd (indexed o) ++ named o)%list.

End Obj.

Module JSON.

(** The JSON text of a flat object, kept as its sequence of members.
    Two texts are equal exactly when their member sequences are: string
    escaping is injective, and the decimal rendering of a finite non-zero
    binary64 value determines it. *)
Inductive value : Type :=
| JNull
| JBool (b : bool)
| JNumber (f : spec_float)
| JString (s : string).

Definition text : Type := list (string * value).

(** Non-finite numbers are serialised as [null] and both zeros as [0]. *)
Definition ofNumber (f : spec_float) : value :=
  match f with
  | S754_nan => JNull
  | S754_infinity _ => JNull
  | S754_zero _ => JNumber (S754_zero false)
  | S754_finite _ _ _ => JNumber f
  end.

Definition ofValue (v : JSValue) : value :=
  match v with
  | Null => JNull
  | Str s => JString s
  | Num f => ofNumber f
  | Bool b => JBool b
  end.

(** [JSON.stringify(o)] *)
Definition stringify (o : Obj.t JSValue) : text :=
  Obj.mapValues ofValue (Obj.entries o).

Definition float_eq_dec (x y : spec_float) : {x = y} + {x <> y}.
Proof.
  decide equality; try apply Bool.bool_dec; try apply Z.eq_dec; apply Pos.eq_dec.
Defined.

Definition value_eq_dec (x y : value) : {x = y} + {x <> y}.
Proof.
  decide equality; try apply Bool.bool_dec; try apply string_dec; apply float_eq_dec.
Defined.

Definition text_eq_dec (x y : text) : {x = y} + {x <> y}.
Proof.
  apply list_eq_dec. intros [k v] [k' v'].
  destruct (string_dec k k') as [->|]; [|right; congruence].
  destruct (value_eq_dec v v') as [->|]; [left; reflexivity|right; congruence].
Defined.

End JSON.

(** [Set<string>] holding row keys. *)
Module KeySet.

Definition t : Type := list JSON.text.

Definition empty : t := [].

Definition has (k : JSON.text) (s : t) : bool :=
  if in_dec JSON.text_eq_dec k s then true else false.

Definition add (k : JSON.text) (s : t) : t :=
  if has k s then s else (s ++ [k])%list.

End KeySet.

(* ================================================================== *)
(** * Result records                                                   *)
(* ================================================================== *)

Module ValidationResult.
Record t : Type := mk {
  isValid : bool;
  errors : list string;
  cleanedValue : JSValue;
  type : option string
}.
End ValidationResult.

Module RowValidationResult.
Record t : Type := mk {
  rowNumber : nat;
  data : Obj.t JSValue;
  errors : list string;
  isDuplicate : bool;
  isValid : bool
}.
End RowValidationResult.

Module CSVValidationSummary.
Record t : Type := mk {
  totalRows : nat;
  validRows : nat;
  duplicateRows : nat;
  errorRows : nat;
  columnTypes : Obj.t string;
  validationErrors : list string;
  issues : list string
}.
End CSVValidationSummary.

(** The outcome of the promise returned by [validateCSV]. *)
Inductive Promise (A : Type) : Type :=
| Resolved (a : A)
| Rejected (message : string).
Arguments Resolved {A} a.
Arguments Rejected {A} message.

(** The fields of a [CSVValidator] instance. *)
Record CSVValidator : Type := mkCSVValidator {
  columns : list string;
  seenRows : KeySet.t;
  columnTypes : Obj.t string
}.

(* ================================================================== *)
(** * The validator                                                    *)
(* ================================================================== *)

Definition LF : ascii := ascii_of_nat 10.
Definition doubleQuote : ascii := ascii_of_nat 34.

Section Validator.

(** The engine's date parser: [dateToISOString s] is [None] when
    [isNaN(new Date(s).getTime())] and [Some (new Date(s).toISOString())]
    otherwise. *)
Variable dateToISOString : string -> option string.

(** The constructor's [detectColumnTypes]: one assignment per column. *)
Definition detectColumnTypes (this : CSVValidator) : CSVValidator :=
  fold_left
    (fun this col =>
       mkCSVValidator (columns this) (seenRows this)
                      (Obj.set col (detectColumnType col) (columnTypes this)))
    (columns this) this.

(** [new CSVValidator(columns)] *)
Definition newCSVValidator (cols : list string) : CSVValidator :=
  detectColumnTypes (mkCSVValidator cols KeySet.empty Obj.empty).

(** [expectedType === t] inside the [switch]. *)
Definition isCase (expectedType : option string) (t : string) : bool :=
  match expectedType with
  | Some e => String.eqb e t
  | None => false
  end.

Definition validateValue (value : option string) (expectedType : option string)
  : ValidationResult.t :=
  let cleanedValue := match value with Some s => JS.trim s | None => EmptyString end in
  if negb (JS.truthy cleanedValue) then
    ValidationResult.mk false ["Missing value"] Null expectedType
  else if isCase expectedType "number" then
    let numValue := Number.parseFloat cleanedValue in
    if Number.isNaN numValue then
      ValidationResult.mk false ["Invalid number format"] (Str cleanedValue) expectedType
    else
      ValidationResult.mk true [] (Num numValue) expectedType
  else if isCase expectedType "email" then
    if negb (RegExp.test emailRegex cleanedValue) then
      ValidationResult.mk false ["Invalid email format"] (Str cleanedValue) expectedType
    else
      ValidationResult.mk true [] (Str cleanedValue) expectedType
  else if isCase expectedType "date" then
    match dateToISOString cleanedValue with
    | None =>
        ValidationResult.mk false ["Invalid date format"] (Str cleanedValue) expectedType
    | Some iso =>
        ValidationResult.mk true [] (Str iso) expectedType
    end
  else if isCase expectedType "boolean" then
    let lowerValue := JS.toLowerCase cleanedValue in
    if JS.arrayIncludes ["true"; "1"; "yes"; "on"] lowerValue then
      ValidationResult.mk true [] (Bool true) expectedType
    else if JS.arrayIncludes ["false"; "0"; "no"; "off"] lowerValue then
      ValidationResult.mk true [] (Bool false) expectedType
    else
      ValidationResult.mk false ["Invalid boolean value"] (Str cleanedValue) expectedType
  else if isCase expectedType "string" then
    if (1000 <? String.length cleanedValue)%nat then
      ValidationResult.mk false ["String too long (max 1000 characters)"]
                          (Str cleanedValue) expectedType
    else
      ValidationResult.mk true [] (Str cleanedValue) expectedType
  else
    ValidationResult.mk true [] (Str cleanedValue) expectedType.

(** The locals of [validateRow] that the column loop updates. *)
Record RowAcc : Type := mkRowAcc {
  acc_errors : list string;
  acc_cleanedData : Obj.t JSValue;
  acc_isValid : bool
}.

(** The body of the [forEach] over the columns in [validateRow]. *)
Definition validateColumn (this : CSVValidator) (rowData : Obj.t string)
           (acc : RowAcc) (col : string) : RowAcc :=
  let value := Obj.get col rowData in
  let expectedType := Obj.get col (columnTypes this) in
  let validation := validateValue value expectedType in
  let cleanedData := Obj.set col (ValidationResult.cleanedValue validation)
                             (acc_cleanedData acc) in
  if negb (ValidationResult.isValid validation) then
    mkRowAcc (acc_errors acc ++
                [(col ++ ": " ++ JS.join ", " (ValidationResult.errors validation))%string])%list
             cleanedData false
  else
    mkRowAcc (acc_errors acc) cleanedData (acc_isValid acc).

(** [validateRow]: the result and the validator after the call. *)
Definition validateRow (this : CSVValidator) (rowData : Obj.t string) (rowNumber : nat)
  : RowValidationResult.t * CSVValidator :=
  let acc := fold_left (validateColumn this rowData) (columns this)
                       (mkRowAcc [] Obj.empty true) in
  let rowKey := JSON.stringify (acc_cleanedData acc) in
  let isDuplicate := KeySet.has rowKey (seenRows this) in
  let this' :=
    if negb isDuplicate then
      mkCSVValidator (columns this) (KeySet.add rowKey (seenRows this)) (columnTypes this)
    else this in
  (RowValidationResult.mk rowNumber (acc_cleanedData acc) (acc_errors acc) isDuplicate
                          (acc_isValid acc && negb isDuplicate),
   this').

Definition getValidationSummary (this : CSVValidator)
           (results : list RowValidationResult.t) : CSVValidationSummary.t :=
  let validRows := List.length (filter RowValidationResult.isValid results) in
  let duplicateRows := List.length (filter RowValidationResult.isDuplicate results) in
  let errorRows :=
    List.length
      (filter (fun r => negb (RowValidationResult.isValid r)
                        && negb (RowValidationResult.isDuplicate r)) results) in
  let allErrors :=
    fold_left
      (fun allErrors result =>
         if (0 <? List.length (RowValidationResult.errors result))%nat then
           (allErrors ++
              [("Row " ++ JS.numberToString (RowValidationResult.rowNumber result)
                  ++ ": " ++ JS.join ", " (RowValidationResult.errors result))%string])%list
         else allErrors)
      results [] in
  CSVValidationSummary.mk (List.length results) validRows duplicateRows errorRows
                          (columnTypes this) allErrors allErrors.

(** [line.split(',').map(v => v.trim().replace(Q, ''))], where [Q] is the
    global pattern matching one double-quote character. *)
Definition parseFields (line : string) : list string :=
  map (fun v => JS.removeAll doubleQuote (JS.trim v)) (JS.split "," line).

(** [headers.forEach((header, index) => rowData[header] = values[index] || '')] *)
Fixpoint buildRowData (headers values : list string) (index : nat)
         (rowData : Obj.t string) : Obj.t string :=
  match headers with
  | [] => rowData
  | header :: rest =>
      buildRowData rest values (S index)
                   (Obj.set header (nth index values EmptyString) rowData)
  end.

(** The [for] loop of [validateCSV], from index [i] over the remaining lines. *)
Fixpoint validateLines (headers : list string) (validator : CSVValidator) (i : nat)
         (lines : list string) (results : list RowValidationResult.t)
  : list RowValidationResult.t * CSVValidator :=
  match lines with
  | [] => (results, validator)
  | line :: rest =>
      let values := parseFields line in
      let rowData := buildRowData headers values 0 Obj.empty in
      let (result, validator') := validateRow validator rowData i in
      validateLines headers validator' (S i) rest (results ++ [result])%list
  end.

(** [csv.split('\n').filter(line => line.trim())] *)
Definition retainedLines (csv : string) : list string :=
  filter (fun line => JS.truthy (JS.trim line)) (JS.split LF csv).

(** The [onload] handler of [validateCSV], on the text read from the file.
    No operation of the handler throws on a string, so its [catch] branch
    is not reached; a failure of the file read itself ([onerror]) happens
    before the handler and is outside this function. *)
Definition validateCSV (csv : string)
  : Promise (list RowValidationResult.t * CSVValidationSummary.t) :=
  match retainedLines csv with
  | [] => Rejected "Empty CSV file"
  | headerLine :: dataLines =>
      let headers := parseFields headerLine in
      let validator := newCSVValidator headers in
      let (results, validator') := validateLines headers validator 1 dataLines [] in
      Resolved (results, getValidationSummary validator' results)
  end.

(** ** Notions used to state the properties *)

(** The text a cell is validated on: [value?.toString().trim() || ''] *)
Definition cleanedText (value : option string) : string :=
  match value with Some s => JS.trim s | None => EmptyString end.

(** The cleaned data [validateRow] computes for a row: one assignment per
    column, in column order. *)
Definition coercedData (this : CSVValidator) (rowData : Obj.t string) : Obj.t JSValue :=
  fold_left
    (fun cleanedData col =>
       Obj.set col
               (ValidationResult.cleanedValue
                  (validateValue (Obj.get col rowData) (Obj.get col (columnTypes this))))
               cleanedData)
    (columns this) Obj.empty.

(** The duplicate-detection key of a result. *)
Definition keyOf (r : RowValidationResult.t) : JSON.text :=
  JSON.stringify (RowValidationResult.data r).

(** The row object [validateCSV] builds for one data line. *)
Definition rowDataOf (headers : list string) (line : string) : Obj.t string :=
  buildRowData headers (parseFields line) 0 Obj.empty.

(** One validator run as a sequence of [validateRow] steps: from state
    [this] and row number [i], the lines produce the results and leave
    the validator in the final state. *)
Inductive Run (headers : list string)
  : CSVValidator -> nat -> list string -> list RowValidationResult.t
    -> CSVValidator -> Prop :=
| Run_done (this : CSVValidator) (i : nat) : Run headers this i [] [] this
| Run_step (this this1 this' : CSVValidator) (i : nat) (line : string)
           (rest : list string) (r : RowValidationResult.t)
           (rs : list RowValidationResult.t) :
    validateRow this (rowDataOf headers line) i = (r, this1) ->
    Run headers this1 (S i) rest rs this' ->
    Run headers this i (line :: rest) (r :: rs) this'.

(** The results of a settled promise; none when it was rejected. *)
Definition resultsOf (p : Promise (list RowValidationResult.t * CSVValidationSummary.t))
  : list RowValidationResult.t :=
  match p with
  | Resolved (results, _) => results
  | Rejected _ => []
  end.

End Validator.

(** A value that [JSON.stringify] renders without loss: not an infinite
    number (rendered as [null]) and not negative zero (rendered as [0]). *)
Definition jsonFaithful (v : JSValue) : bool :=
  match v with
  | Num (S754_finite _ _ _) => true
  | Num (S754_zero false) => true
  | Num _ => false
  | _ => true
  end.

Definition jsonFaithfulRow (r : RowValidationResult.t) : bool :=
  forallb (fun e => jsonFaithful (snd e)) (RowValidationResult.data r).

(** A reference date parser for evaluating the validator on concrete
    inputs: it accepts the date-only form [YYYY-MM-DD] of the ECMAScript
    date-time string format (midnight UTC) and no other string. *)
Module RefDate.

Definition num2 (a b : ascii) : option nat :=
  if Number.isDigit a && Number.isDigit b
  then Some (10 * (nat_of_ascii a - 48) + (nat_of_ascii b - 48)) else None.

Definition isLeap (y : nat) : bool :=
  ((y mod 4 =? 0) && negb (y mod 100 =? 0) || (y mod 400 =? 0))%nat.

Definition daysInMonth (y m : nat) : nat :=
  match m with
  | 2 => if isLeap y then 29 else 28
  | 4 | 6 | 9 | 11 => 30
  | _ => 31
  end.

Definition dateToISOString (s : string) : option string :=
  match list_ascii_of_string s with
  | [y1; y2; y3; y4; d1; m1; m2; d2; a1; a2] =>
      match num2 y1 y2, num2 y3 y4, num2 m1 m2, num2 a1 a2 with
      | Some yh, Some yl, Some m, Some d =>
          if Ascii.eqb d1 "-" && Ascii.eqb d2 "-"
             && ((1 <=? m) && (m <=? 12) && (1 <=? d)
                 && (d <=? daysInMonth (100 * yh + yl) m))%nat
          then Some (s ++ "T00:00:00.000Z") else None
      | _, _, _, _ => None
      end
  | _ => None
  end.

End RefDate.


(* ================================================================== *)
(** * Notions for the further properties                               *)
(* ================================================================== *)

(** ** What a regular expression matches *)

Module RegExpSem.

Inductive Matches : RegExp.t -> string -> Prop :=
| M_Eps : Matches RegExp.Eps EmptyString
| M_Class (p : ascii -> bool) (c : ascii) :
    p c = true -> Matches (RegExp.Class p) (String c EmptyString)
| M_Seq (a b : RegExp.t) (s1 s2 : string) :
    Matches a s1 -> Matches b s2 -> Matches (RegExp.Seq a b) (s1 ++ s2)
| M_AltL (a b : RegExp.t) (s : string) : Matches a s -> Matches (RegExp.Alt a b) s
| M_AltR (a b : RegExp.t) (s : string) : Matches b s -> Matches (RegExp.Alt a b) s
| M_StarNil (a : RegExp.t) : Matches (RegExp.Star a) EmptyString
| M_StarCons (a : RegExp.t) (s1 s2 : string) :
    Matches a s1 -> Matches (RegExp.Star a) s2 -> Matches (RegExp.Star a) (s1 ++ s2).

End RegExpSem.

(** A non-empty run of characters that are neither white space nor [@]. *)
Definition emailWord (w : string) : Prop :=
  w <> EmptyString
  /\ Forall (fun c => notSpaceNorAt c = true) (list_ascii_of_string w).

(** The shape local [@] domain [.] rest, each part an [emailWord]; the
    domain and the rest may themselves hold points. *)
Definition emailShape (s : string) : Prop :=
  exists l d t,
    s = l ++ String "@" (d ++ String "." t)
    /\ emailWord l /\ emailWord d /\ emailWord t.

(** ** Cells of a row *)

(** The validation of the cell of [rowData] under the column [col]. *)
Definition cellOf (dateToISOString : string -> option string)
           (this : CSVValidator) (rowData : Obj.t string) (col : string)
  : ValidationResult.t :=
  validateValue dateToISOString (Obj.get col rowData) (Obj.get col (columnTypes this)).

(** The entry [validateRow] pushes on the errors of a row for a rejected
    cell. *)
Definition cellError (dateToISOString : string -> option string)
           (this : CSVValidator) (rowData : Obj.t string) (col : string) : string :=
  col ++ ": " ++ JS.join ", " (ValidationResult.errors (cellOf dateToISOString this rowData col)).

(** The entry [getValidationSummary] pushes for a row that has errors. *)
Definition rowIssue (r : RowValidationResult.t) : string :=
  "Row " ++ JS.numberToString (RowValidationResult.rowNumber r)
    ++ ": " ++ JS.join ", " (RowValidationResult.errors r).

Definition hasErrors (r : RowValidationResult.t) : bool :=
  (0 <? List.length (RowValidationResult.errors r))%nat.

(** ** Lines and fields *)

Definition CR : ascii := ascii_of_nat 13.

(** The text with every line feed preceded by a carriage return. *)
Fixpoint toCRLF (s : string) : string :=
  match s with
  | EmptyString => EmptyString
  | String c s' =>
      if Ascii.eqb c LF then String CR (String LF (toCRLF s'))
      else String c (toCRLF s')
  end.

(** The number of occurrences of [c] in [s]. *)
Fixpoint countChar (c : ascii) (s : string) : nat :=
  match s with
  | EmptyString => 0
  | String a s' => (if Ascii.eqb a c then 1 else 0) + countChar c s'
  end.

(** ** What the upload service sends to the database

    The payloads [storeUpload] of [src/services/databaseService.ts]
    builds from the report of [validateCSV]: the row of [csv_uploads] and
    the rows of [csv_data].  The database client itself is outside this
    development. *)

(** [Object.keys(o)] *)
Definition Object_keys {A : Type} (o : Obj.t A) : list string :=
  map fst (Obj.entries o).

Module UploadRecord.
Record t : Type := mk {
  filename : string;
  total_rows : nat;
  valid_rows : nat;
  duplicate_rows : nat;
  error_rows : nat;
  column_names : list string;
  upload_status : string;
  validation_summary : CSVValidationSummary.t
}.
End UploadRecord.

Module DataRecord.
Record t : Type := mk {
  upload_id : string;
  row_data : Obj.t JSValue;
  original_row_number : nat;
  is_duplicate : bool;
  validation_errors : list string
}.
End DataRecord.

(** The object inserted into [csv_uploads]. *)
Definition uploadRecord (filename : string) (summary : CSVValidationSummary.t)
  : UploadRecord.t :=
  UploadRecord.mk filename
                  (CSVValidationSummary.totalRows summary)
                  (CSVValidationSummary.validRows summary)
                  (CSVValidationSummary.duplicateRows summary)
                  (CSVValidationSummary.errorRows summary)
                  (Object_keys (CSVValidationSummary.columnTypes summary))
                  "completed"
                  summary.

(** The array inserted into [csv_data]. *)
Definition rowsToInsert (uploadId : string)
           (validationResults : list RowValidationResult.t) : list DataRecord.t :=
  map (fun result =>
         DataRecord.mk uploadId
                       (RowValidationResult.data result)
                       (RowValidationResult.rowNumber result)
                       (RowValidationResult.isDuplicate result)
                       (RowValidationResult.errors result))
      validationResults.

(** The stored rows a reader gets: every read of [csv_data] in the
    repository filters on [is_duplicate = false]. *)
Definition readableRows (rows : list DataRecord.t) : list DataRecord.t :=
  filter (fun row => negb (DataRecord.is_duplicate row)) rows.

(* ================================================================== *)
(** * Properties of the string primitives                              *)
(* ================================================================== *)

Module JSFacts.
Import JS.

Lemma blank_nil : blank EmptyString.
Proof. constructor. Qed.

Lemma blank_cons c s : blank (String c s) <-> isWhiteSpace c = true /\ blank s.
Proof.
  unfold blank; simpl; split.
  - intros H; inversion H; auto.
  - intros [H1 H2]; constructor; assumption.
Qed.

Lemma trimStart_blank s : trimStart s = EmptyString <-> blank s.
Proof.
  induction s as [|c s IH]; simpl.
  - split; [intros _; apply blank_nil | reflexivity].
  - rewrite blank_cons. destruct (isWhiteSpace c) eqn:E.
    + rewrite IH; tauto.
    + split; [discriminate | intros [? _]; discriminate].
Qed.

Lemma trimEnd_blank s : trimEnd s = EmptyString <-> blank s.
Proof.
  induction s as [|c s IH]; simpl.
  - split; [intros _; apply blank_nil | reflexivity].
  - rewrite blank_cons. destruct (trimEnd s) eqn:E.
    + destruct (isWhiteSpace c) eqn:W.
      * split; [intros _; split; [reflexivity | apply IH; reflexivity] | reflexivity].
      * split; [discriminate | intros [? _]; discriminate].
    + split; [discriminate|].
      intros [_ Hb]. apply IH in Hb. discriminate.
Qed.

Lemma trimStart_head s :
  match trimStart s with
  | EmptyString => True
  | String c _ => isWhiteSpace c = false
  end.
Proof.
  induction s as [|c s IH]; simpl; [exact I|].
  destruct (isWhiteSpace c) eqn:E; [exact IH | exact E].
Qed.

Lemma trim_blank s : trim s = EmptyString <-> blank s.
Proof.
  unfold trim. rewrite trimEnd_blank. split.
  - intros Hb. apply trimStart_blank.
    pose proof (trimStart_head s) as Hh.
    destruct (trimStart s) as [|c t]; [reflexivity|].
    apply blank_cons in Hb. destruct Hb as [Hc _]. congruence.
  - intros Hb. apply trimStart_blank in Hb. rewrite Hb. apply blank_nil.
Qed.

Lemma truthy_false s : truthy s = false <-> s = EmptyString.
Proof. destruct s; simpl; split; congruence. Qed.

Lemma startsWith_spec s p :
  startsWith s p = true <-> exists suf, s = p ++ suf.
Proof.
  revert s; induction p as [|a p IH]; intros s.
  - split; [intros _; exists s; reflexivity | intros _; destruct s; reflexivity].
  - destruct s as [|b s]; simpl.
    + split; [discriminate | intros [suf H]; discriminate].
    + rewrite andb_true_iff, IH, Ascii.eqb_eq. split.
      * intros [-> [suf ->]]. exists suf; reflexivity.
      * intros [suf H]. injection H as -> ->. split; [reflexivity | exists suf; reflexivity].
Qed.

Lemma includes_spec s sub : includes s sub = true <-> occursIn sub s.
Proof.
  unfold occursIn. induction s as [|c s IH].
  - cbn [includes]. rewrite orb_false_r, startsWith_spec. split.
    + intros [suf H]. exists EmptyString, suf. exact H.
    + intros [pre [suf H]]. destruct pre; [exists suf; exact H|discriminate].
  - cbn [includes]. rewrite orb_true_iff, startsWith_spec, IH. split.
    + intros [[suf H] | [pre [suf H]]].
      * exists EmptyString, suf. exact H.
      * exists (String c pre), suf. simpl. rewrite H. reflexivity.
    + intros [pre [suf H]]. destruct pre as [|a pre].
      * left. exists suf. exact H.
      * right. simpl in H. injection H as _ H. exists pre, suf. exact H.
Qed.

Lemma toLowerCase_app a b : toLowerCase (a ++ b) = toLowerCase a ++ toLowerCase b.
Proof. induction a as [|c a IH]; simpl; [reflexivity | rewrite IH; reflexivity]. Qed.

Lemma toLowerCase_app_inv s a b :
  toLowerCase s = a ++ b ->
  exists s1 s2, s = s1 ++ s2 /\ toLowerCase s1 = a /\ toLowerCase s2 = b.
Proof.
  revert s; induction a as [|c a IH]; intros s H.
  - exists EmptyString, s. auto.
  - destruct s as [|x s]; [discriminate|].
    simpl in H. injection H as Hc H.
    destruct (IH _ H) as [s1 [s2 [-> [H1 H2]]]].
    exists (String x s1), s2. simpl. rewrite Hc, H1. auto.
Qed.

(** Matching a keyword against the lower-cased name is matching it
    against the name up to case. *)
Lemma includes_lower_spec s kw :
  includes (toLowerCase s) kw = true <-> occursIgnoringCase kw s.
Proof.
  rewrite includes_spec. unfold occursIn, occursIgnoringCase. split.
  - intros [pre [suf H]].
    apply toLowerCase_app_inv in H. destruct H as [s1 [s2 [-> [_ H]]]].
    apply toLowerCase_app_inv in H. destruct H as [m [s3 [-> [Hm _]]]].
    exists s1, m, s3. auto.
  - intros [pre [mid [suf [-> Hm]]]].
    exists (toLowerCase pre), (toLowerCase suf).
    rewrite !toLowerCase_app, Hm. reflexivity.
Qed.

Lemma arrayIncludes_spec xs x : arrayIncludes xs x = true <-> In x xs.
Proof.
  unfold arrayIncludes. rewrite existsb_exists. split.
  - intros [y [Hy E]]. apply String.eqb_eq in E. subst. exact Hy.
  - intros H. exists x. split; [exact H | apply String.eqb_refl].
Qed.

End JSFacts.

(* ================================================================== *)
(** * Properties of [parseFloat]                                       *)
(* ================================================================== *)

Module NumberFacts.
Import Number.

Lemma digitsValue_nonneg d : forall acc, (0 <= acc)%Z -> (0 <= digitsValue acc d)%Z.
Proof.
  induction d as [|c d IH]; intros acc H; cbn [digitsValue]; [exact H|].
  apply IH. unfold digitValue.
  pose proof (Nat2Z.is_nonneg (nat_of_ascii c - 48)). lia.
Qed.

(** *** Rounding never produces NaN *)

Lemma iter_pos_preserves {A : Type} (P : A -> Prop) (f : A -> A) :
  (forall x, P x -> P (f x)) -> forall p x, P x -> P (iter_pos f p x).
Proof.
  intros Hf. induction p as [p IH|p IH|]; intros x Hx; simpl; auto.
Qed.

Lemma shr_1_nonneg mrs : (0 <= shr_m mrs)%Z -> (0 <= shr_m (shr_1 mrs))%Z.
Proof.
  destruct mrs as [m r s]. simpl. intros H.
  destruct m as [|p|p]; [simpl; lia| |lia].
  destruct p; simpl; lia.
Qed.

Lemma shr_fexp_nonneg m e l :
  (0 <= m)%Z -> (0 <= shr_m (fst (shr_fexp prec emax m e l)))%Z.
Proof.
  intros H. unfold shr_fexp, shr.
  assert (H0 : (0 <= shr_m (shr_record_of_loc m l))%Z).
  { destruct l as [|[| |]]; simpl; exact H. }
  destruct (fexp prec emax (Zdigits2 m + e) - e)%Z; simpl; try exact H0.
  apply iter_pos_preserves; [apply shr_1_nonneg | exact H0].
Qed.

Lemma round_nearest_even_nonneg m l : (0 <= m)%Z -> (0 <= round_nearest_even m l)%Z.
Proof.
  intros H. destruct l as [|[| |]]; simpl; try lia.
  destruct (Z.even m); lia.
Qed.

Lemma binary_round_aux_not_nan s m e l :
  (0 <= m)%Z -> isNaN (binary_round_aux prec emax s m e l) = false.
Proof.
  intros H. unfold binary_round_aux.
  pose proof (shr_fexp_nonneg m e l H) as H1.
  destruct (shr_fexp prec emax m e l) as [mrs' e']. simpl in H1.
  pose proof (shr_fexp_nonneg _ e' loc_Exact
                (round_nearest_even_nonneg _ (loc_of_shr_record mrs') H1)) as H2.
  destruct (shr_fexp prec emax _ e' loc_Exact) as [mrs'' e'']. simpl in H2.
  destruct (shr_m mrs'') as [|p|p]; [reflexivity| |lia].
  destruct (e'' <=? emax - prec)%Z; reflexivity.
Qed.

Lemma binary_round_not_nan s m e : isNaN (binary_round prec emax s m e) = false.
Proof.
  unfold binary_round. destruct (shl_align m e _) as [mz ez].
  apply binary_round_aux_not_nan. lia.
Qed.

Lemma ofDecimal_not_nan neg m e10 : (0 <= m)%Z -> isNaN (ofDecimal neg m e10) = false.
Proof.
  intros H. unfold ofDecimal. destruct m as [|p|p]; [reflexivity| |lia].
  destruct (0 <=? e10)%Z eqn:E.
  - apply binary_round_not_nan.
  - apply Z.leb_gt in E. apply binary_round_aux_not_nan.
    apply Z.div_pos; [|apply Z.pow_pos_nonneg; lia].
    apply Z.mul_nonneg_nonneg; [lia|]. apply Z.pow_nonneg. lia.
Qed.

(** *** The scanner against the grammar *)

Lemma allDigits_nil : allDigits EmptyString.
Proof. constructor. Qed.

Lemma allDigits_cons c s : allDigits (String c s) <-> isDigit c = true /\ allDigits s.
Proof.
  unfold allDigits; simpl; split.
  - intros H; inversion H; auto.
  - intros [? ?]; constructor; assumption.
Qed.

Lemma spanDigits_spec s :
  s = fst (spanDigits s) ++ snd (spanDigits s) /\ allDigits (fst (spanDigits s)).
Proof.
  induction s as [|c s [IH1 IH2]]; simpl.
  - split; [reflexivity | apply allDigits_nil].
  - destruct (isDigit c) eqn:E.
    + destruct (spanDigits s) as [d r]. simpl in *. split.
      * rewrite IH1 at 1. reflexivity.
      * apply allDigits_cons. auto.
    + simpl. split; [reflexivity | apply allDigits_nil].
Qed.

Lemma spanDigits_head c s :
  isDigit c = true -> fst (spanDigits (String c s)) <> EmptyString.
Proof.
  intros H. simpl. rewrite H. destruct (spanDigits s). simpl. discriminate.
Qed.

Lemma spanDigits_nondigit c s :
  isDigit c = false -> spanDigits (String c s) = (EmptyString, String c s).
Proof. intros H. simpl. rewrite H. reflexivity. Qed.

Lemma DecimalDigits_head d :
  DecimalDigits d -> exists c t, d = String c t /\ isDigit c = true.
Proof.
  intros [Hne Hd]. destruct d as [|c t]; [congruence|].
  apply allDigits_cons in Hd. exists c, t. tauto.
Qed.

Lemma takeSign_spec s :
  (fst (takeSign s) = true /\ s = String "-" (snd (takeSign s)))
  \/ (fst (takeSign s) = false /\ s = String "+" (snd (takeSign s)))
  \/ (takeSign s = (false, s)
      /\ forall t, s <> String "-" t /\ s <> String "+" t).
Proof.
  destruct s as [|c t].
  - right; right. split; [reflexivity | intros; split; discriminate].
  - destruct (Ascii.eqb_spec c "-") as [->|Hm]; [left; auto|].
    destruct (Ascii.eqb_spec c "+") as [->|Hp]; [right; left; auto|].
    right; right. split.
    + unfold takeSign.
      destruct c as [[] [] [] [] [] [] [] []]; try reflexivity; congruence.
    + intros u; split; congruence.
Qed.

Lemma app_assoc_string (a b c : string) : (a ++ b) ++ c = a ++ (b ++ c).
Proof. induction a as [|x a IH]; simpl; [reflexivity | rewrite IH; reflexivity]. Qed.

Lemma app_nil_r_string (a : string) : a ++ EmptyString = a.
Proof. induction a as [|x a IH]; simpl; [reflexivity | rewrite IH; reflexivity]. Qed.

Lemma unsigned_prefix_number u rest :
  StrUnsignedDecimalLiteral u -> unsignedIsNumber (u ++ rest) = true.
Proof.
  intros H. unfold unsignedIsNumber. destruct H as [|i f e Hi _ _|f e Hf _|i e Hi _].
  - apply orb_true_iff; left. apply JSFacts.startsWith_spec. exists rest; reflexivity.
  - destruct (DecimalDigits_head _ Hi) as [c [t [-> Hc]]].
    simpl. rewrite Hc. apply orb_true_r.
  - destruct (DecimalDigits_head _ Hf) as [c [t [-> Hc]]].
    simpl. rewrite Hc. reflexivity.
  - destruct (DecimalDigits_head _ Hi) as [c [t [-> Hc]]].
    simpl. rewrite Hc. apply orb_true_r.
Qed.

Lemma unsigned_number_prefix s :
  unsignedIsNumber s = true ->
  exists u rest, s = u ++ rest /\ StrUnsignedDecimalLiteral u.
Proof.
  unfold unsignedIsNumber. intros H. apply orb_true_iff in H. destruct H as [H|H].
  - apply JSFacts.startsWith_spec in H. destruct H as [suf ->].
    exists "Infinity", suf. split; [reflexivity | constructor].
  - destruct s as [|c r]; [discriminate|].
    apply orb_true_iff in H. destruct H as [H|H].
    + exists (String c EmptyString), r. split; [reflexivity|].
      apply (SU_Int (String c EmptyString) EmptyString).
      * split; [discriminate|]. apply allDigits_cons. split; [exact H | apply allDigits_nil].
      * left; reflexivity.
    + apply andb_true_iff in H. destruct H as [Hc H].
      apply Ascii.eqb_eq in Hc. subst c.
      destruct r as [|c' r']; [discriminate|].
      exists (String "." (String c' EmptyString)), r'. split; [reflexivity|].
      apply (SU_Dot (String c' EmptyString) EmptyString).
      * split; [discriminate|]. apply allDigits_cons. split; [exact H | apply allDigits_nil].
      * left; reflexivity.
Qed.

Lemma unsignedIsNumber_no_sign t :
  unsignedIsNumber t = true -> takeSign t = (false, t).
Proof.
  intros H. destruct (takeSign_spec t) as [[_ E]|[[_ E]|[E _]]]; [| |exact E].
  - rewrite E in H. discriminate.
  - rewrite E in H. discriminate.
Qed.

Lemma hasLiteralPrefix_iff t :
  hasLiteralPrefix t <-> unsignedIsNumber (snd (takeSign t)) = true.
Proof.
  unfold hasLiteralPrefix. split.
  - intros [p [rest [-> H]]]. destruct H as [u Hu|u Hu|u Hu].
    + pose proof (unsigned_prefix_number u rest Hu) as Hn.
      rewrite (unsignedIsNumber_no_sign _ Hn). exact Hn.
    + cbn [append takeSign snd]. apply unsigned_prefix_number, Hu.
    + cbn [append takeSign snd]. apply unsigned_prefix_number, Hu.
  - intros H. destruct (unsigned_number_prefix _ H) as [u [rest [E Hu]]].
    destruct (takeSign_spec t) as [[_ Et]|[[_ Et]|[Et _]]].
    + exists (String "-" u), rest. split; [|constructor; exact Hu].
      rewrite Et, E. reflexivity.
    + exists (String "+" u), rest. split; [|constructor; exact Hu].
      rewrite Et, E. reflexivity.
    + exists u, rest. split; [|constructor; exact Hu].
      rewrite Et in E. exact E.
Qed.

Lemma parseFloat_isNaN s :
  isNaN (parseFloat s) = negb (unsignedIsNumber (snd (takeSign (JS.trimStart s)))).
Proof.
  unfold parseFloat, unsignedIsNumber.
  destruct (takeSign (JS.trimStart s)) as [neg t]. cbn [snd].
  destruct (JS.startsWith t "Infinity"); [reflexivity|]. cbn [orb].
  destruct t as [|c r]; [reflexivity|].
  destruct (isDigit c) eqn:Hc.
  - pose proof (spanDigits_head c r Hc) as Hne.
    destruct (spanDigits (String c r)) as [ip r1]. cbn [fst] in Hne.
    destruct (match r1 with String "." r0 => spanDigits r0 | _ => (EmptyString, r1) end)
      as [fp r2].
    destruct ip as [|x ip]; [congruence|].
    cbn [orb negb]. apply ofDecimal_not_nan. apply digitsValue_nonneg. lia.
  - rewrite (spanDigits_nondigit c r Hc). cbn [orb].
    destruct (Ascii.eqb_spec c ".") as [->|Hdot].
    + destruct r as [|c' r']; [reflexivity|].
      destruct (isDigit c') eqn:Hc'.
      * pose proof (spanDigits_head c' r' Hc') as Hne.
        destruct (spanDigits (String c' r')) as [fp r2]. cbn [fst] in Hne.
        destruct fp as [|x fp]; [congruence|].
        cbn [andb negb]. apply ofDecimal_not_nan. apply digitsValue_nonneg. lia.
      * rewrite (spanDigits_nondigit c' r' Hc'). reflexivity.
    + cbn [andb negb].
      destruct c as [[] [] [] [] [] [] [] []]; try reflexivity; congruence.
Qed.

(** [parseFloat] is NaN exactly when no prefix of the text, leading white
    space apart, is a StrDecimalLiteral. *)
Lemma parseFloat_nan_iff s :
  isNaN (parseFloat s) = true <-> ~ hasLiteralPrefix (JS.trimStart s).
Proof.
  rewrite parseFloat_isNaN, hasLiteralPrefix_iff.
  destruct (unsignedIsNumber _); simpl; split; congruence.
Qed.

Lemma list_ascii_app a b :
  list_ascii_of_string (a ++ b) = (list_ascii_of_string a ++ list_ascii_of_string b)%list.
Proof. induction a as [|c a IH]; simpl; [reflexivity | rewrite IH; reflexivity]. Qed.

Lemma literalChars_app a b : literalChars a -> literalChars b -> literalChars (a ++ b).
Proof.
  unfold literalChars. rewrite list_ascii_app. intros; apply Forall_app; auto.
Qed.

Lemma literalChars_cons c s :
  literalChar c = true -> literalChars s -> literalChars (String c s).
Proof. intros; constructor; assumption. Qed.

Lemma allDigits_literalChars d : allDigits d -> literalChars d.
Proof.
  unfold allDigits, literalChars. apply Forall_impl.
  intros c H. unfold literalChar. rewrite H. reflexivity.
Qed.

Lemma exponent_literalChars e : OptExponentPart e -> literalChars e.
Proof.
  intros [->|[c [n [Hc [[d [[_ Hd] Hn]] ->]]]]]; [constructor|].
  apply literalChars_cons; [destruct Hc; subst; reflexivity|].
  apply allDigits_literalChars in Hd.
  destruct Hn as [->|[->| ->]]; [exact Hd | |];
    (apply literalChars_cons; [reflexivity | exact Hd]).
Qed.

(** A literal holds only literal characters. *)
Lemma literal_literalChars p : StrDecimalLiteral p -> literalChars p.
Proof.
  assert (HU : forall u, StrUnsignedDecimalLiteral u -> literalChars u).
  { intros u H. destruct H as [|i f e [_ Hi] Hf He|f e [_ Hf] He|i e [_ Hi] He].
    - repeat constructor.
    - apply literalChars_app; [apply allDigits_literalChars, Hi|].
      apply literalChars_cons; [reflexivity|].
      apply literalChars_app; [apply allDigits_literalChars, Hf | apply exponent_literalChars, He].
    - apply literalChars_cons; [reflexivity|].
      apply literalChars_app; [apply allDigits_literalChars, Hf | apply exponent_literalChars, He].
    - apply literalChars_app; [apply allDigits_literalChars, Hi | apply exponent_literalChars, He]. }
  intros H. destruct H as [u Hu|u Hu|u Hu]; [apply HU, Hu | |];
    (apply literalChars_cons; [reflexivity | apply HU, Hu]).
Qed.

End NumberFacts.

(* ================================================================== *)
(** * Cell validation                                                  *)
(* ================================================================== *)

Section CellProperties.

Variable dateToISOString : string -> option string.

Lemma trimEnd_keeps_head c t :
  JS.isWhiteSpace c = false -> exists t', JS.trimEnd (String c t) = String c t'.
Proof.
  intros H. simpl. destruct (JS.trimEnd t) as [|x u].
  - rewrite H. eauto.
  - eauto.
Qed.

Lemma trimStart_trim s : JS.trimStart (JS.trim s) = JS.trim s.
Proof.
  unfold JS.trim. pose proof (JSFacts.trimStart_head s) as H.
  destruct (JS.trimStart s) as [|c t]; [reflexivity|].
  destruct (trimEnd_keeps_head c t H) as [t' ->].
  simpl. rewrite H. reflexivity.
Qed.

Lemma validateValue_missing value expectedType :
  cleanedText value = EmptyString ->
  validateValue dateToISOString value expectedType
  = ValidationResult.mk false ["Missing value"] Null expectedType.
Proof.
  unfold validateValue, cleanedText. intros ->. reflexivity.
Qed.

Lemma validateValue_number value :
  cleanedText value <> EmptyString ->
  validateValue dateToISOString value (Some "number")
  = if Number.isNaN (Number.parseFloat (cleanedText value))
    then ValidationResult.mk false ["Invalid number format"]
                             (Str (cleanedText value)) (Some "number")
    else ValidationResult.mk true [] (Num (Number.parseFloat (cleanedText value)))
                             (Some "number").
Proof.
  unfold validateValue, cleanedText. intros H.
  destruct (match value with Some s => JS.trim s | None => EmptyString end);
    [congruence | reflexivity].
Qed.

Lemma validateValue_boolean value :
  cleanedText value <> EmptyString ->
  validateValue dateToISOString value (Some "boolean")
  = let lowerValue := JS.toLowerCase (cleanedText value) in
    if JS.arrayIncludes ["true"; "1"; "yes"; "on"] lowerValue then
      ValidationResult.mk true [] (Bool true) (Some "boolean")
    else if JS.arrayIncludes ["false"; "0"; "no"; "off"] lowerValue then
      ValidationResult.mk true [] (Bool false) (Some "boolean")
    else
      ValidationResult.mk false ["Invalid boolean value"]
                          (Str (cleanedText value)) (Some "boolean").
Proof.
  unfold validateValue, cleanedText. intros H.
  destruct (match value with Some s => JS.trim s | None => EmptyString end);
    [congruence | reflexivity].
Qed.

(** Whatever the expected type, a cell that is present and rejected keeps
    its trimmed text as cleaned value. *)
Lemma validateValue_invalid_keeps_text value expectedType :
  cleanedText value <> EmptyString ->
  ValidationResult.isValid (validateValue dateToISOString value expectedType) = false ->
  ValidationResult.cleanedValue (validateValue dateToISOString value expectedType)
  = Str (cleanedText value).
Proof.
  unfold validateValue, cleanedText. intros H.
  destruct (match value with Some s => JS.trim s | None => EmptyString end) as [|c t];
    [congruence|].
  cbn [JS.truthy negb].
  repeat match goal with
         | |- context [if ?b then _ else _] => destruct b
         | |- context [match dateToISOString ?x with _ => _ end] =>
             destruct (dateToISOString x)
         end; cbn; congruence.
Qed.

End CellProperties.

(* ================================================================== *)
(** * Objects                                                          *)
(* ================================================================== *)

Module ObjFacts.

Lemma get_set_same {A : Type} k (v : A) o : Obj.get k (Obj.set k v o) = Some v.
Proof.
  induction o as [|[k' v'] o IH]; simpl.
  - rewrite String.eqb_refl. reflexivity.
  - destruct (String.eqb k k') eqn:E; simpl; rewrite ?String.eqb_refl, ?E; auto.
Qed.

Lemma get_set_other {A : Type} k k' (v : A) o :
  k <> k' -> Obj.get k (Obj.set k' v o) = Obj.get k o.
Proof.
  intros Hne. induction o as [|[k2 v2] o IH]; simpl.
  - apply String.eqb_neq in Hne. rewrite Hne. reflexivity.
  - destruct (String.eqb k' k2) eqn:E; simpl.
    + apply String.eqb_eq in E. subst k2.
      apply String.eqb_neq in Hne. rewrite Hne. reflexivity.
    + destruct (String.eqb k k2); auto.
Qed.

Lemma get_In {A : Type} k (v : A) o : Obj.get k o = Some v -> In (k, v) o.
Proof.
  induction o as [|[k' v'] o IH]; simpl; [discriminate|].
  destruct (String.eqb k k') eqn:E.
  - apply String.eqb_eq in E. subst. intros H. injection H as ->. left; reflexivity.
  - intros H. right. apply IH, H.
Qed.

Lemma In_insertIndexed {A : Type} n (e : string * A) l x :
  In x (Obj.insertIndexed n e l) <-> x = (n, e) \/ In x l.
Proof.
  induction l as [|[m e'] l IH]; simpl.
  - intuition congruence.
  - destruct (n <? m)%Z; simpl; rewrite ?IH; intuition congruence.
Qed.

Lemma In_indexed {A : Type} (o : Obj.t A) n e :
  In (n, e) (Obj.indexed o) <-> In e o /\ Obj.arrayIndex (fst e) = Some n.
Proof.
  induction o as [|[k v] o IH]; simpl; [tauto|].
  destruct (Obj.arrayIndex k) as [m|] eqn:E.
  - rewrite In_insertIndexed, IH. split.
    + intros [H|[H1 H2]]; [injection H as -> ->; simpl; auto | auto].
    + intros [[H|H] Hn]; [subst e; simpl in Hn; left; congruence | right; auto].
  - rewrite IH. split; [tauto|].
    intros [[H|H] Hn]; [subst e; simpl in Hn; congruence | auto].
Qed.

(** Enumeration permutes the properties. *)
Lemma In_entries {A : Type} (o : Obj.t A) e : In e (Obj.entries o) <-> In e o.
Proof.
  unfold Obj.entries, Obj.named. rewrite in_app_iff, in_map_iff, filter_In. split.
  - intros [[[n e'] [<- H]]|[H _]]; [apply In_indexed in H; apply H | exact H].
  - intros H. destruct (Obj.arrayIndex (fst e)) as [n|] eqn:E.
    + left. exists (n, e). split; [reflexivity | apply In_indexed; auto].
    + right. auto.
Qed.

Lemma insertIndexed_mapValues {A B : Type} (g : A -> B) n e l :
  Obj.insertIndexed n (fst e, g (snd e))
    (map (fun ne => (fst ne, (fst (snd ne), g (snd (snd ne))))) l)
  = map (fun ne => (fst ne, (fst (snd ne), g (snd (snd ne)))))
        (Obj.insertIndexed n e l).
Proof.
  induction l as [|[m e'] l IH]; simpl; [reflexivity|].
  destruct (n <? m)%Z; simpl; [reflexivity | rewrite IH; reflexivity].
Qed.

Lemma indexed_mapValues {A B : Type} (g : A -> B) (o : Obj.t A) :
  Obj.indexed (Obj.mapValues g o)
  = map (fun ne => (fst ne, (fst (snd ne), g (snd (snd ne))))) (Obj.indexed o).
Proof.
  unfold Obj.mapValues.
  induction o as [|[k v] o IH]; simpl; [reflexivity|].
  destruct (Obj.arrayIndex k); [|exact IH].
  rewrite IH. apply (insertIndexed_mapValues g z (k, v)).
Qed.

Lemma named_mapValues {A B : Type} (g : A -> B) (o : Obj.t A) :
  Obj.named (Obj.mapValues g o) = Obj.mapValues g (Obj.named o).
Proof.
  unfold Obj.named, Obj.mapValues.
  induction o as [|[k v] o IH]; simpl; [reflexivity|].
  destruct (Obj.arrayIndex k); simpl; rewrite IH; reflexivity.
Qed.

(** Enumeration order depends on the keys only. *)
Lemma entries_mapValues {A B : Type} (g : A -> B) (o : Obj.t A) :
  Obj.entries (Obj.mapValues g o) = Obj.mapValues g (Obj.entries o).
Proof.
  unfold Obj.entries. rewrite indexed_mapValues, named_mapValues.
  unfold Obj.mapValues. rewrite map_app, !map_map. reflexivity.
Qed.

Lemma mapValues_mapValues {A B C : Type} (g : A -> B) (h : B -> C) (o : Obj.t A) :
  Obj.mapValues h (Obj.mapValues g o) = Obj.mapValues (fun a => h (g a)) o.
Proof. unfold Obj.mapValues. rewrite map_map. reflexivity. Qed.

(** Two objects with the same keys in the same order are the two
    projections of one object of pairs. *)
Lemma same_keys_zip {A : Type} (o1 : Obj.t A) : forall o2 : Obj.t A,
  map fst o1 = map fst o2 ->
  exists o12 : Obj.t (A * A),
    o1 = Obj.mapValues fst o12 /\ o2 = Obj.mapValues snd o12.
Proof.
  induction o1 as [|[k a] o1 IH]; intros [|[k' b] o2] H; try discriminate.
  - exists []. auto.
  - simpl in H. injection H as <- H.
    destruct (IH o2 H) as [o12 [-> ->]].
    exists ((k, (a, b)) :: o12). auto.
Qed.

Lemma keys_set {A : Type} k (v : A) o :
  map fst (Obj.set k v o)
  = if existsb (String.eqb k) (map fst o) then map fst o else (map fst o ++ [k])%list.
Proof.
  induction o as [|[k' v'] o IH]; simpl; [reflexivity|].
  destruct (String.eqb k k') eqn:E; simpl.
  - apply String.eqb_eq in E. subst. reflexivity.
  - rewrite IH. destruct (existsb (String.eqb k) (map fst o)); reflexivity.
Qed.

(** The keys after a sequence of assignments depend on the keys before
    and on the assigned keys, not on the values. *)
Lemma keys_fold_set {A : Type} (f g : string -> A) cols : forall o1 o2 : Obj.t A,
  map fst o1 = map fst o2 ->
  map fst (fold_left (fun o col => Obj.set col (f col) o) cols o1)
  = map fst (fold_left (fun o col => Obj.set col (g col) o) cols o2).
Proof.
  induction cols as [|col cols IH]; intros o1 o2 H; simpl; [exact H|].
  apply IH. rewrite !keys_set, H. reflexivity.
Qed.

End ObjFacts.

Module JSONFacts.

Lemma ofValue_faithful_inj a b :
  jsonFaithful a = true -> jsonFaithful b = true ->
  JSON.ofValue a = JSON.ofValue b -> a = b.
Proof.
  destruct a as [|s|[[]|[]| |? ? ?]|[]], b as [|s'|[[]|[]| |? ? ?]|[]];
    simpl; intros; congruence.
Qed.

(** On objects with the same keys whose values are rendered without loss,
    equal keys mean equal objects. *)
Lemma stringify_faithful_inj (o1 o2 : Obj.t JSValue) :
  map fst o1 = map fst o2 ->
  forallb (fun e => jsonFaithful (snd e)) o1 = true ->
  forallb (fun e => jsonFaithful (snd e)) o2 = true ->
  JSON.stringify o1 = JSON.stringify o2 -> o1 = o2.
Proof.
  intros Hk H1 H2 Hs.
  destruct (ObjFacts.same_keys_zip o1 o2 Hk) as [o12 [-> ->]].
  unfold JSON.stringify in Hs.
  rewrite !ObjFacts.entries_mapValues, !ObjFacts.mapValues_mapValues in Hs.
  unfold Obj.mapValues in *.
  rewrite forallb_forall in H1, H2.
  apply map_ext_in. intros e He. f_equal.
  apply ofValue_faithful_inj.
  - apply (H1 (fst e, fst (snd e))). apply in_map_iff. exists e. auto.
  - apply (H2 (fst e, snd (snd e))). apply in_map_iff. exists e. auto.
  - apply ObjFacts.In_entries in He.
    assert (Hpt : (fun e => (fst e, JSON.ofValue (fst (snd e)))) e
                  = (fun e => (fst e, JSON.ofValue (snd (snd e)))) e).
    { revert He. generalize (Obj.entries o12) Hs. clear.
      intros l Hs He. induction l as [|x l IH]; [contradiction|].
      simpl in Hs. injection Hs as Hx Hl.
      destruct He as [->|He]; [rewrite Hx; reflexivity | auto]. }
    simpl in Hpt. congruence.
Qed.

End JSONFacts.

(* ================================================================== *)
(** * Column types                                                     *)
(* ================================================================== *)

Lemma detectColumnTypes_fold cols : forall this,
  columns (fold_left
             (fun this col =>
                mkCSVValidator (columns this) (seenRows this)
                               (Obj.set col (detectColumnType col) (columnTypes this)))
             cols this) = columns this
  /\ seenRows (fold_left
             (fun this col =>
                mkCSVValidator (columns this) (seenRows this)
                               (Obj.set col (detectColumnType col) (columnTypes this)))
             cols this) = seenRows this
  /\ forall c,
      (In c cols \/ Obj.get c (columnTypes this) = Some (detectColumnType c)) ->
      Obj.get c (columnTypes (fold_left
             (fun this col =>
                mkCSVValidator (columns this) (seenRows this)
                               (Obj.set col (detectColumnType col) (columnTypes this)))
             cols this)) = Some (detectColumnType c).
Proof.
  induction cols as [|col cols IH]; intros this; simpl.
  - repeat split. intros c [[]|H]. exact H.
  - destruct (IH (mkCSVValidator (columns this) (seenRows this)
                    (Obj.set col (detectColumnType col) (columnTypes this))))
      as [H1 [H2 H3]].
    repeat split; [exact H1 | exact H2 |].
    intros c Hc. apply H3. simpl.
    destruct (string_dec c col) as [->|Hne].
    + right. apply ObjFacts.get_set_same.
    + destruct Hc as [[Hc|Hc]|Hc]; [congruence | left; exact Hc |].
      right. rewrite ObjFacts.get_set_other by exact Hne. exact Hc.
Qed.

Lemma newCSVValidator_columns cols : columns (newCSVValidator cols) = cols.
Proof. unfold newCSVValidator, detectColumnTypes. apply detectColumnTypes_fold. Qed.

Lemma newCSVValidator_seenRows cols : seenRows (newCSVValidator cols) = KeySet.empty.
Proof. unfold newCSVValidator, detectColumnTypes. apply detectColumnTypes_fold. Qed.

Lemma newCSVValidator_type cols c :
  In c cols ->
  Obj.get c (columnTypes (newCSVValidator cols)) = Some (detectColumnType c).
Proof.
  intros H. unfold newCSVValidator, detectColumnTypes.
  apply detectColumnTypes_fold. left. exact H.
Qed.

(** Settles every conjunct once the chain of tests has reduced to a type
    name; [Hlast] proves the conjunct on the constructor. *)
Ltac settle_chain Hlast :=
  cbn [orb];
  repeat match goal with |- _ /\ _ => split end;
  try exact Hlast; try reflexivity;
  try (simpl; tauto);
  (split; [intros E; try discriminate E; tauto | intros E; try reflexivity; tauto]).

(** C3. Column type inference is a function of the column name alone: it
    returns one of the five type names, chosen by matching keywords in the
    name up to case, the first matching group winning in the order email,
    date (date, time), number (price, amount, cost), boolean (active,
    enabled), and string otherwise; the name email_date is typed email.
    The type the constructor records for a column is that function of its
    name, for any list of columns that does not hold the name __proto__
    (under which an object records nothing). *)
Theorem C3_column_type_inference :
  forall col : string,
    let has := fun kw => JS.occursIgnoringCase kw col in
    (detectColumnType col = "email" <-> has "email")
    /\ (detectColumnType col = "date" <->
        ~ has "email" /\ (has "date" \/ has "time"))
    /\ (detectColumnType col = "number" <->
        ~ has "email" /\ ~ (has "date" \/ has "time")
        /\ (has "price" \/ has "amount" \/ has "cost"))
    /\ (detectColumnType col = "boolean" <->
        ~ has "email" /\ ~ (has "date" \/ has "time")
        /\ ~ (has "price" \/ has "amount" \/ has "cost")
        /\ (has "active" \/ has "enabled"))
    /\ (detectColumnType col = "string" <->
        ~ has "email" /\ ~ (has "date" \/ has "time")
        /\ ~ (has "price" \/ has "amount" \/ has "cost")
        /\ ~ (has "active" \/ has "enabled"))
    /\ In (detectColumnType col) ["string"; "number"; "date"; "boolean"; "email"]
    /\ detectColumnType "email_date" = "email"
    /\ forall cols : list string,
        ~ In "__proto__" cols ->
        Forall (fun c => Obj.get c (columnTypes (newCSVValidator cols))
                         = Some (detectColumnType c)) cols.
Proof.
  intros col has.
  assert (Hkw : forall kw,
             (JS.includes (JS.toLowerCase col) kw = true /\ has kw)
             \/ (JS.includes (JS.toLowerCase col) kw = false /\ ~ has kw)).
  { intros kw. pose proof (JSFacts.includes_lower_spec col kw) as H.
    destruct (JS.includes (JS.toLowerCase col) kw).
    - left. split; [reflexivity | apply H; reflexivity].
    - right. split; [reflexivity | intros X; apply H in X; discriminate]. }
  assert (Hlast : forall cols : list string,
             ~ In "__proto__" cols ->
             Forall (fun c => Obj.get c (columnTypes (newCSVValidator cols))
                              = Some (detectColumnType c)) cols).
  { intros cols _. apply Forall_forall. intros c Hc. apply newCSVValidator_type, Hc. }
  change (detectColumnType "email_date") with "email".
  unfold detectColumnType. cbv zeta.
  destruct (Hkw "email") as [[E1 H1]|[E1 H1]]; rewrite E1; [settle_chain Hlast|].
  destruct (Hkw "date") as [[E2 H2]|[E2 H2]]; rewrite E2; [settle_chain Hlast|].
  destruct (Hkw "time") as [[E3 H3]|[E3 H3]]; rewrite E3; [settle_chain Hlast|].
  destruct (Hkw "price") as [[E4 H4]|[E4 H4]]; rewrite E4; [settle_chain Hlast|].
  destruct (Hkw "amount") as [[E5 H5]|[E5 H5]]; rewrite E5; [settle_chain Hlast|].
  destruct (Hkw "cost") as [[E6 H6]|[E6 H6]]; rewrite E6; [settle_chain Hlast|].
  destruct (Hkw "active") as [[E7 H7]|[E7 H7]]; rewrite E7; [settle_chain Hlast|].
  destruct (Hkw "enabled") as [[E8 H8]|[E8 H8]]; rewrite E8; settle_chain Hlast.
Qed.

Lemma C3_column_type_inference_witness :
  Forall (fun c => Obj.get c (columnTypes (newCSVValidator ["Email"; "unit_price"]))
                   = Some (detectColumnType c))
         ["Email"; "unit_price"].
Proof.
  apply (proj2 (proj2 (proj2 (proj2 (proj2 (proj2 (proj2
           (C3_column_type_inference EmptyString)))))))).
  simpl. intuition discriminate.
Defined.

(* ================================================================== *)
(** * Claims on cell validation                                        *)
(* ================================================================== *)

(** C4. A raw cell value that is empty or holds only white space is
    invalid whatever the expected type: the result carries the single
    error "Missing value" and the cleaned value null.  The same holds for
    a cell that is absent from the row. *)
Theorem C4_missing_value :
  forall (dateToISOString : string -> option string)
         (v : string) (expectedType : option string),
    JS.blank v ->
    validateValue dateToISOString (Some v) expectedType
    = ValidationResult.mk false ["Missing value"] Null expectedType
    /\ validateValue dateToISOString None expectedType
       = ValidationResult.mk false ["Missing value"] Null expectedType.
Proof.
  intros d v t Hb. split.
  - apply validateValue_missing. simpl. apply JSFacts.trim_blank, Hb.
  - apply validateValue_missing. reflexivity.
Qed.

Lemma C4_missing_value_witness :
  JS.blank "   "
  /\ validateValue RefDate.dateToISOString (Some "   ") (Some "number")
     = ValidationResult.mk false ["Missing value"] Null (Some "number").
Proof.
  assert (H : JS.blank "   ") by (repeat constructor).
  split; [exact H|].
  apply (C4_missing_value RefDate.dateToISOString "   " (Some "number") H).
Defined.

(** C5, as amended. For a value that is not empty once trimmed, validated
    against the number type: the cell is invalid, with the error "Invalid
    number format" and its trimmed text as cleaned value, exactly when no
    prefix of the trimmed value is a decimal literal (a signed decimal
    number with optional fraction and exponent, or a signed Infinity);
    otherwise the cell is valid, without error, and the cleaned value is
    the number [parseFloat] reads, which is not NaN. *)
Theorem C5_number_prefix :
  forall (dateToISOString : string -> option string) (v : string),
    JS.trim v <> EmptyString ->
    let r := validateValue dateToISOString (Some v) (Some "number") in
    (ValidationResult.isValid r = false <-> ~ Number.hasLiteralPrefix (JS.trim v))
    /\ (ValidationResult.isValid r = false ->
        r = ValidationResult.mk false ["Invalid number format"]
                                (Str (JS.trim v)) (Some "number"))
    /\ (ValidationResult.isValid r = true ->
        r = ValidationResult.mk true [] (Num (Number.parseFloat (JS.trim v)))
                                (Some "number")
        /\ Number.isNaN (Number.parseFloat (JS.trim v)) = false).
Proof.
  intros d v Hne r. subst r.
  rewrite validateValue_number by exact Hne. cbn [cleanedText].
  pose proof (NumberFacts.parseFloat_nan_iff (JS.trim v)) as Hnan.
  rewrite trimStart_trim in Hnan.
  destruct (Number.isNaN (Number.parseFloat (JS.trim v))) eqn:E; cbn.
  - repeat split; try tauto; try discriminate.
    all: try (intros _; apply Hnan; reflexivity).
  - repeat split; try tauto; try discriminate.
    all: try (intros H; apply Hnan in H; discriminate).
Qed.

Lemma C5_number_prefix_witness :
  JS.trim "12abc" <> EmptyString
  /\ validateValue RefDate.dateToISOString (Some "12abc") (Some "number")
     = ValidationResult.mk true [] (Num (Number.parseFloat (JS.trim "12abc")))
                           (Some "number").
Proof.
  assert (Hne : JS.trim "12abc" <> EmptyString) by (vm_compute; discriminate).
  split; [exact Hne|].
  apply (proj2 (proj2 (C5_number_prefix RefDate.dateToISOString "12abc" Hne))).
  vm_compute. reflexivity.
Defined.

(** C5 as stated fails: the value 12abc is not, as a whole, a decimal
    literal, and yet the cell is valid, without error, with the cleaned
    value 12. *)
Lemma C5_counterexample :
  ~ Number.StrDecimalLiteral (JS.trim "12abc")
  /\ validateValue RefDate.dateToISOString (Some "12abc") (Some "number")
     = ValidationResult.mk true [] (Num (S754_finite false 6755399441055744 (-49)))
                           (Some "number").
Proof.
  split; [|vm_compute; reflexivity].
  intros H. apply NumberFacts.literal_literalChars in H.
  change (JS.trim "12abc") with "12abc" in H.
  unfold Number.literalChars in H. simpl in H.
  inversion H as [|? ? _ H1]; subst. inversion H1 as [|? ? _ H2]; subst.
  inversion H2 as [|? ? Ha _]; subst. vm_compute in Ha. discriminate.
Qed.

(** C9. For a value that is not empty once trimmed, validated against the
    boolean type: when its lower-cased text is one of true, 1, yes, on the
    cell is valid and cleaned to [true]; when it is one of false, 0, no,
    off the cell is valid and cleaned to [false]; otherwise the cell is
    invalid with the error "Invalid boolean value". *)
Theorem C9_boolean :
  forall (dateToISOString : string -> option string) (v : string),
    JS.trim v <> EmptyString ->
    let lower := JS.toLowerCase (JS.trim v) in
    let r := validateValue dateToISOString (Some v) (Some "boolean") in
    (In lower ["true"; "1"; "yes"; "on"] ->
     r = ValidationResult.mk true [] (Bool true) (Some "boolean"))
    /\ (In lower ["false"; "0"; "no"; "off"] ->
        r = ValidationResult.mk true [] (Bool false) (Some "boolean"))
    /\ (~ In lower ["true"; "1"; "yes"; "on"; "false"; "0"; "no"; "off"] ->
        r = ValidationResult.mk false ["Invalid boolean value"]
                                (Str (JS.trim v)) (Some "boolean")
        /\ ValidationResult.isValid r = false).
Proof.
  intros d v Hne lower r. subst r.
  rewrite validateValue_boolean by exact Hne. cbn [cleanedText].
  fold lower. cbv zeta.
  pose proof (JSFacts.arrayIncludes_spec ["true"; "1"; "yes"; "on"] lower) as HT.
  pose proof (JSFacts.arrayIncludes_spec ["false"; "0"; "no"; "off"] lower) as HF.
  destruct (JS.arrayIncludes ["true"; "1"; "yes"; "on"] lower) eqn:ET.
  - assert (T : In lower ["true"; "1"; "yes"; "on"]) by (apply HT; reflexivity).
    split; [reflexivity|]. split.
    + intros F. exfalso. simpl in T, F.
      destruct T as [T|[T|[T|[T|[]]]]]; rewrite <- T in F;
        destruct F as [F|[F|[F|[F|[]]]]]; discriminate F.
    + intros N. exfalso. apply N. simpl in *. tauto.
  - assert (T : ~ In lower ["true"; "1"; "yes"; "on"])
      by (intros X; apply HT in X; discriminate).
    split; [intros X; contradiction|].
    destruct (JS.arrayIncludes ["false"; "0"; "no"; "off"] lower) eqn:EF.
    + assert (F : In lower ["false"; "0"; "no"; "off"]) by (apply HF; reflexivity).
      split; [reflexivity|].
      intros N. exfalso. apply N. simpl in *. tauto.
    + split; [intros X; apply HF in X; discriminate|].
      intros _. split; reflexivity.
Qed.

Lemma C9_boolean_witness :
  JS.trim " Yes " <> EmptyString
  /\ In (JS.toLowerCase (JS.trim " Yes ")) ["true"; "1"; "yes"; "on"]
  /\ validateValue RefDate.dateToISOString (Some " Yes ") (Some "boolean")
     = ValidationResult.mk true [] (Bool true) (Some "boolean").
Proof.
  assert (Hne : JS.trim " Yes " <> EmptyString) by (vm_compute; discriminate).
  assert (Hin : In (JS.toLowerCase (JS.trim " Yes ")) ["true"; "1"; "yes"; "on"])
    by (vm_compute; tauto).
  split; [exact Hne|]. split; [exact Hin|].
  exact (proj1 (C9_boolean RefDate.dateToISOString " Yes " Hne) Hin).
Defined.

(* ================================================================== *)
(** * Rows, runs and the summary                                       *)
(* ================================================================== *)

Module KeySetFacts.

Lemma has_spec k s : KeySet.has k s = true <-> In k s.
Proof.
  unfold KeySet.has. destruct (in_dec JSON.text_eq_dec k s); split; auto; discriminate.
Qed.

Lemma has_false k s : KeySet.has k s = false <-> ~ In k s.
Proof.
  unfold KeySet.has. destruct (in_dec JSON.text_eq_dec k s); split; auto;
    try discriminate; contradiction.
Qed.

End KeySetFacts.

Section RowProperties.

Variable dateToISOString : string -> option string.

Lemma validateValue_cleanedText v1 v2 t :
  cleanedText v1 = cleanedText v2 ->
  validateValue dateToISOString v1 t = validateValue dateToISOString v2 t.
Proof.
  unfold validateValue.
  change (match v1 with Some s => JS.trim s | None => EmptyString end)
    with (cleanedText v1).
  change (match v2 with Some s => JS.trim s | None => EmptyString end)
    with (cleanedText v2).
  intros ->. reflexivity.
Qed.

Lemma validateColumn_data this rowData cols : forall acc,
  acc_cleanedData (fold_left (validateColumn dateToISOString this rowData) cols acc)
  = fold_left
      (fun cleanedData col =>
         Obj.set col
                 (ValidationResult.cleanedValue
                    (validateValue dateToISOString (Obj.get col rowData)
                                   (Obj.get col (columnTypes this))))
                 cleanedData)
      cols (acc_cleanedData acc).
Proof.
  induction cols as [|col cols IH]; intros acc; simpl; [reflexivity|].
  rewrite IH. f_equal. unfold validateColumn.
  destruct (negb _); reflexivity.
Qed.

Lemma validateRow_data this rowData n :
  RowValidationResult.data (fst (validateRow dateToISOString this rowData n))
  = coercedData dateToISOString this rowData.
Proof. unfold validateRow, coercedData. simpl. apply validateColumn_data. Qed.

Lemma validateRow_rowNumber this rowData n :
  RowValidationResult.rowNumber (fst (validateRow dateToISOString this rowData n)) = n.
Proof. reflexivity. Qed.

Lemma validateRow_isDuplicate this rowData n :
  RowValidationResult.isDuplicate (fst (validateRow dateToISOString this rowData n))
  = KeySet.has (keyOf (fst (validateRow dateToISOString this rowData n))) (seenRows this).
Proof. reflexivity. Qed.

Lemma validateRow_valid_not_duplicate this rowData n :
  RowValidationResult.isValid (fst (validateRow dateToISOString this rowData n)) = true ->
  RowValidationResult.isDuplicate (fst (validateRow dateToISOString this rowData n)) = false.
Proof.
  unfold validateRow. cbn [fst RowValidationResult.isValid RowValidationResult.isDuplicate].
  intros H. apply andb_true_iff in H. destruct H as [_ H].
  apply negb_true_iff in H. exact H.
Qed.

(** A duplicate leaves the validator as it was. *)
Lemma validateRow_duplicate_state this rowData n :
  RowValidationResult.isDuplicate (fst (validateRow dateToISOString this rowData n)) = true ->
  snd (validateRow dateToISOString this rowData n) = this.
Proof.
  unfold validateRow. cbn [fst snd RowValidationResult.isDuplicate].
  intros ->. reflexivity.
Qed.

(** A row that is not a duplicate adds its key, and nothing else. *)
Lemma validateRow_fresh_state this rowData n :
  RowValidationResult.isDuplicate (fst (validateRow dateToISOString this rowData n)) = false ->
  snd (validateRow dateToISOString this rowData n)
  = mkCSVValidator (columns this)
      (seenRows this ++ [keyOf (fst (validateRow dateToISOString this rowData n))])%list
      (columnTypes this).
Proof.
  unfold validateRow, keyOf. cbn [fst snd RowValidationResult.isDuplicate RowValidationResult.data].
  intros H. rewrite H. cbn [negb]. unfold KeySet.add. rewrite H. reflexivity.
Qed.

Lemma validateRow_columns this rowData n :
  columns (snd (validateRow dateToISOString this rowData n)) = columns this
  /\ columnTypes (snd (validateRow dateToISOString this rowData n)) = columnTypes this.
Proof.
  destruct (RowValidationResult.isDuplicate
              (fst (validateRow dateToISOString this rowData n))) eqn:E.
  - rewrite validateRow_duplicate_state by exact E. auto.
  - rewrite validateRow_fresh_state by exact E. auto.
Qed.

(** After a row is validated its key is in the seen set, and every key
    seen before still is. *)
Lemma validateRow_seen this rowData n :
  In (keyOf (fst (validateRow dateToISOString this rowData n)))
     (seenRows (snd (validateRow dateToISOString this rowData n)))
  /\ incl (seenRows this) (seenRows (snd (validateRow dateToISOString this rowData n))).
Proof.
  destruct (RowValidationResult.isDuplicate
              (fst (validateRow dateToISOString this rowData n))) eqn:E.
  - rewrite validateRow_duplicate_state by exact E. split; [|apply incl_refl].
    rewrite validateRow_isDuplicate in E. apply KeySetFacts.has_spec, E.
  - rewrite validateRow_fresh_state by exact E. cbn [seenRows]. split.
    + apply in_or_app. right. left. reflexivity.
    + apply incl_appl, incl_refl.
Qed.

(** The cleaned data of a row depends on the raw cells only through
    their trimmed text. *)
Lemma coercedData_cleanedText this rd1 rd2 :
  (forall col, In col (columns this) ->
               cleanedText (Obj.get col rd1) = cleanedText (Obj.get col rd2)) ->
  coercedData dateToISOString this rd1 = coercedData dateToISOString this rd2.
Proof.
  unfold coercedData. generalize (@Obj.empty JSValue).
  induction (columns this) as [|col cols IH]; intros o H; simpl; [reflexivity|].
  rewrite (validateValue_cleanedText (Obj.get col rd1) (Obj.get col rd2));
    [|apply H; left; reflexivity].
  apply IH. intros c Hc. apply H. right. exact Hc.
Qed.

End RowProperties.

Section RunProperties.

Variable dateToISOString : string -> option string.
Variable headers : list string.

(** The loop of [validateCSV] is a run of [validateRow] steps. *)
Lemma validateLines_Run lines : forall this i results0,
  exists rs this',
    validateLines dateToISOString headers this i lines results0 = ((results0 ++ rs)%list, this')
    /\ Run dateToISOString headers this i lines rs this'.
Proof.
  induction lines as [|line rest IH]; intros this i results0; cbn [validateLines].
  - exists [], this. rewrite app_nil_r. split; [reflexivity | constructor].
  - cbv zeta. fold (rowDataOf headers line).
    destruct (validateRow dateToISOString this (rowDataOf headers line) i) as [r this1] eqn:E.
    destruct (IH this1 (S i) (results0 ++ [r])%list) as [rs [this' [H1 H2]]].
    exists (r :: rs), this'. split.
    + rewrite H1, <- app_assoc. reflexivity.
    + econstructor; eassumption.
Qed.

Lemma Run_length this i lines rs this' :
  Run dateToISOString headers this i lines rs this' -> List.length rs = List.length lines.
Proof. induction 1; simpl; congruence. Qed.

Lemma Run_rowNumbers this i lines rs this' :
  Run dateToISOString headers this i lines rs this' ->
  map RowValidationResult.rowNumber rs = seq i (List.length lines).
Proof.
  induction 1 as [|this this1 this' i line rest r rs E _ IH]; simpl; [reflexivity|].
  rewrite IH. f_equal.
  change r with (fst (r, this1)). rewrite <- E. reflexivity.
Qed.

Lemma Run_valid_not_duplicate this i lines rs this' :
  Run dateToISOString headers this i lines rs this' ->
  Forall (fun r => RowValidationResult.isValid r = true ->
                   RowValidationResult.isDuplicate r = false) rs.
Proof.
  induction 1 as [|this this1 this' i line rest r rs E _ IH]; constructor; [|exact IH].
  change r with (fst (r, this1)). rewrite <- E.
  apply validateRow_valid_not_duplicate.
Qed.

Lemma Run_columns this i lines rs this' :
  Run dateToISOString headers this i lines rs this' ->
  columns this' = columns this /\ columnTypes this' = columnTypes this.
Proof.
  induction 1 as [|this this1 this' i line rest r rs E _ [IH1 IH2]]; [auto|].
  pose proof (validateRow_columns dateToISOString this (rowDataOf headers line) i) as [H1 H2].
  rewrite E in H1, H2. simpl in H1, H2. split; congruence.
Qed.

(** The seen set after a run: the keys seen before, then the keys of the
    results that are not duplicates, in order. *)
Lemma Run_seenRows this i lines rs this' :
  Run dateToISOString headers this i lines rs this' ->
  seenRows this'
  = (seenRows this
       ++ map keyOf (filter (fun r => negb (RowValidationResult.isDuplicate r)) rs))%list.
Proof.
  induction 1 as [|this this1 this' i line rest r rs E _ IH]; simpl.
  - rewrite app_nil_r. reflexivity.
  - rewrite IH. clear IH.
    assert (Hr : r = fst (validateRow dateToISOString this (rowDataOf headers line) i))
      by (rewrite E; reflexivity).
    assert (H1 : this1 = snd (validateRow dateToISOString this (rowDataOf headers line) i))
      by (rewrite E; reflexivity).
    destruct (RowValidationResult.isDuplicate r) eqn:D; simpl.
    + rewrite Hr in D. rewrite H1, validateRow_duplicate_state by exact D. reflexivity.
    + rewrite Hr in D. rewrite H1, validateRow_fresh_state by exact D.
      cbn [seenRows]. rewrite <- Hr, <- app_assoc. reflexivity.
Qed.

(** Every key of a result of the run is in the final seen set, and every
    key seen before the run still is. *)
Lemma Run_keys_seen this i lines rs this' :
  Run dateToISOString headers this i lines rs this' ->
  incl (seenRows this) (seenRows this')
  /\ forall r, In r rs -> In (keyOf r) (seenRows this').
Proof.
  induction 1 as [|this this1 this' i line rest r rs E _ [IH1 IH2]].
  - split; [apply incl_refl | intros r []].
  - pose proof (validateRow_seen dateToISOString this (rowDataOf headers line) i) as [H1 H2].
    rewrite E in H1, H2. simpl in H1, H2. split.
    + eapply incl_tran; eassumption.
    + intros x [<-|Hx]; [apply IH1, H1 | apply IH2, Hx].
Qed.

(** The [j]-th line of a run is validated under row number [i + j]. *)
Lemma Run_nth this i lines rs this' :
  Run dateToISOString headers this i lines rs this' ->
  forall j line, nth_error lines j = Some line ->
  exists state,
    nth_error rs j
    = Some (fst (validateRow dateToISOString state (rowDataOf headers line) (i + j))).
Proof.
  induction 1 as [|this this1 this' i line0 rest r rs E _ IH]; intros j line Hj.
  - destruct j; discriminate.
  - destruct j as [|j]; simpl in Hj.
    + injection Hj as ->. exists this. rewrite Nat.add_0_r, E. reflexivity.
    + destruct (IH j line Hj) as [state Hs]. exists state.
      replace (i + S j) with (S i + j) by lia. exact Hs.
Qed.

(** A run is what the loop computes. *)
Lemma Run_validateLines this i lines rs this' :
  Run dateToISOString headers this i lines rs this' ->
  forall results0,
    validateLines dateToISOString headers this i lines results0
    = ((results0 ++ rs)%list, this').
Proof.
  induction 1 as [|this this1 this' i line rest r rs E _ IH]; intros results0.
  - cbn [validateLines]. rewrite app_nil_r. reflexivity.
  - cbn [validateLines]. cbv zeta. fold (rowDataOf headers line). rewrite E.
    rewrite IH, <- app_assoc. reflexivity.
Qed.

(** The [j]-th line of a run is validated, under row number [i + j], in
    the state the loop has reached on the [j] lines before it, which have
    given the first [j] results. *)
Lemma Run_at this i lines rs this' :
  Run dateToISOString headers this i lines rs this' ->
  forall j line, nth_error lines j = Some line ->
    Run dateToISOString headers this i (firstn j lines) (firstn j rs)
        (snd (validateLines dateToISOString headers this i (firstn j lines) []))
    /\ nth_error rs j
       = Some (fst (validateRow dateToISOString
                      (snd (validateLines dateToISOString headers this i
                                          (firstn j lines) []))
                      (rowDataOf headers line) (i + j))).
Proof.
  induction 1 as [|this this1 this' i line0 rest r rs E _ IH]; intros j line Hj.
  - destruct j; discriminate.
  - destruct j as [|j]; simpl in Hj.
    + injection Hj as ->. cbn [firstn validateLines snd nth_error].
      split; [constructor|]. rewrite Nat.add_0_r, E. reflexivity.
    + destruct (IH j line Hj) as [HRp Hn]. cbn [firstn nth_error].
      assert (HR' : Run dateToISOString headers this i (line0 :: firstn j rest)
                        (r :: firstn j rs)
                        (snd (validateLines dateToISOString headers this1 (S i)
                                            (firstn j rest) [])))
        by (econstructor; eassumption).
      rewrite (Run_validateLines _ _ _ _ _ HR' []). cbn [snd].
      split; [exact HR'|]. replace (i + S j) with (S i + j) by lia. exact Hn.
Qed.

End RunProperties.

(** The three counts of the summary partition any results in which no
    valid row is flagged as a duplicate. *)
Lemma summary_counts (results : list RowValidationResult.t) :
  Forall (fun r => RowValidationResult.isValid r = true ->
                   RowValidationResult.isDuplicate r = false) results ->
  List.length (filter RowValidationResult.isValid results)
  + List.length (filter RowValidationResult.isDuplicate results)
  + List.length (filter (fun r => negb (RowValidationResult.isValid r)
                                  && negb (RowValidationResult.isDuplicate r)) results)
  = List.length results.
Proof.
  induction 1 as [|r rs Hr _ IH]; simpl; [reflexivity|].
  destruct (RowValidationResult.isValid r) eqn:V.
  - rewrite (Hr eq_refl). simpl. lia.
  - destruct (RowValidationResult.isDuplicate r); simpl; lia.
Qed.

(* ================================================================== *)
(** * Claims on the summary and on the driver                          *)
(* ================================================================== *)

(** C1. For the results of one validator run (the row loop, from any
    validator state and any first row number), the summary built from
    them has totalRows equal to the number of results, validRows the
    number of results with isValid, duplicateRows the number with
    isDuplicate, errorRows the number with neither, and satisfies
    validRows + duplicateRows + errorRows = totalRows; every result falls
    in exactly one of the three classes, so a duplicate is never counted
    as an error row too. *)
Theorem C1_summary_partition :
  forall (dateToISOString : string -> option string) (headers : list string)
         (this : CSVValidator) (i : nat) (lines : list string),
    let run := validateLines dateToISOString headers this i lines [] in
    let results := fst run in
    let summary := getValidationSummary (snd run) results in
    CSVValidationSummary.totalRows summary = List.length results
    /\ CSVValidationSummary.validRows summary
       = List.length (filter RowValidationResult.isValid results)
    /\ CSVValidationSummary.duplicateRows summary
       = List.length (filter RowValidationResult.isDuplicate results)
    /\ CSVValidationSummary.errorRows summary
       = List.length (filter (fun r => negb (RowValidationResult.isValid r)
                                       && negb (RowValidationResult.isDuplicate r))
                             results)
    /\ CSVValidationSummary.validRows summary
       + CSVValidationSummary.duplicateRows summary
       + CSVValidationSummary.errorRows summary
       = CSVValidationSummary.totalRows summary
    /\ Forall
         (fun r =>
            (RowValidationResult.isValid r = true
             /\ RowValidationResult.isDuplicate r = false)
            \/ (RowValidationResult.isValid r = false
                /\ RowValidationResult.isDuplicate r = true)
            \/ (RowValidationResult.isValid r = false
                /\ RowValidationResult.isDuplicate r = false))
         results.
Proof.
  intros d headers this i lines run results summary.
  destruct (validateLines_Run d headers lines this i []) as [rs [this' [E HR]]].
  assert (Hres : results = rs) by (unfold results, run; rewrite E; reflexivity).
  pose proof (Run_valid_not_duplicate d headers _ _ _ _ _ HR) as Hwf.
  rewrite <- Hres in Hwf. clearbody results. clear Hres E HR.
  do 4 (split; [reflexivity|]). split.
  - unfold summary, getValidationSummary. cbn. apply summary_counts, Hwf.
  - eapply Forall_impl; [|exact Hwf]. intros r Hr. cbv beta in Hr.
    destruct (RowValidationResult.isValid r); [left; auto|].
    destruct (RowValidationResult.isDuplicate r); auto.
Qed.

Lemma validateCSV_unfold (dateToISOString : string -> option string) (csv : string) :
  validateCSV dateToISOString csv
  = match retainedLines csv with
    | [] => Rejected "Empty CSV file"
    | headerLine :: dataLines =>
        let headers := parseFields headerLine in
        let run := validateLines dateToISOString headers (newCSVValidator headers)
                                 1 dataLines [] in
        Resolved (fst run, getValidationSummary (snd run) (fst run))
    end.
Proof.
  unfold validateCSV. destruct (retainedLines csv) as [|h ls]; [reflexivity|].
  cbv zeta. destruct (validateLines _ _ _ _ _ _). reflexivity.
Qed.

Lemma retainedLines_spec csv line :
  In line (retainedLines csv) <-> In line (JS.split LF csv) /\ ~ JS.blank line.
Proof.
  unfold retainedLines. rewrite filter_In.
  pose proof (JSFacts.trim_blank line) as Hb.
  pose proof (JSFacts.truthy_false (JS.trim line)) as Ht.
  destruct (JS.truthy (JS.trim line)); split; intros [H1 H2]; split; auto.
  - intros B. apply Hb in B. apply Ht in B. discriminate.
  - discriminate.
  - exfalso. apply H2, Hb, Ht. reflexivity.
Qed.

(** C7. Row numbers are positions in the list of retained lines: the
    retained lines are the lines of the text that are not blank, the first
    of them is the header, and the retained line at position n >= 1 is
    validated as row n, the n-th result; so the row numbers of the results
    are 1, 2, ... in order.  For the text with lines name, Alice, an empty
    line and Bob, Alice is row 1 and Bob is row 2. *)
Theorem C7_row_numbers :
  forall (dateToISOString : string -> option string) (csv : string),
    let lines := retainedLines csv in
    let results := resultsOf (validateCSV dateToISOString csv) in
    (forall line, In line lines <-> In line (JS.split LF csv) /\ ~ JS.blank line)
    /\ map RowValidationResult.rowNumber results = seq 1 (List.length lines - 1)
    /\ (forall n line,
           1 <= n -> nth_error lines n = Some line ->
           exists state,
             nth_error results (n - 1)
             = Some (fst (validateRow dateToISOString state
                            (rowDataOf (parseFields (hd EmptyString lines)) line) n)))
    /\ (let text := "name" ++ String LF "Alice" ++ String LF (String LF "Bob") in
        retainedLines text = ["name"; "Alice"; "Bob"]
        /\ map (fun r => (RowValidationResult.rowNumber r, RowValidationResult.data r))
               (resultsOf (validateCSV dateToISOString text))
           = [(1, [("name", Str "Alice")]); (2, [("name", Str "Bob")])]).
Proof.
  intros d csv lines results.
  split; [apply retainedLines_spec|].
  assert (Hex : let text := "name" ++ String LF "Alice" ++ String LF (String LF "Bob") in
                retainedLines text = ["name"; "Alice"; "Bob"]
                /\ map (fun r => (RowValidationResult.rowNumber r, RowValidationResult.data r))
                       (resultsOf (validateCSV d text))
                   = [(1, [("name", Str "Alice")]); (2, [("name", Str "Bob")])]).
  { split; vm_compute; reflexivity. }
  unfold results. rewrite validateCSV_unfold. fold lines.
  destruct lines as [|headerLine dataLines].
  - split; [reflexivity|]. split; [|exact Hex].
    intros n line _ H. destruct n; discriminate.
  - cbv zeta. cbn [resultsOf hd List.length].
    replace (S (List.length dataLines) - 1) with (List.length dataLines) by lia.
    destruct (validateLines_Run d (parseFields headerLine) dataLines
                (newCSVValidator (parseFields headerLine)) 1 []) as [rs [this' [E HR]]].
    rewrite E. cbn [fst app].
    split; [eapply Run_rowNumbers; exact HR|]. split; [|exact Hex].
    intros n line Hn Hline. destruct n as [|n]; [lia|].
    cbn [nth_error] in Hline. replace (S n - 1) with n by lia.
    destruct (Run_nth d _ _ _ _ _ _ HR n line Hline) as [state Hs].
    exists state. exact Hs.
Qed.

Lemma allErrors_fold results : forall acc x,
  (In x acc
   \/ exists r, In r results
        /\ RowValidationResult.errors r <> []
        /\ x = ("Row " ++ JS.numberToString (RowValidationResult.rowNumber r)
                  ++ ": " ++ JS.join ", " (RowValidationResult.errors r))%string) ->
  In x (fold_left
          (fun allErrors result =>
             if (0 <? List.length (RowValidationResult.errors result))%nat then
               (allErrors ++
                  [("Row " ++ JS.numberToString (RowValidationResult.rowNumber result)
                      ++ ": " ++ JS.join ", " (RowValidationResult.errors result))%string])%list
             else allErrors)
          results acc).
Proof.
  induction results as [|r rs IH]; intros acc x H; simpl.
  - destruct H as [H|[r [[] _]]]. exact H.
  - apply IH. destruct H as [H|[r' [[<-|Hin] [Hne Hx]]]].
    + left. destruct (0 <? _)%nat; [apply in_or_app; left|]; exact H.
    + left. destruct (RowValidationResult.errors r) as [|e es] eqn:Ee; [congruence|].
      cbn [List.length Nat.ltb Nat.leb]. apply in_or_app. right. left. symmetry. exact Hx.
    + right. exists r'. auto.
Qed.

(* ================================================================== *)
(** * Duplicate detection                                              *)
(* ================================================================== *)

Section DuplicateProperties.

Variable dateToISOString : string -> option string.

(** The keys of the cleaned data are fixed by the column list. *)
Lemma coercedData_keys t1 t2 rd1 rd2 :
  columns t1 = columns t2 ->
  map fst (coercedData dateToISOString t1 rd1)
  = map fst (coercedData dateToISOString t2 rd2).
Proof.
  unfold coercedData. intros ->.
  apply (ObjFacts.keys_fold_set
           (fun col => ValidationResult.cleanedValue
                         (validateValue dateToISOString (Obj.get col rd1)
                                        (Obj.get col (columnTypes t1))))
           (fun col => ValidationResult.cleanedValue
                         (validateValue dateToISOString (Obj.get col rd2)
                                        (Obj.get col (columnTypes t2))))).
  reflexivity.
Qed.

Lemma Run_data_keys headers this i lines rs this' :
  Run dateToISOString headers this i lines rs this' ->
  forall r, In r rs ->
  forall t rd, columns t = columns this ->
    map fst (RowValidationResult.data r) = map fst (coercedData dateToISOString t rd).
Proof.
  induction 1 as [|this this1 this' i line rest r rs E HR IH]; intros x Hx t rd Ht.
  - destruct Hx.
  - destruct Hx as [<-|Hx].
    + change r with (fst (r, this1)). rewrite <- E, validateRow_data.
      apply coercedData_keys. congruence.
    + apply (IH x Hx). rewrite Ht.
      pose proof (validateRow_columns dateToISOString this (rowDataOf headers line) i) as [H1 _].
      rewrite E in H1. simpl in H1. congruence.
Qed.

(** After a run from a fresh validator the seen set holds exactly the keys
    of the results. *)
Lemma fresh_run_seen headers lines rs this' k :
  Run dateToISOString headers (newCSVValidator headers) 1 lines rs this' ->
  In k (seenRows this') <-> exists e, In e rs /\ keyOf e = k.
Proof.
  intros HR. split.
  - rewrite (Run_seenRows _ _ _ _ _ _ _ HR), newCSVValidator_seenRows.
    cbn [KeySet.empty app]. intros H. apply in_map_iff in H.
    destruct H as [e [He Hin]]. apply filter_In in Hin. exists e. tauto.
  - intros [e [He <-]]. apply (Run_keys_seen _ _ _ _ _ _ _ HR), He.
Qed.

(** Validating, right after a row, a row whose cells have the same text
    once trimmed gives a duplicate. *)
Lemma same_text_duplicate this rd1 rd2 n m :
  (forall col, In col (columns this) ->
               cleanedText (Obj.get col rd1) = cleanedText (Obj.get col rd2)) ->
  RowValidationResult.isDuplicate
    (fst (validateRow dateToISOString
            (snd (validateRow dateToISOString this rd1 n)) rd2 m)) = true.
Proof.
  intros H. rewrite validateRow_isDuplicate. apply KeySetFacts.has_spec.
  pose proof (validateRow_seen dateToISOString this rd1 n) as [Hin _].
  pose proof (validateRow_columns dateToISOString this rd1 n) as [Hc Ht].
  replace (keyOf (fst (validateRow dateToISOString
                         (snd (validateRow dateToISOString this rd1 n)) rd2 m)))
    with (keyOf (fst (validateRow dateToISOString this rd1 n))); [exact Hin|].
  unfold keyOf. rewrite !validateRow_data. f_equal.
  rewrite (coercedData_cleanedText dateToISOString this rd1 rd2 H).
  unfold coercedData. rewrite Hc, Ht. reflexivity.
Qed.

End DuplicateProperties.

(** C2, as amended. Duplicate detection compares the JSON serialization
    of the coerced row data, not raw text.  Within one run from a fresh
    validator, the next row is marked duplicate exactly when its
    serialization equals that of an earlier row.  A row whose coerced data
    equal those of an earlier row is a duplicate, is not valid, and leaves
    the seen set unchanged.  The first row with a given serialization is
    not a duplicate and its key is added to the seen set; this covers the
    first occurrence of coerced data whenever the rows hold no infinite
    number and no negative zero.  Rows whose cells agree once trimmed, such
    as 1 and 1 between spaces in a numeric column, are duplicates; and two
    identical rows 1,9.99 under the header id,price give duplicateRows = 1
    and errorRows = 0. *)
Theorem C2_duplicates_by_serialization :
  forall (dateToISOString : string -> option string) (headers pre : list string)
         (rowData : Obj.t string) (n : nat),
    let before := validateLines dateToISOString headers (newCSVValidator headers) 1 pre [] in
    let earlier := fst before in
    let step := validateRow dateToISOString (snd before) rowData n in
    let r := fst step in
    (RowValidationResult.isDuplicate r = true <->
     exists e, In e earlier /\ keyOf e = keyOf r)
    /\ ((exists e, In e earlier
                   /\ RowValidationResult.data e = RowValidationResult.data r) ->
        RowValidationResult.isDuplicate r = true
        /\ RowValidationResult.isValid r = false
        /\ seenRows (snd step) = seenRows (snd before))
    /\ ((forall e, In e earlier -> keyOf e <> keyOf r) ->
        RowValidationResult.isDuplicate r = false
        /\ seenRows (snd step) = (seenRows (snd before) ++ [keyOf r])%list)
    /\ (jsonFaithfulRow r = true ->
        Forall (fun e => jsonFaithfulRow e = true) earlier ->
        (forall e, In e earlier ->
                   RowValidationResult.data e <> RowValidationResult.data r) ->
        RowValidationResult.isDuplicate r = false
        /\ seenRows (snd step) = (seenRows (snd before) ++ [keyOf r])%list)
    /\ (forall this rd1 rd2 k m,
           (forall col, In col (columns this) ->
                        cleanedText (Obj.get col rd1) = cleanedText (Obj.get col rd2)) ->
           RowValidationResult.isDuplicate
             (fst (validateRow dateToISOString
                     (snd (validateRow dateToISOString this rd1 k)) rd2 m)) = true)
    /\ (let first := validateRow dateToISOString (newCSVValidator ["price"; "name"])
                                 [("price", "1"); ("name", "x")] 1 in
        let second := validateRow dateToISOString (snd first)
                                  [("price", " 1 "); ("name", "x")] 2 in
        RowValidationResult.isDuplicate (fst first) = false
        /\ RowValidationResult.isDuplicate (fst second) = true
        /\ RowValidationResult.isValid (fst second) = false)
    /\ (match validateCSV dateToISOString
                ("id,price" ++ String LF ("1,9.99" ++ String LF "1,9.99")) with
        | Resolved (results, summary) =>
            map (fun x => (RowValidationResult.isValid x, RowValidationResult.isDuplicate x))
                results = [(true, false); (false, true)]
            /\ CSVValidationSummary.duplicateRows summary = 1
            /\ CSVValidationSummary.errorRows summary = 0
        | Rejected _ => False
        end).
Proof.
  intros d headers pre rowData n before earlier step r.
  destruct (validateLines_Run d headers pre (newCSVValidator headers) 1 [])
    as [rs [this1 [E HR]]].
  assert (Hearlier : earlier = rs) by (unfold earlier, before; rewrite E; reflexivity).
  assert (Hstate : snd before = this1) by (unfold before; rewrite E; reflexivity).
  assert (Hdup : RowValidationResult.isDuplicate r = true <->
                 exists e, In e earlier /\ keyOf e = keyOf r).
  { unfold r, step. rewrite validateRow_isDuplicate, KeySetFacts.has_spec.
    rewrite Hstate, Hearlier. apply (fresh_run_seen d headers pre rs this1 _ HR). }
  assert (Hfresh : (forall e, In e earlier -> keyOf e <> keyOf r) ->
                   RowValidationResult.isDuplicate r = false
                   /\ seenRows (snd step) = (seenRows (snd before) ++ [keyOf r])%list).
  { intros Hno.
    assert (D : RowValidationResult.isDuplicate r = false).
    { destruct (RowValidationResult.isDuplicate r) eqn:D; [|reflexivity].
      destruct (proj1 Hdup eq_refl) as [e [He Hk]]. exfalso. exact (Hno e He Hk). }
    split; [exact D|].
    unfold step. rewrite validateRow_fresh_state by exact D. reflexivity. }
  split; [exact Hdup|]. split; [|split; [exact Hfresh|split; [|split; [|split]]]].
  - intros [e [He Hd]].
    assert (D : RowValidationResult.isDuplicate r = true).
    { apply Hdup. exists e. split; [exact He|]. unfold keyOf. rewrite Hd. reflexivity. }
    split; [exact D|]. split.
    + destruct (RowValidationResult.isValid r) eqn:V; [|reflexivity].
      apply (validateRow_valid_not_duplicate d) in V. fold step r in V. congruence.
    + unfold step. rewrite validateRow_duplicate_state by exact D. reflexivity.
  - intros Fr Fe Hno. apply Hfresh. intros e He Hk. apply (Hno e He).
    apply JSONFacts.stringify_faithful_inj.
    + rewrite Hearlier in He. unfold r, step. rewrite validateRow_data.
      apply (Run_data_keys d _ _ _ _ _ _ HR e He).
      rewrite Hstate. apply (proj1 (Run_columns d _ _ _ _ _ _ HR)).
    + rewrite Forall_forall in Fe. apply (Fe e He).
    + exact Fr.
    + exact Hk.
  - intros this rd1 rd2 k m. apply same_text_duplicate.
  - vm_compute. auto.
  - vm_compute. auto.
Qed.

Lemma C2_duplicates_by_serialization_witness :
  let d := RefDate.dateToISOString in
  let before := validateLines d ["id"; "price"] (newCSVValidator ["id"; "price"]) 1
                              ["1,9.99"] [] in
  let r := fst (validateRow d (snd before) [("id", "1"); ("price", " 9.99")] 2) in
  (exists e, In e (fst before)
             /\ RowValidationResult.data e = RowValidationResult.data r)
  /\ RowValidationResult.isDuplicate r = true
  /\ RowValidationResult.isValid r = false.
Proof.
  intros d before r.
  assert (H : exists e, In e (fst before)
                        /\ RowValidationResult.data e = RowValidationResult.data r).
  { eexists. split; [left; reflexivity | vm_compute; reflexivity]. }
  split; [exact H|].
  pose proof (proj1 (proj2 (C2_duplicates_by_serialization d ["id"; "price"] ["1,9.99"]
                              [("id", "1"); ("price", " 9.99")] 2)) H) as [H1 [H2 _]].
  split; [exact H1 | exact H2].
Defined.

(** C2 as stated fails: under the header price,name the row Infinity,a is
    followed by a row whose price is missing.  The second row is the first
    occurrence of its coerced data (null is not Infinity), and yet it is
    marked duplicate and adds nothing to the seen set. *)
Lemma C2_counterexample :
  let d := RefDate.dateToISOString in
  let this0 := newCSVValidator ["price"; "name"] in
  let first := validateRow d this0 (rowDataOf ["price"; "name"] "Infinity,a") 1 in
  let second := validateRow d (snd first) (rowDataOf ["price"; "name"] ",a") 2 in
  RowValidationResult.data (fst first) = [("price", Num (S754_infinity false)); ("name", Str "a")]
  /\ RowValidationResult.data (fst second) = [("price", Null); ("name", Str "a")]
  /\ RowValidationResult.data (fst second) <> RowValidationResult.data (fst first)
  /\ RowValidationResult.isDuplicate (fst second) = true
  /\ seenRows (snd second) = seenRows (snd first)
  /\ resultsOf (validateCSV d ("price,name" ++ String LF ("Infinity,a" ++ String LF ",a")))
     = [fst first; fst second].
Proof.
  vm_compute. repeat split; try reflexivity. discriminate.
Qed.

(* ================================================================== *)
(** * Field parsing                                                    *)
(* ================================================================== *)

Lemma split_not_nil sep s : JS.split sep s <> [].
Proof.
  destruct s as [|c s]; simpl; [discriminate|].
  destruct (Ascii.eqb c sep); [discriminate|].
  destruct (JS.split sep s); discriminate.
Qed.

Lemma join_cons sep x xs :
  xs <> [] -> JS.join sep (x :: xs) = x ++ sep ++ JS.join sep xs.
Proof. destruct xs; [congruence | reflexivity]. Qed.

(** Splitting loses nothing: joining the pieces with the separator gives
    the text back. *)
Lemma join_split sep s : JS.join (String sep EmptyString) (JS.split sep s) = s.
Proof.
  induction s as [|c s IH]; [reflexivity|].
  cbn [JS.split]. pose proof (split_not_nil sep s) as Hne.
  destruct (Ascii.eqb_spec c sep) as [->|Hc].
  - rewrite join_cons by exact Hne. rewrite IH. reflexivity.
  - destruct (JS.split sep s) as [|f fs]; [congruence|].
    destruct fs as [|g gs].
    + rewrite <- IH. reflexivity.
    + rewrite <- IH. reflexivity.
Qed.

Lemma split_no_sep sep s :
  Forall (fun f => ~ In sep (list_ascii_of_string f)) (JS.split sep s).
Proof.
  induction s as [|c s IH]; simpl.
  - constructor; [intros [] | constructor].
  - destruct (Ascii.eqb_spec c sep) as [->|Hc].
    + constructor; [intros [] | exact IH].
    + destruct (JS.split sep s) as [|f fs]; [repeat constructor; simpl; tauto|].
      inversion IH as [|? ? Hf Hfs]; subst. constructor; [|exact Hfs].
      simpl. intros [H|H]; [congruence | exact (Hf H)].
Qed.

Lemma removeAll_filter c s :
  list_ascii_of_string (JS.removeAll c s)
  = filter (fun a => negb (Ascii.eqb a c)) (list_ascii_of_string s).
Proof.
  induction s as [|a s IH]; simpl; [reflexivity|].
  destruct (Ascii.eqb a c); simpl; rewrite IH; reflexivity.
Qed.

(** C6 as stated fails: the field a, double quote, b is parsed to ab; the
    interior double quote is removed, not preserved. *)
Lemma C6_counterexample :
  parseFields (String "a" (String doubleQuote "b")) = ["ab"]
  /\ parseFields (String "a" (String doubleQuote "b"))
     <> [String "a" (String doubleQuote "b")].
Proof. split; [reflexivity | discriminate]. Qed.

(** C6, as amended. The parser splits a line at every comma (the pieces
    hold no comma and, joined by commas, give the line back), trims each
    piece, and removes every double-quote character of the trimmed piece,
    surrounding or interior, keeping the other characters in order; no
    parsed field holds a double quote.  The header line and every data
    line are parsed this way: the parsed header fields are the typed
    columns (none of them being the name __proto__, under which an object
    records nothing), and the n-th data line is validated, as row n, on
    the row object built from the parsed header and its own parsed
    fields, by the validator as the loop has left it on the data lines
    before. *)
Theorem C6_fields_lose_every_quote :
  forall line : string,
    let raw := JS.split "," line in
    JS.join "," raw = line
    /\ Forall (fun f => ~ In ","%char (list_ascii_of_string f)) raw
    /\ Forall2
         (fun f p =>
            list_ascii_of_string p
            = filter (fun c => negb (Ascii.eqb c doubleQuote))
                     (list_ascii_of_string (JS.trim f)))
         raw (parseFields line)
    /\ Forall (fun p => ~ In doubleQuote (list_ascii_of_string p)) (parseFields line)
    /\ forall (dateToISOString : string -> option string) (csv : string),
         match retainedLines csv, validateCSV dateToISOString csv with
         | headerLine :: dataLines, Resolved (results, summary) =>
             let headers := parseFields headerLine in
             (~ In "__proto__" headers ->
              Forall (fun col => Obj.get col (CSVValidationSummary.columnTypes summary)
                                 = Some (detectColumnType col))
                     headers)
             /\ forall n dataLine,
                  nth_error dataLines n = Some dataLine ->
                  nth_error results n
                  = Some (fst (validateRow dateToISOString
                                 (snd (validateLines dateToISOString headers
                                                     (newCSVValidator headers) 1
                                                     (firstn n dataLines) []))
                                 (buildRowData headers (parseFields dataLine) 0 Obj.empty)
                                 (S n)))
         | [], Rejected _ => True
         | _, _ => False
         end.
Proof.
  intros line raw.
  split; [apply (join_split "," line)|].
  split; [apply split_no_sep|].
  split; [|split].
  - unfold parseFields. fold raw. induction raw as [|f fs IH]; constructor; [|exact IH].
    apply removeAll_filter.
  - unfold parseFields. apply Forall_forall. intros p Hp.
    apply in_map_iff in Hp. destruct Hp as [f [<- _]].
    rewrite removeAll_filter, filter_In. intros [_ H].
    rewrite Ascii.eqb_refl in H. discriminate.
  - intros d csv. rewrite validateCSV_unfold.
    destruct (retainedLines csv) as [|headerLine dataLines]; [exact I|].
    cbv zeta.
    destruct (validateLines_Run d (parseFields headerLine) dataLines
                (newCSVValidator (parseFields headerLine)) 1 []) as [rs [this' [E HR]]].
    rewrite E. cbn [fst snd app]. split.
    + intros _. unfold getValidationSummary. cbn [CSVValidationSummary.columnTypes].
      rewrite (proj2 (Run_columns d _ _ _ _ _ _ HR)).
      apply Forall_forall. intros col Hc. apply newCSVValidator_type, Hc.
    + intros n dataLine Hn.
      exact (proj2 (Run_at d _ _ _ _ _ _ HR n dataLine Hn)).
Qed.

Lemma C6_fields_lose_every_quote_witness :
  JS.join "," (JS.split "," "a,b") = "a,b".
Proof.
  exact (proj1 (C6_fields_lose_every_quote "a,b")).
Defined.

(* ================================================================== *)
(** * Rejected cells in the row key                                    *)
(* ================================================================== *)

Lemma get_fold_set {A : Type} (f : string -> A) cols : forall (o : Obj.t A) c,
  In c cols \/ Obj.get c o = Some (f c) ->
  Obj.get c (fold_left (fun o col => Obj.set col (f col) o) cols o) = Some (f c).
Proof.
  induction cols as [|col cols IH]; intros o c H; simpl.
  - destruct H as [[]|H]. exact H.
  - apply IH. destruct (string_dec c col) as [->|Hne].
    + right. apply ObjFacts.get_set_same.
    + destruct H as [[H|H]|H]; [congruence | left; exact H |].
      right. rewrite ObjFacts.get_set_other by exact Hne. exact H.
Qed.

Section KeyProperties.

Variable dateToISOString : string -> option string.

(** The cleaned data hold, under each column, the cleaned value of its cell. *)
Lemma coercedData_get this rowData col :
  In col (columns this) ->
  Obj.get col (coercedData dateToISOString this rowData)
  = Some (ValidationResult.cleanedValue
            (validateValue dateToISOString (Obj.get col rowData)
                           (Obj.get col (columnTypes this)))).
Proof.
  intros H. unfold coercedData.
  apply (get_fold_set
           (fun col => ValidationResult.cleanedValue
                         (validateValue dateToISOString (Obj.get col rowData)
                                        (Obj.get col (columnTypes this))))).
  left. exact H.
Qed.

Lemma validateColumn_invalid this rowData cols : forall acc,
  (acc_isValid acc = false
   \/ exists col, In col cols
        /\ ValidationResult.isValid
             (validateValue dateToISOString (Obj.get col rowData)
                            (Obj.get col (columnTypes this))) = false) ->
  acc_isValid (fold_left (validateColumn dateToISOString this rowData) cols acc) = false.
Proof.
  induction cols as [|c cols IH]; intros acc H; simpl.
  - destruct H as [H|[col [[] _]]]. exact H.
  - apply IH. unfold validateColumn.
    destruct (ValidationResult.isValid
                (validateValue dateToISOString (Obj.get c rowData)
                               (Obj.get c (columnTypes this)))) eqn:V; cbn.
    + destruct H as [H|[col [[<-|Hin] Hv]]]; [left; exact H | congruence |].
      right. exists col. auto.
    + left. reflexivity.
Qed.

Lemma validateRow_invalid_cell this rowData n col :
  In col (columns this) ->
  ValidationResult.isValid
    (validateValue dateToISOString (Obj.get col rowData)
                   (Obj.get col (columnTypes this))) = false ->
  RowValidationResult.isValid (fst (validateRow dateToISOString this rowData n)) = false.
Proof.
  intros Hc Hv. unfold validateRow. cbn [fst RowValidationResult.isValid].
  rewrite validateColumn_invalid; [reflexivity|].
  right. exists col. auto.
Qed.

(** A property of the object appears, serialised, in its key. *)
Lemma stringify_member (o : Obj.t JSValue) k v :
  Obj.get k o = Some v -> In (k, JSON.ofValue v) (JSON.stringify o).
Proof.
  intros H. apply ObjFacts.get_In in H. apply ObjFacts.In_entries in H.
  unfold JSON.stringify, Obj.mapValues. apply in_map_iff.
  exists (k, v). auto.
Qed.

End KeyProperties.

(** C10. A value that is not empty once trimmed and fails validation,
    whatever the expected type (number, email, date and boolean included),
    keeps its trimmed text as cleaned value, not null.  In a row, that text
    is stored under the column in the cleaned data and, as a JSON string,
    is a member of the duplicate-detection key; the row is invalid; and
    when the same raw row is validated again it is classified as a
    duplicate. *)
Theorem C10_rejected_text_in_key :
  forall (dateToISOString : string -> option string)
         (v : string) (expectedType : option string),
    JS.trim v <> EmptyString ->
    ValidationResult.isValid
      (validateValue dateToISOString (Some v) expectedType) = false ->
    ValidationResult.cleanedValue (validateValue dateToISOString (Some v) expectedType)
    = Str (JS.trim v)
    /\ forall (this : CSVValidator) (rowData : Obj.t string) (n : nat) (col : string),
         In col (columns this) ->
         Obj.get col rowData = Some v ->
         Obj.get col (columnTypes this) = expectedType ->
         let step := validateRow dateToISOString this rowData n in
         Obj.get col (RowValidationResult.data (fst step)) = Some (Str (JS.trim v))
         /\ In (col, JSON.JString (JS.trim v)) (keyOf (fst step))
         /\ RowValidationResult.isValid (fst step) = false
         /\ RowValidationResult.isDuplicate
              (fst (validateRow dateToISOString (snd step) rowData (S n))) = true.
Proof.
  intros d v t Hne Hinv.
  pose proof (validateValue_invalid_keeps_text d (Some v) t Hne Hinv) as Hclean.
  cbn [cleanedText] in Hclean. split; [exact Hclean|].
  intros this rowData n col Hc Hv Ht step.
  assert (Hget : Obj.get col (RowValidationResult.data (fst step)) = Some (Str (JS.trim v))).
  { unfold step. rewrite validateRow_data, coercedData_get by exact Hc.
    rewrite Hv, Ht, Hclean. reflexivity. }
  split; [exact Hget|]. split; [|split].
  - apply (stringify_member _ _ _ Hget).
  - unfold step. apply (validateRow_invalid_cell d this rowData n col Hc).
    rewrite Hv, Ht. exact Hinv.
  - unfold step. apply same_text_duplicate. reflexivity.
Qed.

Lemma C10_rejected_text_in_key_witness :
  let d := RefDate.dateToISOString in
  JS.trim " abc" <> EmptyString
  /\ ValidationResult.isValid (validateValue d (Some " abc") (Some "number")) = false
  /\ ValidationResult.cleanedValue (validateValue d (Some " abc") (Some "number"))
     = Str (JS.trim " abc").
Proof.
  intros d.
  assert (Hne : JS.trim " abc" <> EmptyString) by (vm_compute; discriminate).
  assert (Hinv : ValidationResult.isValid
                   (validateValue d (Some " abc") (Some "number")) = false)
    by (vm_compute; reflexivity).
  split; [exact Hne|]. split; [exact Hinv|].
  exact (proj1 (C10_rejected_text_in_key d " abc" (Some "number") Hne Hinv)).
Defined.

(** Two data rows with the same rejected cell: the second is classified as
    a duplicate of the first, and its error is still recorded. *)
Example rejected_rows_are_duplicates :
  forall dateToISOString : string -> option string,
    map (fun r => (RowValidationResult.isDuplicate r, RowValidationResult.errors r))
        (resultsOf (validateCSV dateToISOString
                      ("price,name" ++ String LF ("abc,x" ++ String LF "abc,x"))))
    = [(false, ["price: Invalid number format"]);
       (true, ["price: Invalid number format"])].
Proof. intros d. vm_compute. reflexivity. Qed.

Lemma C7_row_numbers_witness :
  let d := RefDate.dateToISOString in
  let text := "name" ++ String LF "Alice" ++ String LF (String LF "Bob") in
  exists state,
    nth_error (resultsOf (validateCSV d text)) 1
    = Some (fst (validateRow d state (rowDataOf ["name"] "Bob") 2)).
Proof.
  intros d text.
  assert (Hn : nth_error (retainedLines text) 2 = Some "Bob") by (vm_compute; reflexivity).
  exact (proj1 (proj2 (proj2 (C7_row_numbers d text))) 2 "Bob" (le_S 1 1 (le_n 1)) Hn).
Defined.

(* ================================================================== *)
(** * The embedding on concrete inputs                                 *)
(* ================================================================== *)

(** Values of [parseFloat] against the binary64 values of the literals. *)
Example parseFloat_9_99 :
  Number.parseFloat "9.99" = S754_finite false 5623870034678907 (-49).
Proof. vm_compute. reflexivity. Qed.

Example parseFloat_one : Number.parseFloat "1" = S754_finite false 4503599627370496 (-52).
Proof. vm_compute. reflexivity. Qed.

Example parseFloat_tenth :
  Number.parseFloat " 0.1" = S754_finite false 7205759403792794 (-56).
Proof. vm_compute. reflexivity. Qed.

Example parseFloat_tie_to_even :
  Number.parseFloat "9007199254740993" = S754_finite false 4503599627370496 1.
Proof. vm_compute. reflexivity. Qed.

Example parseFloat_overflow : Number.parseFloat "1e999" = S754_infinity false.
Proof. vm_compute. reflexivity. Qed.

Example parseFloat_underflow : Number.parseFloat "-1e-999" = S754_zero true.
Proof. vm_compute. reflexivity. Qed.

Example parseFloat_max :
  Number.parseFloat "1.7976931348623157e308" = S754_finite false 9007199254740991 971.
Proof. vm_compute. reflexivity. Qed.

Example parseFloat_min_subnormal :
  Number.parseFloat "5e-324" = S754_finite false 1 (-1074).
Proof. vm_compute. reflexivity. Qed.

Example parseFloat_below_half_min :
  Number.parseFloat "2.4703282292062327e-324" = S754_zero false.
Proof. vm_compute. reflexivity. Qed.

Example parseFloat_above_half_min :
  Number.parseFloat "2.4703282292062328e-324" = S754_finite false 1 (-1074).
Proof. vm_compute. reflexivity. Qed.

Example parseFloat_dangling_exponent :
  Number.parseFloat "1e+" = Number.parseFloat "1"
  /\ Number.parseFloat "1.e2" = Number.parseFloat "100"
  /\ Number.parseFloat ".5e1" = Number.parseFloat "5"
  /\ Number.parseFloat "-.e1" = S754_nan
  /\ Number.parseFloat "+Infinityx" = S754_infinity false
  /\ Number.parseFloat "Inf" = S754_nan.
Proof. vm_compute. repeat split. Qed.

Example emailRegex_examples :
  map (RegExp.test emailRegex)
      ["a@b.c"; "a@b.c.d"; "a@..b"; "a@b"; "a@b."; "a@.b"; "a@@b.c"; "a b@c.d";
       "not-an-email"; "@b.c"]
  = [true; true; true; false; false; false; false; false; false; false].
Proof. vm_compute. reflexivity. Qed.

Example property_order :
  Obj.entries (Obj.set "2" 1 (Obj.set "b" 2 (Obj.set "10" 3 (Obj.set "01" 4 Obj.empty))))
  = [("2", 1); ("10", 3); ("01", 4); ("b", 2)].
Proof. vm_compute. reflexivity. Qed.

(** The scenario of the specification with a rejected e-mail and date. *)
Example scenario_signup :
  map (fun r => (RowValidationResult.isValid r, RowValidationResult.isDuplicate r,
                 RowValidationResult.errors r))
      (resultsOf (validateCSV RefDate.dateToISOString
                    ("name,email,signup_date" ++ String LF "Ann,not-an-email,2024-13-40")))
  = [(false, false, ["email: Invalid email format"; "signup_date: Invalid date format"])].
Proof. vm_compute. reflexivity. Qed.

Example numberToString_examples :
  map JS.numberToString [0; 7; 10; 123] = ["0"; "7"; "10"; "123"].
Proof. vm_compute. reflexivity. Qed.

(* ================================================================== *)
(** * Further properties of cell validation                            *)
(* ================================================================== *)

Lemma isCase_true (t : option string) (x : string) : isCase t x = true <-> t = Some x.
Proof.
  destruct t as [e|]; simpl; [|split; discriminate].
  rewrite String.eqb_eq. split; congruence.
Qed.

Lemma isCase_false (t : option string) (x : string) : isCase t x = false <-> t <> Some x.
Proof.
  pose proof (isCase_true t x) as H. destruct (isCase t x).
  - split; [discriminate | intros Hne; exfalso; apply Hne, H; reflexivity].
  - split; [intros _ Heq; apply H in Heq; discriminate | reflexivity].
Qed.

(** X1. A cell is valid exactly when it carries no error; it never carries
    more than one; and the result echoes the expected type. *)
Theorem cell_valid_iff_no_error :
  forall (dateToISOString : string -> option string)
         (value expectedType : option string),
    let r := validateValue dateToISOString value expectedType in
    (ValidationResult.isValid r = true <-> ValidationResult.errors r = [])
    /\ List.length (ValidationResult.errors r) <= 1
    /\ ValidationResult.type r = expectedType.
Proof.
  intros d value t. unfold validateValue.
  destruct (JS.truthy _); cbn [negb];
    repeat match goal with
           | |- context [if ?b then _ else _] => destruct b
           | |- context [match d ?x with _ => _ end] => destruct (d x)
           end; cbn; repeat split; intros; try discriminate; try reflexivity; lia.
Qed.

(** X2. The cleaned value is null exactly for a missing cell; the cleaned
    value of a valid cell has the kind its column type asks for: the
    number [parseFloat] reads (never NaN) under number, a boolean under
    boolean, a string otherwise. *)
Theorem cell_coercion_typed :
  forall (dateToISOString : string -> option string)
         (value expectedType : option string),
    let r := validateValue dateToISOString value expectedType in
    (ValidationResult.cleanedValue r = Null <-> cleanedText value = EmptyString)
    /\ (ValidationResult.isValid r = true ->
        match ValidationResult.cleanedValue r with
        | Num f => expectedType = Some "number"
                   /\ f = Number.parseFloat (cleanedText value)
                   /\ Number.isNaN f = false
        | Bool _ => expectedType = Some "boolean"
        | Str _ => expectedType <> Some "number" /\ expectedType <> Some "boolean"
        | Null => False
        end).
Proof.
  intros d value t. unfold validateValue.
  change (match value with Some s => JS.trim s | None => EmptyString end)
    with (cleanedText value).
  destruct (cleanedText value) as [|c s] eqn:Ec.
  - cbn. split; [tauto | discriminate].
  - cbn [JS.truthy negb].
    destruct (isCase t "number") eqn:E1.
    { apply isCase_true in E1.
      destruct (Number.isNaN _) eqn:EN; cbn;
        (split; [split; discriminate|]); [discriminate | auto]. }
    apply isCase_false in E1.
    destruct (isCase t "email") eqn:E2.
    { apply isCase_true in E2.
      destruct (negb _); cbn; (split; [split; discriminate|]); [discriminate|].
      intros _. split; congruence. }
    destruct (isCase t "date") eqn:E3.
    { apply isCase_true in E3.
      destruct (d _); cbn; (split; [split; discriminate|]); [|discriminate].
      intros _. split; congruence. }
    destruct (isCase t "boolean") eqn:E4.
    { apply isCase_true in E4.
      destruct (JS.arrayIncludes _ _); [|destruct (JS.arrayIncludes _ _)]; cbn;
        (split; [split; discriminate|]); auto; discriminate. }
    apply isCase_false in E4.
    destruct (isCase t "string");
      [destruct (Nat.ltb _ _)|]; cbn; (split; [split; discriminate|]);
      try discriminate; auto.
Qed.

Lemma cell_coercion_typed_witness :
  ValidationResult.cleanedValue
    (validateValue RefDate.dateToISOString (Some " 9.99 ") (Some "number"))
  = Num (Number.parseFloat "9.99").
Proof.
  pose proof (proj2 (cell_coercion_typed RefDate.dateToISOString
                       (Some " 9.99 ") (Some "number"))) as H.
  cbv zeta in H.
  destruct (validateValue RefDate.dateToISOString (Some " 9.99 ") (Some "number"))
    as [valid errs cleaned ty] eqn:E.
  assert (Hv : valid = true).
  { change valid with (ValidationResult.isValid (ValidationResult.mk valid errs cleaned ty)).
    rewrite <- E. vm_compute. reflexivity. }
  cbn [ValidationResult.isValid ValidationResult.cleanedValue] in *.
  specialize (H Hv).
  assert (Hc : cleaned = Num (S754_finite false 5623870034678907 (-49))).
  { change cleaned with
      (ValidationResult.cleanedValue (ValidationResult.mk valid errs cleaned ty)).
    rewrite <- E. vm_compute. reflexivity. }
  rewrite Hc in H |- *. destruct H as [_ [H _]]. rewrite H. reflexivity.
Defined.

Lemma trimEnd_idem s : JS.trimEnd (JS.trimEnd s) = JS.trimEnd s.
Proof.
  induction s as [|c s IH]; [reflexivity|].
  cbn [JS.trimEnd]. destruct (JS.trimEnd s) as [|x t] eqn:E.
  - destruct (JS.isWhiteSpace c) eqn:W; [reflexivity|].
    cbn [JS.trimEnd]. rewrite W. reflexivity.
  - change (JS.trimEnd (String c (String x t)))
      with (match JS.trimEnd (String x t) with
            | EmptyString => if JS.isWhiteSpace c then EmptyString else String c EmptyString
            | String a u => String c (String a u)
            end).
    rewrite IH. reflexivity.
Qed.

Lemma trim_idem s : JS.trim (JS.trim s) = JS.trim s.
Proof.
  unfold JS.trim at 1. rewrite trimStart_trim. unfold JS.trim. apply trimEnd_idem.
Qed.

(** X3. White space around a value never matters: a value and its trimmed
    text are validated to the same result. *)
Theorem cell_ignores_surrounding_space :
  forall (dateToISOString : string -> option string)
         (v : string) (expectedType : option string),
    validateValue dateToISOString (Some v) expectedType
    = validateValue dateToISOString (Some (JS.trim v)) expectedType.
Proof.
  intros d v t. apply validateValue_cleanedText. cbn [cleanedText].
  symmetry. apply trim_idem.
Qed.

(* ================================================================== *)
(** * The e-mail pattern                                               *)
(* ================================================================== *)

Module RegExpFacts.
Import RegExp RegExpSem.

Lemma append_nil_inv (a b : string) :
  a ++ b = EmptyString -> a = EmptyString /\ b = EmptyString.
Proof. destruct a; simpl; [auto | discriminate]. Qed.

Lemma append_cons_inv (a b : string) c s :
  a ++ b = String c s ->
  (a = EmptyString /\ b = String c s)
  \/ exists a', a = String c a' /\ s = a' ++ b.
Proof.
  destruct a as [|x a]; simpl; intros H; [left; auto|].
  injection H as -> <-. right. eauto.
Qed.

Lemma no_match_Fail s : ~ Matches Fail s.
Proof. intros H. inversion H. Qed.

Lemma match_Eps s : Matches Eps s <-> s = EmptyString.
Proof. split; [intros H; inversion H; reflexivity | intros ->; constructor]. Qed.

Lemma nullable_spec r : nullable r = true <-> Matches r EmptyString.
Proof.
  induction r as [| |p|a IHa b IHb|a IHa b IHb|a IH]; simpl.
  - split; [discriminate | intros H; inversion H].
  - split; [constructor | reflexivity].
  - split; [discriminate | intros H; inversion H].
  - rewrite andb_true_iff, IHa, IHb. split.
    + intros [Ha Hb]. apply (M_Seq a b EmptyString EmptyString Ha Hb).
    + intros H. inversion H as [| |? ? s1 s2 H1 H2| | | |]; subst.
      match goal with E : _ ++ _ = EmptyString |- _ =>
        apply append_nil_inv in E; destruct E as [-> ->] end.
      auto.
  - rewrite orb_true_iff, IHa, IHb. split.
    + intros [H|H]; [apply M_AltL | apply M_AltR]; exact H.
    + intros H. inversion H; subst; auto.
  - split; [constructor | reflexivity].
Qed.

Lemma seq_spec a b s : Matches (seq a b) s <-> Matches (Seq a b) s.
Proof.
  assert (HF1 : forall x, Matches (Seq Fail x) s <-> Matches Fail s).
  { intros x. split; intros H; inversion H; subst.
    exfalso. eapply no_match_Fail. eassumption. }
  assert (HF2 : forall x, Matches (Seq x Fail) s <-> Matches Fail s).
  { intros x. split; intros H; inversion H; subst.
    exfalso. eapply no_match_Fail. eassumption. }
  assert (HE : forall x, Matches (Seq Eps x) s <-> Matches x s).
  { intros x. split.
    - intros H. inversion H as [| |? ? s1 s2 H1 H2| | | |]; subst.
      apply match_Eps in H1. subst. exact H2.
    - intros H. apply (M_Seq Eps x EmptyString s); [constructor | exact H]. }
  destruct a, b; simpl; rewrite ?HF1, ?HF2, ?HE; reflexivity.
Qed.

Lemma alt_spec a b s : Matches (alt a b) s <-> Matches (Alt a b) s.
Proof.
  assert (HL : forall x, Matches (Alt Fail x) s <-> Matches x s).
  { intros x. split; [|apply M_AltR].
    intros H. inversion H; subst; [exfalso; eapply no_match_Fail; eassumption | assumption]. }
  assert (HR : forall x, Matches (Alt x Fail) s <-> Matches x s).
  { intros x. split; [|apply M_AltL].
    intros H. inversion H; subst; [assumption | exfalso; eapply no_match_Fail; eassumption]. }
  destruct a, b; simpl; rewrite ?HL, ?HR; reflexivity.
Qed.

(** A non-empty match of a repetition starts with a non-empty match of
    its body. *)
Lemma star_cons_inv a c s :
  Matches (Star a) (String c s) ->
  exists s1 s2, s = s1 ++ s2 /\ Matches a (String c s1) /\ Matches (Star a) s2.
Proof.
  intros H. remember (Star a) as r eqn:Er. remember (String c s) as w eqn:Ew.
  revert c s Ew.
  induction H as [| | | | | |a' s1 s2 H1 _ H2 IH2]; intros c0 s0 Ew; try discriminate.
  injection Er as ->.
  apply append_cons_inv in Ew. destruct Ew as [[-> ->]|[s1' [-> ->]]].
  - apply (IH2 eq_refl c0 s0 eq_refl).
  - exists s1', s2. auto.
Qed.

Lemma deriv_spec c r : forall s, Matches (deriv c r) s <-> Matches r (String c s).
Proof.
  induction r as [| |p|a IHa b IHb|a IHa b IHb|a IH]; intros s; simpl.
  - split; intros H; inversion H.
  - split; intros H; inversion H.
  - destruct (p c) eqn:E.
    + rewrite match_Eps. split.
      * intros ->. constructor. exact E.
      * intros H. inversion H. reflexivity.
    + split; [intros H; inversion H | intros H; inversion H; congruence].
  - rewrite alt_spec. split.
    + intros H. inversion H as [| | |? ? ? HL|? ? ? HR| |]; subst.
      * apply seq_spec in HL.
        inversion HL as [| |? ? s1 s2 H1 H2| | | |]; subst.
        apply IHa in H1. apply (M_Seq a b (String c s1) s2 H1 H2).
      * destruct (nullable a) eqn:N; [|inversion HR].
        apply nullable_spec in N. apply IHb in HR.
        apply (M_Seq a b EmptyString (String c s) N HR).
    + intros H. inversion H as [| |? ? s1 s2 H1 H2| | | |]; subst.
      match goal with E : _ ++ _ = String _ _ |- _ =>
        apply append_cons_inv in E; destruct E as [[-> ->]|[s1' [-> ->]]] end.
      * apply M_AltR. apply nullable_spec in H1. rewrite H1. apply IHb, H2.
      * apply M_AltL. apply seq_spec. apply M_Seq; [apply IHa, H1 | exact H2].
  - rewrite alt_spec. split.
    + intros H. inversion H; subst; [apply M_AltL, IHa | apply M_AltR, IHb]; assumption.
    + intros H. inversion H; subst; [apply M_AltL, IHa | apply M_AltR, IHb]; assumption.
  - rewrite seq_spec. split.
    + intros H. inversion H as [| |? ? s1 s2 H1 H2| | | |]; subst.
      apply IH in H1. apply (M_StarCons a (String c s1) s2 H1 H2).
    + intros H. apply star_cons_inv in H. destruct H as [s1 [s2 [-> [H1 H2]]]].
      apply M_Seq; [apply IH, H1 | exact H2].
Qed.

(** The matcher decides the matching relation. *)
Lemma test_spec s : forall r, test r s = true <-> Matches r s.
Proof.
  induction s as [|c s IH]; intros r; simpl.
  - apply nullable_spec.
  - rewrite IH. apply deriv_spec.
Qed.

Lemma match_Class p s :
  Matches (Class p) s <-> exists c, s = String c EmptyString /\ p c = true.
Proof.
  split.
  - intros H. inversion H; subst. eauto.
  - intros [c [-> H]]. constructor. exact H.
Qed.

Lemma match_Star_Class p s :
  Matches (Star (Class p)) s <-> Forall (fun c => p c = true) (list_ascii_of_string s).
Proof.
  split.
  - intros H. remember (Star (Class p)) as r eqn:Er.
    induction H as [| | | | | |a s1 s2 H1 _ H2 IH2]; try discriminate.
    + constructor.
    + injection Er as ->. apply match_Class in H1. destruct H1 as [c [-> Hc]].
      simpl. constructor; [exact Hc | apply IH2; reflexivity].
  - induction s as [|c s IH]; simpl; intros H; [constructor|].
    inversion H as [|? ? Hc Hs]; subst.
    apply (M_StarCons (Class p) (String c EmptyString) s); [constructor; exact Hc | auto].
Qed.

Lemma match_Plus_Class p s :
  Matches (Plus (Class p)) s <->
  s <> EmptyString /\ Forall (fun c => p c = true) (list_ascii_of_string s).
Proof.
  unfold Plus. split.
  - intros H. inversion H as [| |? ? s1 s2 H1 H2| | | |]; subst.
    apply match_Class in H1. destruct H1 as [c [-> Hc]].
    apply match_Star_Class in H2. simpl. split; [discriminate | constructor; assumption].
  - intros [Hne H]. destruct s as [|c s]; [congruence|].
    simpl in H. inversion H as [|? ? Hc Hs]; subst.
    apply (M_Seq (Class p) (Star (Class p)) (String c EmptyString) s).
    + constructor. exact Hc.
    + apply match_Star_Class, Hs.
Qed.

Lemma match_Seq a b s :
  Matches (Seq a b) s <-> exists s1 s2, s = s1 ++ s2 /\ Matches a s1 /\ Matches b s2.
Proof.
  split.
  - intros H. inversion H; subst. eauto.
  - intros [s1 [s2 [-> [H1 H2]]]]. constructor; assumption.
Qed.

Lemma match_char x s :
  Matches (Class (Ascii.eqb x)) s <-> s = String x EmptyString.
Proof.
  rewrite match_Class. split.
  - intros [c [-> H]]. apply Ascii.eqb_eq in H. subst. reflexivity.
  - intros ->. exists x. split; [reflexivity | apply Ascii.eqb_refl].
Qed.

(** The e-mail pattern accepts exactly the texts of the e-mail shape. *)
Lemma emailRegex_spec s : test emailRegex s = true <-> emailShape s.
Proof.
  rewrite test_spec. unfold emailRegex, emailShape, emailWord. split.
  - intros H.
    apply match_Seq in H. destruct H as [l [r1 [-> [Hl H]]]].
    apply match_Seq in H. destruct H as [a [r2 [-> [Ha H]]]].
    apply match_Seq in H. destruct H as [d [r3 [-> [Hd H]]]].
    apply match_Seq in H. destruct H as [p [t [-> [Hp Ht]]]].
    apply match_char in Ha, Hp. subst a p.
    apply match_Plus_Class in Hl, Hd, Ht.
    exists l, d, t. auto.
  - intros [l [d [t [-> [Hl [Hd Ht]]]]]].
    apply match_Seq. exists l, (String "@" (d ++ String "." t)).
    split; [reflexivity|]. split; [apply match_Plus_Class, Hl|].
    apply match_Seq. exists (String "@" EmptyString), (d ++ String "." t).
    split; [reflexivity|]. split; [apply match_char; reflexivity|].
    apply match_Seq. exists d, (String "." t).
    split; [reflexivity|]. split; [apply match_Plus_Class, Hd|].
    apply match_Seq. exists (String "." EmptyString), t.
    split; [reflexivity|]. split; [apply match_char; reflexivity|].
    apply match_Plus_Class, Ht.
Qed.

End RegExpFacts.

(** X4. A value that is not empty once trimmed, validated against the email
    type, is valid exactly when its trimmed text has the shape local,
    [@], domain, point, rest, each part non-empty and free of white space
    and of [@]; otherwise its only error is "Invalid email format".  Either
    way the cleaned value is the trimmed text. *)
Theorem email_valid_iff_shape :
  forall (dateToISOString : string -> option string) (v : string),
    JS.trim v <> EmptyString ->
    let r := validateValue dateToISOString (Some v) (Some "email") in
    (ValidationResult.isValid r = true <-> emailShape (JS.trim v))
    /\ (ValidationResult.isValid r = false ->
        ValidationResult.errors r = ["Invalid email format"])
    /\ ValidationResult.cleanedValue r = Str (JS.trim v).
Proof.
  intros d v Hne. unfold validateValue.
  destruct (JS.trim v) as [|c s] eqn:E; [congruence|].
  cbn [JS.truthy negb isCase String.eqb Ascii.eqb Bool.eqb andb].
  pose proof (RegExpFacts.emailRegex_spec (String c s)) as Hs.
  cbv zeta. change (isCase (Some "email") "number") with false.
  change (isCase (Some "email") "email") with true. cbv iota.
  destruct (RegExp.test emailRegex (String c s)); cbn.
  - repeat split; try tauto; try discriminate.
    all: try (intros _; apply Hs; reflexivity).
  - repeat split; try tauto; try discriminate.
    all: try (intros H; apply Hs in H; discriminate).
Qed.

Lemma email_valid_iff_shape_witness :
  JS.trim " ann@example.org " <> EmptyString
  /\ ValidationResult.isValid
       (validateValue RefDate.dateToISOString (Some " ann@example.org ") (Some "email"))
     = true.
Proof.
  assert (Hne : JS.trim " ann@example.org " <> EmptyString) by (vm_compute; discriminate).
  split; [exact Hne|].
  apply (proj1 (email_valid_iff_shape RefDate.dateToISOString " ann@example.org " Hne)).
  exists "ann", "example", "org". split; [vm_compute; reflexivity|].
  repeat split; try discriminate; repeat constructor.
Defined.

(* ================================================================== *)
(** * Further properties of row validation                             *)
(* ================================================================== *)

Lemma validateColumn_fold (dateToISOString : string -> option string)
      (this : CSVValidator) (rowData : Obj.t string) (cols : list string) :
  forall acc,
    acc_errors (fold_left (validateColumn dateToISOString this rowData) cols acc)
    = (acc_errors acc
         ++ map (cellError dateToISOString this rowData)
                (filter (fun col => negb (ValidationResult.isValid
                                            (cellOf dateToISOString this rowData col)))
                        cols))%list
    /\ acc_isValid (fold_left (validateColumn dateToISOString this rowData) cols acc)
       = acc_isValid acc
         && forallb (fun col => ValidationResult.isValid
                                  (cellOf dateToISOString this rowData col)) cols.
Proof.
  induction cols as [|col cols IH]; intros acc; simpl.
  - rewrite app_nil_r, andb_true_r. auto.
  - destruct (IH (validateColumn dateToISOString this rowData acc col)) as [H1 H2].
    rewrite H1, H2. unfold validateColumn. fold (cellOf dateToISOString this rowData col).
    destruct (ValidationResult.isValid (cellOf dateToISOString this rowData col)); cbn.
    + auto.
    + rewrite <- app_assoc, andb_false_r. auto.
Qed.

Lemma filter_negb_nil {A : Type} (p : A -> bool) (l : list A) :
  filter (fun x => negb (p x)) l = [] <-> forallb p l = true.
Proof.
  induction l as [|x l IH]; simpl; [tauto|].
  destruct (p x); simpl; [exact IH | split; discriminate].
Qed.

Lemma validateRow_valid_iff (dateToISOString : string -> option string)
      (this : CSVValidator) (rowData : Obj.t string) (n : nat) :
  RowValidationResult.isValid (fst (validateRow dateToISOString this rowData n)) = true <->
  RowValidationResult.errors (fst (validateRow dateToISOString this rowData n)) = []
  /\ RowValidationResult.isDuplicate (fst (validateRow dateToISOString this rowData n)) = false.
Proof.
  destruct (validateColumn_fold dateToISOString this rowData (columns this)
                                (mkRowAcc [] Obj.empty true)) as [He Hv].
  cbn [acc_errors acc_isValid app andb] in He, Hv.
  unfold validateRow.
  cbn [fst RowValidationResult.isValid RowValidationResult.errors
       RowValidationResult.isDuplicate].
  rewrite Hv, He, andb_true_iff, negb_true_iff.
  rewrite <- (filter_negb_nil
                (fun col => ValidationResult.isValid
                              (cellOf dateToISOString this rowData col))).
  split; intros [H1 H2]; split; auto.
  - rewrite H1. reflexivity.
  - destruct (filter _ (columns this)); [reflexivity | discriminate].
Qed.

(** X5. The errors of a row are one entry per rejected cell, in column order;
    the row is valid exactly when it has no error and is not a
    duplicate. *)
Theorem row_errors_per_rejected_cell :
  forall (dateToISOString : string -> option string) (this : CSVValidator)
         (rowData : Obj.t string) (n : nat),
    let r := fst (validateRow dateToISOString this rowData n) in
    RowValidationResult.errors r
    = map (cellError dateToISOString this rowData)
          (filter (fun col => negb (ValidationResult.isValid
                                      (cellOf dateToISOString this rowData col)))
                  (columns this))
    /\ (RowValidationResult.isValid r = true <->
        RowValidationResult.errors r = [] /\ RowValidationResult.isDuplicate r = false)
    /\ List.length (RowValidationResult.errors r) <= List.length (columns this).
Proof.
  intros d this rowData n r.
  destruct (validateColumn_fold d this rowData (columns this) (mkRowAcc [] Obj.empty true))
    as [He Hv].
  cbn [acc_errors acc_isValid app andb] in He, Hv.
  assert (Herr : RowValidationResult.errors r
                 = map (cellError d this rowData)
                       (filter (fun col => negb (ValidationResult.isValid
                                                   (cellOf d this rowData col)))
                               (columns this))) by exact He.
  split; [exact Herr|]. split.
  - apply validateRow_valid_iff.
  - rewrite Herr, length_map. apply filter_length_le.
Qed.

Lemma insertIndexed_perm {A : Type} n (e : string * A) l :
  Permutation (map snd (Obj.insertIndexed n e l)) (e :: map snd l).
Proof.
  induction l as [|[m e'] l IH]; simpl; [reflexivity|].
  destruct (n <? m)%Z; simpl; [reflexivity|].
  rewrite IH. apply perm_swap.
Qed.

(** Enumeration permutes the properties of an object. *)
Lemma entries_perm {A : Type} (o : Obj.t A) : Permutation (Obj.entries o) o.
Proof.
  unfold Obj.entries, Obj.named. induction o as [|[k v] o IH]; simpl; [reflexivity|].
  destruct (Obj.arrayIndex k) as [n|]; simpl.
  - rewrite insertIndexed_perm. simpl. apply perm_skip, IH.
  - rewrite <- Permutation_middle. apply perm_skip, IH.
Qed.

(** An object without array-index keys is enumerated in creation order. *)
Lemma entries_no_index {A : Type} (o : Obj.t A) :
  Forall (fun k => Obj.arrayIndex k = None) (map fst o) -> Obj.entries o = o.
Proof.
  unfold Obj.entries, Obj.named. induction o as [|[k v] o IH]; intros H; [reflexivity|].
  simpl in H. inversion H as [|? ? Hk Ho]; subst. specialize (IH Ho).
  simpl. rewrite Hk. simpl.
  apply (f_equal (fun l => (k, v) :: l)) in IH.
  assert (Hidx : Obj.indexed o = []).
  { clear IH H Hk. induction o as [|[k' v'] o IHo]; [reflexivity|].
    simpl in Ho. inversion Ho as [|? ? Hk' Ho']; subst. simpl. rewrite Hk'. auto. }
  rewrite Hidx in *. exact IH.
Qed.

Lemma existsb_eqb_In k (ks : list string) : existsb (String.eqb k) ks = true <-> In k ks.
Proof.
  rewrite existsb_exists. split.
  - intros [x [Hx E]]. apply String.eqb_eq in E. subst. exact Hx.
  - intros H. exists k. split; [exact H | apply String.eqb_refl].
Qed.

(** Keys after a sequence of assignments: the keys before, then the
    assigned keys that were new, each once. *)
Lemma keys_after_assignments {A : Type} (f : string -> A) (cols : list string) :
  forall o : Obj.t A,
    NoDup (map fst o) ->
    let o' := fold_left (fun o col => Obj.set col (f col) o) cols o in
    NoDup (map fst o')
    /\ (forall c, In c (map fst o') <-> In c (map fst o) \/ In c cols)
    /\ (NoDup (map fst o ++ cols) -> map fst o' = (map fst o ++ cols)%list).
Proof.
  induction cols as [|col cols IH]; intros o Hnd; simpl.
  - split; [exact Hnd|]. split; [intros c; tauto|]. rewrite app_nil_r. reflexivity.
  - pose proof (ObjFacts.keys_set col (f col) o) as Hk.
    pose proof (existsb_eqb_In col (map fst o)) as Hin.
    destruct (existsb (String.eqb col) (map fst o)) eqn:E.
    + assert (Hcol : In col (map fst o)) by (apply Hin; reflexivity).
      assert (Hnd' : NoDup (map fst (Obj.set col (f col) o))) by (rewrite Hk; exact Hnd).
      destruct (IH _ Hnd') as [H1 [H2 H3]]. split; [exact H1|]. split.
      * intros c. rewrite H2, Hk. split; [tauto|]. intros [H|[<-|H]]; auto.
      * intros Hall. exfalso. apply NoDup_remove_2 in Hall. apply Hall.
        apply in_or_app. left. exact Hcol.
    + assert (Hcol : ~ In col (map fst o)) by (intros X; apply Hin in X; discriminate).
      assert (Hnd' : NoDup (map fst (Obj.set col (f col) o))).
      { rewrite Hk. apply NoDup_app; [exact Hnd | repeat constructor; intros [] |].
        intros x Hx [<-|[]]. exact (Hcol Hx). }
      destruct (IH _ Hnd') as [H1 [H2 H3]]. split; [exact H1|]. split.
      * intros c. rewrite H2, Hk, in_app_iff. simpl. tauto.
      * intros Hall. rewrite H3; rewrite Hk, <- app_assoc; [reflexivity | exact Hall].
Qed.

(** X6. When no column is named __proto__, the cleaned data of a row have
    exactly the columns as keys, each once; the keys are enumerated in
    header order when no header is repeated and none is the decimal form
    of an array index (such keys come first, in ascending order).  When
    the row object has every column as a property of its own, the cleaned
    data hold under each column the cleaned value of its cell. *)
Theorem row_data_has_the_columns :
  forall (dateToISOString : string -> option string) (this : CSVValidator)
         (rowData : Obj.t string) (n : nat),
    ~ In "__proto__" (columns this) ->
    let r := fst (validateRow dateToISOString this rowData n) in
    let keys := Object_keys (RowValidationResult.data r) in
    NoDup keys
    /\ (forall col, In col keys <-> In col (columns this))
    /\ (NoDup (columns this) ->
        Forall (fun col => Obj.arrayIndex col = None) (columns this) ->
        keys = columns this)
    /\ (Forall (fun col => Obj.get col rowData <> None) (columns this) ->
        Forall (fun col =>
                  Obj.get col (RowValidationResult.data r)
                  = Some (ValidationResult.cleanedValue
                            (cellOf dateToISOString this rowData col)))
               (columns this)).
Proof.
  intros d this rowData n _ r keys. unfold keys, r, Object_keys.
  rewrite validateRow_data.
  pose proof (keys_after_assignments
                (fun col => ValidationResult.cleanedValue (cellOf d this rowData col))
                (columns this) Obj.empty (NoDup_nil _)) as H.
  cbv beta zeta in H.
  change (fold_left
            (fun o col =>
               Obj.set col (ValidationResult.cleanedValue (cellOf d this rowData col)) o)
            (columns this) Obj.empty)
    with (coercedData d this rowData) in H.
  destruct H as [H1 [H2 H3]].
  pose proof (entries_perm (coercedData d this rowData)) as Hp.
  split; [|split; [|split]].
  - apply (Permutation_NoDup (l := map fst (coercedData d this rowData)));
      [|exact H1]. apply Permutation_map. symmetry. exact Hp.
  - intros col. transitivity (In col (map fst (coercedData d this rowData))).
    + split; apply Permutation_in, Permutation_map; [exact Hp | symmetry; exact Hp].
    + rewrite (H2 col). simpl. tauto.
  - intros Hnd Hidx. rewrite entries_no_index; [apply H3, Hnd|].
    rewrite (H3 Hnd). exact Hidx.
  - intros _. apply Forall_forall. intros col Hc. apply coercedData_get, Hc.
Qed.

Lemma row_data_has_the_columns_witness :
  Object_keys (RowValidationResult.data
                 (fst (validateRow RefDate.dateToISOString (newCSVValidator ["id"; "price"])
                                   [("id", "7"); ("price", "9.99")] 1)))
  = ["id"; "price"].
Proof.
  assert (Hc : columns (newCSVValidator ["id"; "price"]) = ["id"; "price"])
    by apply newCSVValidator_columns.
  assert (H0 : ~ In "__proto__" (columns (newCSVValidator ["id"; "price"]))).
  { rewrite Hc. simpl. intuition discriminate. }
  assert (H1 : NoDup (columns (newCSVValidator ["id"; "price"]))).
  { rewrite Hc. repeat constructor; simpl; intuition discriminate. }
  assert (H2 : Forall (fun col => Obj.arrayIndex col = None)
                      (columns (newCSVValidator ["id"; "price"]))).
  { rewrite Hc. repeat constructor. }
  transitivity (columns (newCSVValidator ["id"; "price"])); [|exact Hc].
  exact (proj1 (proj2 (proj2 (row_data_has_the_columns RefDate.dateToISOString
                                (newCSVValidator ["id"; "price"])
                                [("id", "7"); ("price", "9.99")] 1 H0))) H1 H2).
Defined.

(* ================================================================== *)
(** * Further properties of a run and of its summary                   *)
(* ================================================================== *)

Lemma Run_Forall (dateToISOString : string -> option string) (headers : list string)
      (P : RowValidationResult.t -> Prop) :
  (forall this rowData n, P (fst (validateRow dateToISOString this rowData n))) ->
  forall this i lines rs this',
    Run dateToISOString headers this i lines rs this' -> Forall P rs.
Proof.
  intros HP this i lines rs this' HR.
  induction HR as [|this this1 this' i line rest r rs E _ IH]; constructor; [|exact IH].
  change r with (fst (r, this1)). rewrite <- E. apply HP.
Qed.

Lemma Run_seen_NoDup (dateToISOString : string -> option string) (headers : list string)
      this i lines rs this' :
  Run dateToISOString headers this i lines rs this' ->
  NoDup (seenRows this) -> NoDup (seenRows this').
Proof.
  induction 1 as [|this this1 this' i line rest r rs E _ IH]; intros Hnd; [exact Hnd|].
  apply IH.
  assert (Hr : r = fst (validateRow dateToISOString this (rowDataOf headers line) i))
    by (rewrite E; reflexivity).
  assert (H1 : this1 = snd (validateRow dateToISOString this (rowDataOf headers line) i))
    by (rewrite E; reflexivity).
  destruct (RowValidationResult.isDuplicate r) eqn:D; rewrite Hr in D.
  - rewrite H1, validateRow_duplicate_state by exact D. exact Hnd.
  - rewrite H1, validateRow_fresh_state by exact D. cbn [seenRows].
    rewrite validateRow_isDuplicate in D. apply KeySetFacts.has_false in D.
    apply NoDup_app; [exact Hnd | repeat constructor; intros [] |].
    intros k Hk [<-|[]]. exact (D Hk).
Qed.

Lemma filter_partition_length {A : Type} (p : A -> bool) (l : list A) :
  List.length (filter p l) + List.length (filter (fun x => negb (p x)) l) = List.length l.
Proof.
  induction l as [|x l IH]; simpl; [reflexivity|].
  destruct (p x); simpl; lia.
Qed.

Lemma filter_length_mono {A : Type} (p q : A -> bool) (l : list A) :
  Forall (fun x => p x = true -> q x = true) l ->
  List.length (filter p l) <= List.length (filter q l).
Proof.
  induction 1 as [|x l Hx _ IH]; simpl; [lia|].
  destruct (p x) eqn:P.
  - rewrite (Hx eq_refl). simpl. lia.
  - destruct (q x); simpl; lia.
Qed.

(** X7. The seen set of a run from a fresh validator never holds a key twice;
    it holds exactly the keys of the results, and one key per result that
    is not a duplicate: its size plus the number of duplicates is the
    number of rows. *)
Theorem seen_set_counts_distinct_rows :
  forall (dateToISOString : string -> option string) (headers lines : list string),
    let run := validateLines dateToISOString headers (newCSVValidator headers) 1 lines [] in
    NoDup (seenRows (snd run))
    /\ (forall k, In k (seenRows (snd run)) <-> exists r, In r (fst run) /\ keyOf r = k)
    /\ List.length (seenRows (snd run))
       + List.length (filter RowValidationResult.isDuplicate (fst run))
       = List.length (fst run).
Proof.
  intros d headers lines run.
  destruct (validateLines_Run d headers lines (newCSVValidator headers) 1 [])
    as [rs [this' [E HR]]].
  unfold run. rewrite E. cbn [fst snd app]. split; [|split].
  - apply (Run_seen_NoDup d headers _ _ _ _ _ HR).
    rewrite newCSVValidator_seenRows. constructor.
  - intros k. apply (fresh_run_seen d headers lines rs this' k HR).
  - rewrite (Run_seenRows d headers _ _ _ _ _ HR), newCSVValidator_seenRows.
    cbn [KeySet.empty app]. rewrite length_map.
    pose proof (filter_partition_length RowValidationResult.isDuplicate rs). lia.
Qed.

Lemma getValidationSummary_errors (this : CSVValidator)
      (results : list RowValidationResult.t) :
  CSVValidationSummary.validationErrors (getValidationSummary this results)
  = map rowIssue (filter hasErrors results)
  /\ CSVValidationSummary.issues (getValidationSummary this results)
     = map rowIssue (filter hasErrors results).
Proof.
  unfold getValidationSummary.
  cbn [CSVValidationSummary.validationErrors CSVValidationSummary.issues].
  assert (H : forall acc,
             fold_left
               (fun allErrors result =>
                  if (0 <? List.length (RowValidationResult.errors result))%nat then
                    (allErrors ++
                       [("Row " ++ JS.numberToString (RowValidationResult.rowNumber result)
                           ++ ": " ++ JS.join ", " (RowValidationResult.errors result))%string])%list
                  else allErrors)
               results acc
             = (acc ++ map rowIssue (filter hasErrors results))%list).
  { induction results as [|r rs IH]; intros acc; simpl.
    - rewrite app_nil_r. reflexivity.
    - rewrite IH. unfold hasErrors at 2.
      destruct (0 <? List.length (RowValidationResult.errors r))%nat; simpl.
      + rewrite <- app_assoc. reflexivity.
      + reflexivity. }
  rewrite (H []). auto.
Qed.

Lemma hasErrors_false r : hasErrors r = false <-> RowValidationResult.errors r = [].
Proof.
  unfold hasErrors. destruct (RowValidationResult.errors r) as [|e es].
  - split; reflexivity.
  - split; discriminate.
Qed.

(** X9. The issues of the summary are one line per result that has errors, in
    row order.  Over the results of a file, a valid row has no error and
    an error row has some, so the number of issues lies between errorRows
    and totalRows - validRows: the rows listed beyond the error rows are
    duplicates whose cells were rejected. *)
Theorem summary_issues_list_rows_with_errors :
  forall (dateToISOString : string -> option string) (csv : string)
         (results : list RowValidationResult.t) (summary : CSVValidationSummary.t),
    validateCSV dateToISOString csv = Resolved (results, summary) ->
    CSVValidationSummary.validationErrors summary = map rowIssue (filter hasErrors results)
    /\ CSVValidationSummary.issues summary = CSVValidationSummary.validationErrors summary
    /\ Forall (fun r => RowValidationResult.isValid r = true ->
                        RowValidationResult.errors r = []) results
    /\ Forall (fun r => RowValidationResult.isValid r = false ->
                        RowValidationResult.isDuplicate r = false ->
                        RowValidationResult.errors r <> []) results
    /\ CSVValidationSummary.errorRows summary
       <= List.length (CSVValidationSummary.validationErrors summary)
    /\ List.length (CSVValidationSummary.validationErrors summary)
       + CSVValidationSummary.validRows summary
       <= CSVValidationSummary.totalRows summary.
Proof.
  intros d csv results summary H. rewrite validateCSV_unfold in H.
  destruct (retainedLines csv) as [|headerLine dataLines]; [discriminate|].
  cbv zeta in H.
  destruct (validateLines_Run d (parseFields headerLine) dataLines
              (newCSVValidator (parseFields headerLine)) 1 []) as [rs [this' [E HR]]].
  rewrite E in H. cbn [fst snd app] in H. injection H as <- <-.
  destruct (getValidationSummary_errors this' rs) as [Hv Hi].
  assert (Hrow : Forall (fun r =>
                   (RowValidationResult.isValid r = true <->
                    RowValidationResult.errors r = []
                    /\ RowValidationResult.isDuplicate r = false)) rs).
  { apply (Run_Forall d (parseFields headerLine)
             (fun r => RowValidationResult.isValid r = true <->
                       RowValidationResult.errors r = []
                       /\ RowValidationResult.isDuplicate r = false))
      with (this := newCSVValidator (parseFields headerLine)) (i := 1)
           (lines := dataLines) (this' := this'); [|exact HR].
    intros this rowData n. apply validateRow_valid_iff. }
  split; [exact Hv|]. split; [congruence|].
  assert (H1 : Forall (fun r => RowValidationResult.isValid r = true ->
                               RowValidationResult.errors r = []) rs).
  { eapply Forall_impl; [|exact Hrow]. intros r Hr V. apply Hr in V. tauto. }
  assert (H2 : Forall (fun r => RowValidationResult.isValid r = false ->
                               RowValidationResult.isDuplicate r = false ->
                               RowValidationResult.errors r <> []) rs).
  { eapply Forall_impl; [|exact Hrow]. intros r Hr V D Ee.
    assert (X : RowValidationResult.isValid r = true) by (apply Hr; auto). congruence. }
  split; [exact H1|]. split; [exact H2|].
  rewrite Hv, length_map. unfold getValidationSummary.
  cbn [CSVValidationSummary.errorRows CSVValidationSummary.validRows
       CSVValidationSummary.totalRows]. split.
  - apply filter_length_mono. eapply Forall_impl; [|exact H2].
    intros r Hr Hp. apply andb_true_iff in Hp. destruct Hp as [V D].
    apply negb_true_iff in V, D.
    destruct (hasErrors r) eqn:Eh; [reflexivity|].
    apply hasErrors_false in Eh. exfalso. exact (Hr V D Eh).
  - pose proof (filter_partition_length RowValidationResult.isValid rs) as Hp.
    assert (Hle : List.length (filter hasErrors rs)
                  <= List.length (filter (fun r => negb (RowValidationResult.isValid r)) rs)).
    { apply filter_length_mono. eapply Forall_impl; [|exact H1].
      intros r Hr Eh. cbv beta in Hr.
      destruct (RowValidationResult.isValid r); [|reflexivity].
      specialize (Hr eq_refl). apply hasErrors_false in Hr. congruence. }
    lia.
Qed.

Lemma summary_issues_list_rows_with_errors_witness :
  exists results summary,
    validateCSV RefDate.dateToISOString ("price" ++ String LF ("abc" ++ String LF "abc"))
    = Resolved (results, summary)
    /\ CSVValidationSummary.validationErrors summary = map rowIssue (filter hasErrors results)
    /\ CSVValidationSummary.errorRows summary
       <= List.length (CSVValidationSummary.validationErrors summary).
Proof.
  destruct (validateCSV RefDate.dateToISOString
                        ("price" ++ String LF ("abc" ++ String LF "abc")))
    as [[results summary]|msg] eqn:E.
  - exists results, summary. split; [reflexivity|].
    pose proof (summary_issues_list_rows_with_errors _ _ _ _ E) as [H1 [_ [_ [_ [H2 _]]]]].
    split; [exact H1 | exact H2].
  - exfalso. vm_compute in E. discriminate E.
Defined.

(** X8. The first data row of a file is never a duplicate, so a file with
    data rows always has fewer duplicates than rows. *)
Theorem first_row_is_not_duplicate :
  forall (dateToISOString : string -> option string) (csv : string)
         (results : list RowValidationResult.t) (summary : CSVValidationSummary.t),
    validateCSV dateToISOString csv = Resolved (results, summary) ->
    (forall r, nth_error results 0 = Some r -> RowValidationResult.isDuplicate r = false)
    /\ (results <> [] ->
        CSVValidationSummary.duplicateRows summary < CSVValidationSummary.totalRows summary).
Proof.
  intros d csv results summary H. rewrite validateCSV_unfold in H.
  destruct (retainedLines csv) as [|headerLine dataLines]; [discriminate|].
  cbv zeta in H.
  destruct (validateLines_Run d (parseFields headerLine) dataLines
              (newCSVValidator (parseFields headerLine)) 1 []) as [rs [this' [E HR]]].
  rewrite E in H. cbn [fst snd app] in H. injection H as <- <-.
  assert (Hfirst : forall r, nth_error rs 0 = Some r ->
                             RowValidationResult.isDuplicate r = false).
  { intros r Hr. inversion HR as [|? this1 ? ? line rest r0 rs0 Ev _]; subst.
    - discriminate.
    - injection Hr as <-. change r0 with (fst (r0, this1)). rewrite <- Ev.
      rewrite validateRow_isDuplicate, newCSVValidator_seenRows. reflexivity. }
  split; [exact Hfirst|].
  intros Hne. unfold getValidationSummary.
  cbn [CSVValidationSummary.duplicateRows CSVValidationSummary.totalRows].
  destruct rs as [|r rs']; [congruence|].
  simpl. rewrite (Hfirst r eq_refl).
  pose proof (filter_length_le RowValidationResult.isDuplicate rs'). lia.
Qed.

Lemma first_row_is_not_duplicate_witness :
  exists results summary,
    validateCSV RefDate.dateToISOString ("id" ++ String LF ("7" ++ String LF "7"))
    = Resolved (results, summary)
    /\ CSVValidationSummary.duplicateRows summary < CSVValidationSummary.totalRows summary.
Proof.
  destruct (validateCSV RefDate.dateToISOString ("id" ++ String LF ("7" ++ String LF "7")))
    as [[results summary]|msg] eqn:E.
  - exists results, summary. split; [reflexivity|].
    apply (proj2 (first_row_is_not_duplicate _ _ _ _ E)).
    intros ->. vm_compute in E. discriminate E.
  - exfalso. vm_compute in E. discriminate E.
Defined.

(* ================================================================== *)
(** * Further properties of line and field parsing                     *)
(* ================================================================== *)

Lemma split_app sep a b :
  JS.split sep (a ++ String sep b) = (JS.split sep a ++ JS.split sep b)%list.
Proof.
  induction a as [|c a IH]; cbn [append JS.split].
  - rewrite Ascii.eqb_refl. reflexivity.
  - destruct (Ascii.eqb c sep); rewrite IH; [reflexivity|].
    pose proof (split_not_nil sep a) as Hne.
    destruct (JS.split sep a) as [|f fs]; [congruence | reflexivity].
Qed.

Lemma split_length sep s : List.length (JS.split sep s) = S (countChar sep s).
Proof.
  induction s as [|c s IH]; [reflexivity|].
  cbn [JS.split countChar]. destruct (Ascii.eqb c sep).
  - simpl. rewrite IH. reflexivity.
  - pose proof (split_not_nil sep s) as Hne.
    destruct (JS.split sep s) as [|f fs]; [congruence|]. simpl in *. lia.
Qed.

(** X10. The parser yields one field more than the line has commas, whatever
    the quoting: a comma inside double quotes still separates fields. *)
Theorem field_count_is_commas_plus_one :
  forall line : string,
    List.length (parseFields line) = S (countChar "," line).
Proof.
  intros line. unfold parseFields. rewrite length_map. apply split_length.
Qed.

(** Appending a text without separator extends the last piece. *)
Lemma split_append_last sep a b :
  ~ In sep (list_ascii_of_string b) ->
  exists init last,
    JS.split sep a = (init ++ [last])%list
    /\ JS.split sep (a ++ b) = (init ++ [(last ++ b)%string])%list.
Proof.
  intros Hb. induction a as [|c a [init [last [H1 H2]]]].
  - exists [], EmptyString. split; [reflexivity|]. simpl.
    induction b as [|x b IHb]; [reflexivity|].
    cbn [JS.split]. destruct (Ascii.eqb_spec x sep) as [->|Hx].
    + exfalso. apply Hb. left. reflexivity.
    + rewrite IHb; [reflexivity|]. intros X. apply Hb. right. exact X.
  - cbn [append JS.split]. destruct (Ascii.eqb c sep).
    + exists (EmptyString :: init), last. rewrite H1, H2. auto.
    + rewrite H1, H2. destruct init as [|f fs]; simpl.
      * exists [], (String c last). auto.
      * exists (String c f :: fs), last. auto.
Qed.

Lemma blank_app a b : JS.blank (a ++ b) <-> JS.blank a /\ JS.blank b.
Proof.
  unfold JS.blank. rewrite NumberFacts.list_ascii_app, Forall_app. tauto.
Qed.

Lemma trimStart_app_nonblank f w :
  ~ JS.blank f -> JS.trimStart (f ++ w) = JS.trimStart f ++ w.
Proof.
  induction f as [|c f IH]; intros H.
  - exfalso. apply H. constructor.
  - cbn [append JS.trimStart]. destruct (JS.isWhiteSpace c) eqn:W; [|reflexivity].
    apply IH. intros B. apply H. apply JSFacts.blank_cons. auto.
Qed.

Lemma trimEnd_app_blank g w : JS.blank w -> JS.trimEnd (g ++ w) = JS.trimEnd g.
Proof.
  intros Hw. induction g as [|c g IH].
  - simpl. apply JSFacts.trimEnd_blank, Hw.
  - cbn [append JS.trimEnd]. rewrite IH. reflexivity.
Qed.

Lemma trim_app_blank f w : JS.blank w -> JS.trim (f ++ w) = JS.trim f.
Proof.
  intros Hw. destruct (JSFacts.trim_blank f) as [_ Hb].
  assert (Hdec : JS.trim f = EmptyString \/ ~ JS.blank f).
  { destruct (JS.trim f) eqn:E; [left; reflexivity|].
    right. intros B. apply JSFacts.trim_blank in B. congruence. }
  destruct Hdec as [He|Hn].
  - rewrite He. apply JSFacts.trim_blank. apply blank_app. split; [|exact Hw].
    apply JSFacts.trim_blank, He.
  - unfold JS.trim. rewrite trimStart_app_nonblank by exact Hn.
    apply trimEnd_app_blank, Hw.
Qed.

Lemma trimStart_blank_app w f : JS.blank w -> JS.trimStart (w ++ f) = JS.trimStart f.
Proof.
  induction w as [|c w IH]; intros H; [reflexivity|].
  apply JSFacts.blank_cons in H. destruct H as [Hc Hw].
  cbn [append JS.trimStart]. rewrite Hc. apply IH, Hw.
Qed.

Lemma blank_no_comma w : JS.blank w -> ~ In ","%char (list_ascii_of_string w).
Proof.
  unfold JS.blank. rewrite Forall_forall. intros H Hin.
  specialize (H _ Hin). vm_compute in H. discriminate.
Qed.

Lemma fields_ignore_space_around_line_aux line w :
  JS.blank w -> parseFields (line ++ w) = parseFields line.
Proof.
  intros Hw. unfold parseFields.
  destruct (split_append_last "," line w (blank_no_comma w Hw))
    as [init [last [H1 H2]]].
  rewrite H1, H2, !map_app. simpl. rewrite trim_app_blank by exact Hw. reflexivity.
Qed.

(** X11. White space at the end of a line, such as the carriage return of a
    CRLF line ending, changes none of its fields, and neither does white
    space at its start. *)
Theorem fields_ignore_space_around_line :
  forall line w : string,
    JS.blank w ->
    parseFields (line ++ w) = parseFields line
    /\ parseFields (w ++ line) = parseFields line.
Proof.
  intros line w Hw. split; [apply fields_ignore_space_around_line_aux, Hw|].
  unfold parseFields.
  - induction w as [|c w IH]; [reflexivity|].
    pose proof Hw as Hw'. apply JSFacts.blank_cons in Hw'. destruct Hw' as [Hc Hw'].
    specialize (IH Hw'). cbn [append JS.split].
    destruct (Ascii.eqb_spec c ",") as [->|Hne]; [vm_compute in Hc; discriminate|].
    pose proof (split_not_nil "," (w ++ line)) as Hnil.
    pose proof (split_not_nil "," line) as Hnil'.
    destruct (JS.split "," (w ++ line)) as [|f fs]; [congruence|].
    destruct (JS.split "," line) as [|g gs]; [congruence|].
    simpl in IH |- *. injection IH as H1 H2. rewrite H2. f_equal.
    rewrite <- H1. unfold JS.trim. cbn [JS.trimStart]. rewrite Hc. reflexivity.
Qed.

Lemma fields_ignore_space_around_line_witness :
  parseFields ("id,price" ++ String CR EmptyString) = parseFields "id,price".
Proof.
  assert (H : JS.blank (String CR EmptyString)) by (repeat constructor).
  exact (proj1 (fields_ignore_space_around_line "id,price" (String CR EmptyString) H)).
Defined.

Lemma validateLines_fields (dateToISOString : string -> option string)
      (headers : list string) (lines1 : list string) :
  forall lines2 this i results,
    map parseFields lines1 = map parseFields lines2 ->
    validateLines dateToISOString headers this i lines1 results
    = validateLines dateToISOString headers this i lines2 results.
Proof.
  induction lines1 as [|l1 rest1 IH]; intros [|l2 rest2] this i results H;
    try discriminate; [reflexivity|].
  simpl in H. injection H as Hl Hrest.
  cbn [validateLines]. cbv zeta. rewrite Hl.
  destruct (validateRow _ _ _ _) as [result this1]. apply IH, Hrest.
Qed.

(** The report depends on the text only through the fields of its
    retained lines. *)
Lemma validateCSV_fields (dateToISOString : string -> option string) (csv1 csv2 : string) :
  map parseFields (retainedLines csv1) = map parseFields (retainedLines csv2) ->
  validateCSV dateToISOString csv1 = validateCSV dateToISOString csv2.
Proof.
  intros H. rewrite !validateCSV_unfold.
  destruct (retainedLines csv1) as [|h1 l1], (retainedLines csv2) as [|h2 l2];
    try discriminate; [reflexivity|].
  simpl in H. injection H as Hh Hl. cbv zeta. rewrite Hh.
  rewrite (validateLines_fields dateToISOString (parseFields h2) l1 l2 _ _ _ Hl).
  reflexivity.
Qed.

Lemma retainedLines_app a b :
  retainedLines (a ++ String LF b) = (retainedLines a ++ retainedLines b)%list.
Proof. unfold retainedLines. rewrite split_app, filter_app. reflexivity. Qed.

Lemma split_blank sep w : JS.blank w -> Forall JS.blank (JS.split sep w).
Proof.
  induction w as [|c w IH]; intros H.
  - repeat constructor.
  - apply JSFacts.blank_cons in H. destruct H as [Hc Hw]. specialize (IH Hw).
    cbn [JS.split]. destruct (Ascii.eqb c sep).
    + constructor; [constructor | exact IH].
    + destruct (JS.split sep w) as [|f fs]; [repeat constructor; exact Hc|].
      inversion IH as [|? ? Hf Hfs]; subst. constructor; [|exact Hfs].
      apply JSFacts.blank_cons. auto.
Qed.

Lemma retainedLines_blank w : JS.blank w -> retainedLines w = [].
Proof.
  intros H. unfold retainedLines.
  pose proof (split_blank LF w H) as Hall.
  induction Hall as [|l ls Hl _ IH]; [reflexivity|].
  simpl. apply JSFacts.trim_blank in Hl. rewrite Hl. exact IH.
Qed.

(** X12. Blank lines carry nothing: inserting white-space-only lines between
    two lines of a text, or after its last line, changes neither the
    retained lines nor the report. *)
Theorem blank_lines_are_ignored :
  forall (dateToISOString : string -> option string) (a b w : string),
    JS.blank w ->
    retainedLines (a ++ String LF (w ++ String LF b)) = retainedLines (a ++ String LF b)
    /\ validateCSV dateToISOString (a ++ String LF (w ++ String LF b))
       = validateCSV dateToISOString (a ++ String LF b)
    /\ validateCSV dateToISOString (a ++ String LF w) = validateCSV dateToISOString a.
Proof.
  intros d a b w Hw.
  assert (H1 : retainedLines (a ++ String LF (w ++ String LF b))
               = retainedLines (a ++ String LF b)).
  { rewrite !retainedLines_app, (retainedLines_blank w Hw). reflexivity. }
  split; [exact H1|]. split.
  - apply validateCSV_fields. rewrite H1. reflexivity.
  - apply validateCSV_fields.
    rewrite retainedLines_app, (retainedLines_blank w Hw), app_nil_r. reflexivity.
Qed.

Lemma blank_lines_are_ignored_witness :
  validateCSV RefDate.dateToISOString
              ("name" ++ String LF ("  " ++ String LF "Alice"))
  = validateCSV RefDate.dateToISOString ("name" ++ String LF "Alice").
Proof.
  assert (H : JS.blank "  ") by (repeat constructor).
  exact (proj1 (proj2 (blank_lines_are_ignored RefDate.dateToISOString
                         "name" "Alice" "  " H))).
Defined.

Lemma truthy_trim_app_blank l w :
  JS.blank w -> JS.truthy (JS.trim (l ++ w)) = JS.truthy (JS.trim l).
Proof. intros H. rewrite trim_app_blank by exact H. reflexivity. Qed.

(** The lines of the CRLF form are the lines of the text, each possibly
    followed by a carriage return. *)
Lemma split_toCRLF s :
  Forall2 (fun l l' => l' = l \/ l' = l ++ String CR EmptyString)
          (JS.split LF s) (JS.split LF (toCRLF s)).
Proof.
  induction s as [|c s IH]; [repeat constructor|].
  cbn [JS.split toCRLF]. destruct (Ascii.eqb c LF) eqn:E.
  - cbn [JS.split].
    change (Ascii.eqb CR LF) with false. cbv iota.
    rewrite Ascii.eqb_refl.
    constructor; [right; reflexivity | exact IH].
  - cbn [JS.split]. rewrite E.
    inversion IH as [|f f' fs fs' Hf Hfs E1 E2]; [constructor; [left; reflexivity | constructor]|].
    constructor; [|exact Hfs].
    destruct Hf as [->| ->]; [left | right]; reflexivity.
Qed.

Lemma filter_Forall2 {A : Type} (R : A -> A -> Prop) (p : A -> bool) l l' :
  Forall2 R l l' -> (forall x y, R x y -> p x = p y) ->
  Forall2 R (filter p l) (filter p l').
Proof.
  intros H Hp. induction H as [|x y l l' Hxy _ IH]; simpl; [constructor|].
  rewrite (Hp x y Hxy). destruct (p y); [constructor; assumption | exact IH].
Qed.

(** X13. Windows line endings change nothing: the text with every line feed
    preceded by a carriage return is validated to the same report. *)
Theorem crlf_text_gives_same_report :
  forall (dateToISOString : string -> option string) (csv : string),
    validateCSV dateToISOString (toCRLF csv) = validateCSV dateToISOString csv.
Proof.
  intros d csv. apply validateCSV_fields. unfold retainedLines.
  assert (Hcr : JS.blank (String CR EmptyString)) by (repeat constructor).
  pose proof (filter_Forall2 _ (fun line => JS.truthy (JS.trim line)) _ _
                (split_toCRLF csv)) as HF.
  assert (Hp : forall x y, (y = x \/ y = x ++ String CR EmptyString) ->
                           JS.truthy (JS.trim x) = JS.truthy (JS.trim y)).
  { intros x y [->| ->]; [reflexivity|]. symmetry. apply truthy_trim_app_blank, Hcr. }
  specialize (HF Hp). clear Hp.
  induction HF as [|x y l l' Hxy _ IH]; [reflexivity|].
  simpl. rewrite IH. f_equal.
  destruct Hxy as [->| ->]; [reflexivity|].
  apply (fields_ignore_space_around_line_aux x (String CR EmptyString) Hcr).
Qed.

(* ================================================================== *)
(** * Rows shorter or longer than the header                           *)
(* ================================================================== *)

Lemma buildRowData_ext headers values1 values2 : forall k rowData,
  (forall i, i < List.length headers ->
             nth (k + i) values1 EmptyString = nth (k + i) values2 EmptyString) ->
  buildRowData headers values1 k rowData = buildRowData headers values2 k rowData.
Proof.
  induction headers as [|h hs IH]; intros k rowData H; [reflexivity|].
  cbn [buildRowData].
  replace (nth k values1 EmptyString) with (nth k values2 EmptyString).
  - apply IH. intros i Hi. replace (S k + i) with (k + S i) by lia.
    apply H. simpl. lia.
  - symmetry. specialize (H 0). rewrite Nat.add_0_r in H. apply H. simpl. lia.
Qed.

Lemma buildRowData_get_other headers values c : forall k rowData,
  ~ In c headers ->
  Obj.get c (buildRowData headers values k rowData) = Obj.get c rowData.
Proof.
  induction headers as [|h hs IH]; intros k rowData H; [reflexivity|].
  cbn [buildRowData]. rewrite IH by (intros X; apply H; right; exact X).
  apply ObjFacts.get_set_other. intros ->. apply H. left. reflexivity.
Qed.

(** With distinct header names, the row object holds under the [i]-th
    header the [i]-th field of the line, and the empty string when the
    line has no such field. *)
Lemma buildRowData_get headers values : forall k rowData i,
  NoDup headers -> i < List.length headers ->
  Obj.get (nth i headers EmptyString) (buildRowData headers values k rowData)
  = Some (nth (k + i) values EmptyString).
Proof.
  induction headers as [|h hs IH]; intros k rowData i Hnd Hi; [simpl in Hi; lia|].
  inversion Hnd as [|? ? Hh Hhs]; subst. cbn [buildRowData]. destruct i as [|i].
  - cbn [nth]. rewrite Nat.add_0_r.
    rewrite buildRowData_get_other by exact Hh. apply ObjFacts.get_set_same.
  - cbn [nth]. replace (k + S i) with (S k + i) by lia.
    apply IH; [exact Hhs | simpl in Hi; lia].
Qed.

(** X14. Fields beyond the header are ignored: a line that has at least as
    many fields as there are headers gives the same row object, hence the
    same result, whatever further fields follow. *)
Theorem extra_fields_are_ignored :
  forall (headers : list string) (line extra : string),
    List.length headers <= List.length (parseFields line) ->
    rowDataOf headers (line ++ String "," extra) = rowDataOf headers line
    /\ forall (dateToISOString : string -> option string) (this : CSVValidator) (n : nat),
         validateRow dateToISOString this (rowDataOf headers (line ++ String "," extra)) n
         = validateRow dateToISOString this (rowDataOf headers line) n.
Proof.
  intros headers line extra Hlen.
  assert (H : rowDataOf headers (line ++ String "," extra) = rowDataOf headers line).
  { unfold rowDataOf. apply buildRowData_ext. intros i Hi. cbn [Nat.add].
    unfold parseFields. rewrite split_app, map_app.
    apply app_nth1. unfold parseFields in Hlen. lia. }
  split; [exact H|]. intros d this n. rewrite H. reflexivity.
Qed.

Lemma extra_fields_are_ignored_witness :
  rowDataOf ["id"; "price"] ("1,9.99" ++ String "," "surplus")
  = rowDataOf ["id"; "price"] "1,9.99".
Proof.
  assert (H : List.length ["id"; "price"] <= List.length (parseFields "1,9.99"))
    by (vm_compute; repeat constructor).
  exact (proj1 (extra_fields_are_ignored ["id"; "price"] "1,9.99" "surplus" H)).
Defined.

(** X15. A line with fewer fields than there are headers leaves the trailing
    columns empty: with distinct header names, every column past the
    last field of the line, unless it is named __proto__ (a name under
    which the row object holds no field), is cleaned to null, is
    reported as "Missing value", and makes the row invalid. *)
Theorem short_row_misses_trailing_columns :
  forall (dateToISOString : string -> option string) (this : CSVValidator)
         (line : string) (n i : nat),
    NoDup (columns this) ->
    List.length (parseFields line) <= i ->
    i < List.length (columns this) ->
    nth i (columns this) EmptyString <> "__proto__" ->
    let col := nth i (columns this) EmptyString in
    let r := fst (validateRow dateToISOString this (rowDataOf (columns this) line) n) in
    Obj.get col (RowValidationResult.data r) = Some Null
    /\ In (col ++ ": Missing value") (RowValidationResult.errors r)
    /\ RowValidationResult.isValid r = false.
Proof.
  intros d this line n i Hnd Hshort Hi _ col r.
  assert (Hin : In col (columns this)) by (apply nth_In; exact Hi).
  assert (Hraw : Obj.get col (rowDataOf (columns this) line) = Some EmptyString).
  { unfold col, rowDataOf. rewrite buildRowData_get by assumption.
    cbn [Nat.add]. rewrite nth_overflow by exact Hshort. reflexivity. }
  assert (Hcell : cellOf d this (rowDataOf (columns this) line) col
                  = ValidationResult.mk false ["Missing value"] Null
                                        (Obj.get col (columnTypes this))).
  { unfold cellOf. rewrite Hraw. apply validateValue_missing. reflexivity. }
  split; [|split].
  - unfold r. rewrite validateRow_data, coercedData_get by exact Hin.
    fold (cellOf d this (rowDataOf (columns this) line) col). rewrite Hcell. reflexivity.
  - destruct (validateColumn_fold d this (rowDataOf (columns this) line) (columns this)
                                  (mkRowAcc [] Obj.empty true)) as [He _].
    cbn [acc_errors app] in He.
    assert (Herr : RowValidationResult.errors r
                   = map (cellError d this (rowDataOf (columns this) line))
                         (filter (fun c => negb (ValidationResult.isValid
                                     (cellOf d this (rowDataOf (columns this) line) c)))
                                 (columns this))) by exact He.
    rewrite Herr. apply in_map_iff. exists col. split.
    + unfold cellError. rewrite Hcell. reflexivity.
    + apply filter_In. split; [exact Hin|]. rewrite Hcell. reflexivity.
  - unfold r. apply (validateRow_invalid_cell d this _ n col Hin).
    fold (cellOf d this (rowDataOf (columns this) line) col). rewrite Hcell. reflexivity.
Qed.

Lemma short_row_misses_trailing_columns_witness :
  In "price: Missing value"
     (RowValidationResult.errors
        (fst (validateRow RefDate.dateToISOString (newCSVValidator ["id"; "price"])
                          (rowDataOf ["id"; "price"] "7") 1))).
Proof.
  assert (Hnd : NoDup (columns (newCSVValidator ["id"; "price"]))).
  { rewrite newCSVValidator_columns. repeat constructor; simpl; intuition discriminate. }
  assert (H1 : List.length (parseFields "7") <= 1) by (vm_compute; constructor).
  assert (H2 : 1 < List.length (columns (newCSVValidator ["id"; "price"])))
    by (vm_compute; constructor).
  assert (H3 : nth 1 (columns (newCSVValidator ["id"; "price"])) EmptyString <> "__proto__")
    by (rewrite newCSVValidator_columns; discriminate).
  exact (proj1 (proj2 (short_row_misses_trailing_columns RefDate.dateToISOString
                         (newCSVValidator ["id"; "price"]) "7" 1 1 Hnd H1 H2 H3))).
Defined.

(* ================================================================== *)
(** * The stored upload                                                *)
(* ================================================================== *)

Lemma detectColumnTypes_columnTypes cols : forall this,
  columnTypes (fold_left
                 (fun this col =>
                    mkCSVValidator (columns this) (seenRows this)
                                   (Obj.set col (detectColumnType col) (columnTypes this)))
                 cols this)
  = fold_left (fun o col => Obj.set col (detectColumnType col) o) cols (columnTypes this).
Proof.
  induction cols as [|col cols IH]; intros this; simpl; [reflexivity|].
  rewrite IH. reflexivity.
Qed.

Lemma newCSVValidator_keys headers :
  NoDup (map fst (columnTypes (newCSVValidator headers)))
  /\ (forall c, In c (map fst (columnTypes (newCSVValidator headers))) <-> In c headers)
  /\ (NoDup headers -> map fst (columnTypes (newCSVValidator headers)) = headers).
Proof.
  unfold newCSVValidator, detectColumnTypes. rewrite detectColumnTypes_columnTypes.
  cbn [columns columnTypes].
  destruct (keys_after_assignments detectColumnType headers Obj.empty (NoDup_nil _))
    as [H1 [H2 H3]].
  split; [exact H1|]. split; [|exact H3].
  intros c. rewrite (H2 c). simpl. tauto.
Qed.

Lemma resolved_summary_columnTypes (dateToISOString : string -> option string)
      (csv : string) results summary :
  validateCSV dateToISOString csv = Resolved (results, summary) ->
  CSVValidationSummary.columnTypes summary
  = columnTypes (newCSVValidator (parseFields (hd EmptyString (retainedLines csv)))).
Proof.
  intros H. rewrite validateCSV_unfold in H.
  destruct (retainedLines csv) as [|headerLine dataLines]; [discriminate|].
  cbv zeta in H.
  destruct (validateLines_Run dateToISOString (parseFields headerLine) dataLines
              (newCSVValidator (parseFields headerLine)) 1 []) as [rs [this' [E HR]]].
  rewrite E in H. cbn [fst snd app] in H. injection H as _ <-.
  unfold getValidationSummary. cbn [CSVValidationSummary.columnTypes hd].
  apply (proj2 (Run_columns dateToISOString _ _ _ _ _ _ HR)).
Qed.

(** X16. When no header field is the name __proto__ (under which an object
    records nothing), the column names stored with an upload are the
    header fields of the file, each once; they are in header order
    whenever no header is repeated and none is the decimal form of an
    array index (such keys are enumerated first, in ascending order). *)
Theorem stored_column_names_are_the_headers :
  forall (dateToISOString : string -> option string) (csv filename : string)
         (results : list RowValidationResult.t) (summary : CSVValidationSummary.t),
    validateCSV dateToISOString csv = Resolved (results, summary) ->
    ~ In "__proto__" (parseFields (hd EmptyString (retainedLines csv))) ->
    let headers := parseFields (hd EmptyString (retainedLines csv)) in
    let names := UploadRecord.column_names (uploadRecord filename summary) in
    NoDup names
    /\ (forall c, In c names <-> In c headers)
    /\ (NoDup headers -> Forall (fun h => Obj.arrayIndex h = None) headers ->
        names = headers).
Proof.
  intros d csv filename results summary H _ headers names.
  unfold names, uploadRecord. cbn [UploadRecord.column_names]. unfold Object_keys.
  rewrite (resolved_summary_columnTypes d csv results summary H). fold headers.
  destruct (newCSVValidator_keys headers) as [H1 [H2 H3]].
  pose proof (entries_perm (columnTypes (newCSVValidator headers))) as Hp.
  split; [|split].
  - apply (Permutation_NoDup (l := map fst (columnTypes (newCSVValidator headers))));
      [|exact H1]. apply Permutation_map. symmetry. exact Hp.
  - intros c. rewrite <- (H2 c). split; apply Permutation_in, Permutation_map;
      [exact Hp | symmetry; exact Hp].
  - intros Hnd Hidx. rewrite entries_no_index; [apply H3, Hnd|].
    rewrite (H3 Hnd). exact Hidx.
Qed.

Lemma stored_column_names_are_the_headers_witness :
  exists results summary,
    validateCSV RefDate.dateToISOString ("id,price" ++ String LF "1,9.99")
    = Resolved (results, summary)
    /\ UploadRecord.column_names (uploadRecord "prices.csv" summary) = ["id"; "price"].
Proof.
  destruct (validateCSV RefDate.dateToISOString ("id,price" ++ String LF "1,9.99"))
    as [[results summary]|msg] eqn:E.
  - exists results, summary. split; [reflexivity|].
    assert (Hh : parseFields (hd EmptyString
                                 (retainedLines ("id,price" ++ String LF "1,9.99")))
                 = ["id"; "price"]) by (vm_compute; reflexivity).
    assert (H0 : ~ In "__proto__"
                      (parseFields (hd EmptyString
                                       (retainedLines ("id,price" ++ String LF "1,9.99")))))
      by (rewrite Hh; simpl; intuition discriminate).
    apply (proj2 (proj2 (stored_column_names_are_the_headers _ _ "prices.csv" _ _ E H0)));
      rewrite Hh.
    + repeat constructor; simpl; intuition discriminate.
    + repeat constructor.
  - exfalso. vm_compute in E. discriminate E.
Defined.

(** Headers that are array indices are stored in ascending order, not in
    header order. *)
Example numeric_headers_are_reordered :
  forall dateToISOString : string -> option string,
    match validateCSV dateToISOString ("2021,2020" ++ String LF "a,b") with
    | Resolved (_, summary) =>
        UploadRecord.column_names (uploadRecord "years.csv" summary) = ["2020"; "2021"]
    | Rejected _ => False
    end.
Proof. intros d. vm_compute. reflexivity. Qed.

Lemma filter_map_comm {A B : Type} (f : A -> B) (p : B -> bool) (l : list A) :
  filter p (map f l) = map f (filter (fun x => p (f x)) l).
Proof.
  induction l as [|x l IH]; simpl; [reflexivity|].
  destruct (p (f x)); simpl; rewrite IH; reflexivity.
Qed.

(** X17. The rows stored for a file agree with its stored counts: there are
    total_rows of them, numbered 1, 2, ... in file order; those a reader
    gets (the ones not flagged duplicate) are valid_rows + error_rows in
    number, and no two of them have the same serialized data. *)
Theorem stored_rows_match_stored_counts :
  forall (dateToISOString : string -> option string) (csv filename uploadId : string)
         (results : list RowValidationResult.t) (summary : CSVValidationSummary.t),
    validateCSV dateToISOString csv = Resolved (results, summary) ->
    let upload := uploadRecord filename summary in
    let rows := rowsToInsert uploadId results in
    List.length rows = UploadRecord.total_rows upload
    /\ map DataRecord.original_row_number rows = seq 1 (UploadRecord.total_rows upload)
    /\ List.length (readableRows rows)
       = UploadRecord.valid_rows upload + UploadRecord.error_rows upload
    /\ NoDup (map (fun row => JSON.stringify (DataRecord.row_data row)) (readableRows rows)).
Proof.
  intros d csv filename uploadId results summary H upload rows.
  rewrite validateCSV_unfold in H.
  destruct (retainedLines csv) as [|headerLine dataLines]; [discriminate|].
  cbv zeta in H.
  destruct (validateLines_Run d (parseFields headerLine) dataLines
              (newCSVValidator (parseFields headerLine)) 1 []) as [rs [this' [E HR]]].
  rewrite E in H. cbn [fst snd app] in H. injection H as <- <-.
  unfold upload, rows, uploadRecord, rowsToInsert, readableRows, getValidationSummary.
  cbn [UploadRecord.total_rows UploadRecord.valid_rows UploadRecord.error_rows
       CSVValidationSummary.totalRows CSVValidationSummary.validRows
       CSVValidationSummary.errorRows].
  split; [apply length_map|]. split; [|split].
  - rewrite map_map. cbn [DataRecord.original_row_number].
    transitivity (map RowValidationResult.rowNumber rs); [apply map_ext; reflexivity|].
    rewrite (Run_rowNumbers d _ _ _ _ _ _ HR), (Run_length d _ _ _ _ _ _ HR). reflexivity.
  - rewrite filter_map_comm, length_map. cbn [DataRecord.is_duplicate].
    pose proof (summary_counts rs (Run_valid_not_duplicate d _ _ _ _ _ _ HR)) as Hs.
    pose proof (filter_partition_length RowValidationResult.isDuplicate rs) as Hp.
    lia.
  - rewrite filter_map_comm, map_map. cbn [DataRecord.is_duplicate DataRecord.row_data].
    pose proof (Run_seen_NoDup d _ _ _ _ _ _ HR) as Hnd.
    rewrite (Run_seenRows d _ _ _ _ _ _ HR), newCSVValidator_seenRows in Hnd.
    cbn [KeySet.empty app] in Hnd. apply Hnd. constructor.
Qed.

Lemma stored_rows_match_stored_counts_witness :
  exists results summary,
    validateCSV RefDate.dateToISOString
                ("id,price" ++ String LF ("1,9.99" ++ String LF "1,9.99"))
    = Resolved (results, summary)
    /\ List.length (readableRows (rowsToInsert "u1" results))
       = UploadRecord.valid_rows (uploadRecord "prices.csv" summary)
         + UploadRecord.error_rows (uploadRecord "prices.csv" summary).
Proof.
  destruct (validateCSV RefDate.dateToISOString
                        ("id,price" ++ String LF ("1,9.99" ++ String LF "1,9.99")))
    as [[results summary]|msg] eqn:E.
  - exists results, summary. split; [reflexivity|].
    apply (proj1 (proj2 (proj2
             (stored_rows_match_stored_counts _ _ "prices.csv" "u1" _ _ E)))).
  - exfalso. vm_compute in E. discriminate E.
Defined.

(* ================================================================== *)
(** * How runs compose                                                 *)
(* ================================================================== *)

Section RunComposition.

Variable dateToISOString : string -> option string.
Variable headers : list string.

Lemma validateLines_app lines1 lines2 : forall this i results,
  validateLines dateToISOString headers this i (lines1 ++ lines2) results
  = validateLines dateToISOString headers
                  (snd (validateLines dateToISOString headers this i lines1 results))
                  (i + List.length lines1) lines2
                  (fst (validateLines dateToISOString headers this i lines1 results)).
Proof.
  induction lines1 as [|line rest IH]; intros this i results.
  - cbn [app validateLines fst snd List.length]. rewrite Nat.add_0_r. reflexivity.
  - cbn [app validateLines List.length]. cbv zeta.
    destruct (validateRow _ _ _ _) as [r this1].
    rewrite IH. replace (S i + List.length rest) with (i + S (List.length rest)) by lia.
    reflexivity.
Qed.

(** The cleaned data of a row depend on the validator only through its
    columns and their types. *)
Lemma coercedData_state t1 t2 rowData :
  columns t1 = columns t2 -> columnTypes t1 = columnTypes t2 ->
  coercedData dateToISOString t1 rowData = coercedData dateToISOString t2 rowData.
Proof. unfold coercedData. intros -> ->. reflexivity. Qed.

Lemma Run_data this i lines rs this' :
  Run dateToISOString headers this i lines rs this' ->
  map RowValidationResult.data rs
  = map (fun line => coercedData dateToISOString this (rowDataOf headers line)) lines.
Proof.
  induction 1 as [|this this1 this' i line rest r rs E _ IH]; [reflexivity|].
  simpl. rewrite IH. f_equal.
  - change r with (fst (r, this1)). rewrite <- E. apply validateRow_data.
  - pose proof (validateRow_columns dateToISOString this (rowDataOf headers line) i)
      as [H1 H2].
    rewrite E in H1, H2. simpl in H1, H2.
    apply map_ext. intros l. apply coercedData_state; assumption.
Qed.

(** A run over lines whose keys are all in the seen set flags every row
    and leaves the validator as it was. *)
Lemma Run_all_seen this i lines rs this' :
  Run dateToISOString headers this i lines rs this' ->
  (forall line, In line lines ->
     In (JSON.stringify (coercedData dateToISOString this (rowDataOf headers line)))
        (seenRows this)) ->
  Forall (fun r => RowValidationResult.isDuplicate r = true
                   /\ RowValidationResult.isValid r = false) rs
  /\ this' = this.
Proof.
  induction 1 as [|this this1 this' i line rest r rs E _ IH]; intros Hseen.
  - split; [constructor | reflexivity].
  - assert (Hr : r = fst (validateRow dateToISOString this (rowDataOf headers line) i))
      by (rewrite E; reflexivity).
    assert (H1 : this1 = snd (validateRow dateToISOString this (rowDataOf headers line) i))
      by (rewrite E; reflexivity).
    assert (D : RowValidationResult.isDuplicate r = true).
    { rewrite Hr, validateRow_isDuplicate. apply KeySetFacts.has_spec.
      unfold keyOf. rewrite validateRow_data. apply Hseen. left. reflexivity. }
    assert (Hstate : this1 = this).
    { rewrite H1. apply validateRow_duplicate_state. rewrite <- Hr. exact D. }
    clear H1. subst this1. destruct IH as [IH1 IH2].
    { intros l Hl. apply Hseen. right. exact Hl. }
    split; [|exact IH2]. constructor; [|exact IH1]. split; [exact D|].
    destruct (RowValidationResult.isValid r) eqn:V; [|reflexivity].
    rewrite Hr in V. apply validateRow_valid_not_duplicate in V. rewrite <- Hr in V.
    congruence.
Qed.

End RunComposition.

(** X18. Earlier rows do not depend on later lines: appending lines to a text
    that has a header keeps its results and adds one result per retained
    line appended. *)
Theorem results_extend_with_appended_lines :
  forall (dateToISOString : string -> option string) (a b : string),
    retainedLines a <> [] ->
    exists more,
      resultsOf (validateCSV dateToISOString (a ++ String LF b))
      = (resultsOf (validateCSV dateToISOString a) ++ more)%list
      /\ List.length more = List.length (retainedLines b).
Proof.
  intros d a b Hne. rewrite !validateCSV_unfold, retainedLines_app.
  destruct (retainedLines a) as [|headerLine dataLines]; [congruence|].
  cbn [app]. cbv zeta. cbn [resultsOf].
  rewrite validateLines_app.
  destruct (validateLines d (parseFields headerLine)
              (newCSVValidator (parseFields headerLine)) 1 dataLines []) as [rs1 this1].
  cbn [fst snd].
  destruct (validateLines_Run d (parseFields headerLine) (retainedLines b) this1
              (1 + List.length dataLines) rs1) as [rs2 [this2 [E HR]]].
  rewrite E. cbn [fst]. exists rs2. split; [reflexivity|].
  apply (Run_length d _ _ _ _ _ _ HR).
Qed.

Lemma results_extend_with_appended_lines_witness :
  exists more,
    resultsOf (validateCSV RefDate.dateToISOString ("id" ++ String LF "1" ++ String LF "2"))
    = (resultsOf (validateCSV RefDate.dateToISOString ("id" ++ String LF "1")) ++ more)%list
    /\ List.length more = 1.
Proof.
  assert (H : retainedLines ("id" ++ String LF "1") <> []) by (vm_compute; discriminate).
  exact (results_extend_with_appended_lines RefDate.dateToISOString
           ("id" ++ String LF "1") "2" H).
Defined.

(** X19. A validator must not be reused: when the lines of a run are validated
    again on the validator the run left, every row is flagged duplicate
    and is invalid, although its cleaned data are those of the first run,
    and the seen set does not change. *)
Theorem reused_validator_flags_every_row :
  forall (dateToISOString : string -> option string) (headers lines : list string)
         (this : CSVValidator) (i j : nat),
    let first := validateLines dateToISOString headers this i lines [] in
    let second := validateLines dateToISOString headers (snd first) j lines [] in
    Forall (fun r => RowValidationResult.isDuplicate r = true
                     /\ RowValidationResult.isValid r = false) (fst second)
    /\ map RowValidationResult.data (fst second) = map RowValidationResult.data (fst first)
    /\ snd second = snd first.
Proof.
  intros d headers lines this i j first second.
  destruct (validateLines_Run d headers lines this i []) as [rs1 [t1 [E1 HR1]]].
  assert (Hf : first = (rs1, t1)) by (unfold first; rewrite E1; reflexivity).
  destruct (validateLines_Run d headers lines t1 j []) as [rs2 [t2 [E2 HR2]]].
  assert (Hs : second = (rs2, t2)) by (unfold second; rewrite Hf; cbn [snd]; rewrite E2; reflexivity).
  rewrite Hs, Hf. cbn [fst snd].
  pose proof (Run_columns d headers _ _ _ _ _ HR1) as [Hc Ht].
  pose proof (Run_data d headers _ _ _ _ _ HR1) as Hd1.
  pose proof (Run_data d headers _ _ _ _ _ HR2) as Hd2.
  assert (Hsame : forall line,
             coercedData d t1 (rowDataOf headers line)
             = coercedData d this (rowDataOf headers line)).
  { intros line. apply coercedData_state; assumption. }
  destruct (Run_all_seen d headers _ _ _ _ _ HR2) as [Hall Hstate].
  { intros line Hl. rewrite Hsame.
    assert (Hin : In (coercedData d this (rowDataOf headers line))
                     (map RowValidationResult.data rs1)).
    { rewrite Hd1. apply in_map_iff. exists line. auto. }
    apply in_map_iff in Hin. destruct Hin as [r [Hr Hin]].
    rewrite <- Hr. apply (Run_keys_seen d headers _ _ _ _ _ HR1), Hin. }
  split; [exact Hall|]. split; [|exact Hstate].
  rewrite Hd1, Hd2. apply map_ext. exact Hsame.
Qed.

(* ================================================================== *)
(** * Problems are recorded in the report                              *)
(* ================================================================== *)

(** The errors of a row depend on the validator through its columns and
    their types only. *)
Lemma validateRow_errors_in (dateToISOString : string -> option string)
      (t t0 : CSVValidator) (rowData : Obj.t string) (n : nat) :
  columns t = columns t0 -> columnTypes t = columnTypes t0 ->
  RowValidationResult.errors (fst (validateRow dateToISOString t rowData n))
  = map (cellError dateToISOString t0 rowData)
        (filter (fun col => negb (ValidationResult.isValid
                                    (cellOf dateToISOString t0 rowData col)))
                (columns t0)).
Proof.
  intros Hc Ht.
  destruct (validateColumn_fold dateToISOString t rowData (columns t)
                                (mkRowAcc [] Obj.empty true)) as [He _].
  cbn [acc_errors app] in He.
  unfold validateRow. cbn [fst RowValidationResult.errors]. rewrite He, Hc.
  unfold cellError, cellOf. rewrite Ht. reflexivity.
Qed.

(** C8. When no line remains after blank lines are dropped, validation is
    rejected with the error "Empty CSV file": a rejection carries a message
    and neither results nor a summary.  Otherwise validation always
    resolves, with one result per retained data line, whatever the cells
    hold, and the problems found are in the report.  The result of the
    n-th data line has row number n; its errors are one entry per
    rejected cell, in column order, naming the column and the reasons; it
    is flagged duplicate exactly when an earlier result has the same key;
    and it is valid exactly when it has no error and is no duplicate.  The
    summary lists one line per result that has errors, in row order,
    naming the row and its errors. *)
Theorem C8_empty_input :
  forall (dateToISOString : string -> option string) (csv : string),
    match retainedLines csv with
    | [] => validateCSV dateToISOString csv = Rejected "Empty CSV file"
    | headerLine :: dataLines =>
        let headers := parseFields headerLine in
        let this := newCSVValidator headers in
        exists results summary,
          validateCSV dateToISOString csv = Resolved (results, summary)
          /\ List.length results = List.length dataLines
          /\ (forall n dataLine,
                nth_error dataLines n = Some dataLine ->
                let rowData := rowDataOf headers dataLine in
                exists r,
                  nth_error results n = Some r
                  /\ RowValidationResult.rowNumber r = S n
                  /\ RowValidationResult.errors r
                     = map (cellError dateToISOString this rowData)
                           (filter (fun col =>
                                      negb (ValidationResult.isValid
                                              (cellOf dateToISOString this rowData col)))
                                   headers)
                  /\ (RowValidationResult.isDuplicate r = true <->
                      exists e, In e (firstn n results) /\ keyOf e = keyOf r)
                  /\ (RowValidationResult.isValid r = true <->
                      RowValidationResult.errors r = []
                      /\ RowValidationResult.isDuplicate r = false))
          /\ CSVValidationSummary.validationErrors summary
             = map rowIssue (filter hasErrors results)
          /\ forall r, In r results -> RowValidationResult.errors r <> [] ->
               In ("Row " ++ JS.numberToString (RowValidationResult.rowNumber r)
                     ++ ": " ++ JS.join ", " (RowValidationResult.errors r))%string
                  (CSVValidationSummary.validationErrors summary)
    end.
Proof.
  intros d csv. rewrite validateCSV_unfold.
  destruct (retainedLines csv) as [|headerLine dataLines]; [reflexivity|].
  cbv zeta.
  destruct (validateLines_Run d (parseFields headerLine) dataLines
              (newCSVValidator (parseFields headerLine)) 1 []) as [rs [this' [E HR]]].
  rewrite E. cbn [fst snd app].
  eexists. eexists. split; [reflexivity|]. split; [|split; [|split]].
  - eapply Run_length; exact HR.
  - intros n dataLine Hn.
    destruct (Run_at d _ _ _ _ _ _ HR n dataLine Hn) as [HRp Hs].
    remember (snd (validateLines d (parseFields headerLine)
                                 (newCSVValidator (parseFields headerLine)) 1
                                 (firstn n dataLines) [])) as state eqn:Hstate.
    clear Hstate.
    destruct (Run_columns d _ _ _ _ _ _ HRp) as [Hc Ht].
    eexists. split; [exact Hs|]. split; [reflexivity|]. split; [|split].
    + rewrite (validateRow_errors_in d state
                 (newCSVValidator (parseFields headerLine)) _ _ Hc Ht).
      rewrite newCSVValidator_columns. reflexivity.
    + rewrite validateRow_isDuplicate, KeySetFacts.has_spec.
      apply (fresh_run_seen d _ _ _ _ _ HRp).
    + apply validateRow_valid_iff.
  - apply getValidationSummary_errors.
  - intros r Hr Hne. unfold getValidationSummary.
    cbn [CSVValidationSummary.validationErrors].
    apply allErrors_fold. right. exists r. auto.
Qed.

Lemma C8_empty_input_witness :
  validateCSV RefDate.dateToISOString (String LF (" " ++ String LF EmptyString))
  = Rejected "Empty CSV file"
  /\ exists r,
       nth_error (resultsOf (validateCSV RefDate.dateToISOString
                                         ("price" ++ String LF "abc"))) 0 = Some r
       /\ RowValidationResult.errors r = ["price: Invalid number format"].
Proof.
  split.
  - exact (C8_empty_input RefDate.dateToISOString (String LF (" " ++ String LF EmptyString))).
  - pose proof (C8_empty_input RefDate.dateToISOString ("price" ++ String LF "abc")) as H.
    assert (E : retainedLines ("price" ++ String LF "abc") = ["price"; "abc"])
      by (vm_compute; reflexivity).
    rewrite E in H. cbv zeta in H.
    destruct H as [results [summary [Hv [_ [Hrow _]]]]].
    destruct (Hrow 0 "abc" eq_refl) as [r [Hn [_ [He _]]]].
    exists r. rewrite Hv. split; [exact Hn|]. rewrite He. vm_compute. reflexivity.
Defined.
